(** * AwardWiz: scraper plugins, AwardWallet integration and transfer partners

    A shallow embedding of the TypeScript sources
      - awardwiz-scrapers/scrapers/united.ts
      - awardwiz-scrapers/scrapers/aa.ts        (American Airlines)
      - awardwiz-scrapers/scrapers/alaska.ts
      - awardwiz-scrapers/integrations/awardwallet.ts
      - awardwiz-scrapers/integrations/transfer-partners.ts
    together with the properties stated about them.

    Conventions.
      - JavaScript numbers are modelled by [Z]: the quantities compared or
        added by the code are mile and point counts.
      - JavaScript strings are modelled by [string]; [toLowerCase] is the
        ASCII one.
      - A computation that may throw has type [Exc A]: [Throw e] is an
        exception that propagates, [Return a] a normal completion.
      - Values whose TypeScript type is declared are modelled at that type;
        values typed [any] are modelled as JSON values. *)

From Stdlib Require Import ZArith List String Ascii Bool Lia Permutation Sorted.
Import ListNotations.
Open Scope string_scope.
Open Scope Z_scope.

(* ===================================================================== *)
(** ** JavaScript runtime: exceptions, strings, object literals          *)
(* ===================================================================== *)

Module JS.

(** Thrown values. Every [throw] of the sources throws [new Error(msg)]; the
    runtime itself throws [TypeError] (property access on [undefined] or
    [null]), [SyntaxError] ([JSON.parse]) and, from the file system, errors
    that carry a [code]. All of them carry a message. *)
Inductive Thrown : Type :=
| Error (message : string)
| TypeError (message : string)
| SyntaxError (message : string)
| SystemError (code message : string).

Definition message (e : Thrown) : string :=
  match e with
  | Error m | TypeError m | SyntaxError m | SystemError _ m => m
  end.

Definition code (e : Thrown) : option string :=
  match e with
  | SystemError c _ => Some c
  | _ => None
  end.

Inductive Exc (A : Type) : Type :=
| Throw (e : Thrown)
| Return (a : A).
Arguments Throw {A} e.
Arguments Return {A} a.

Definition bind {A B : Type} (c : Exc A) (k : A -> Exc B) : Exc B :=
  match c with
  | Throw e => Throw e
  | Return a => k a
  end.

(** [xs.map(f)] where [f] may throw: elements are visited left to right and
    the first exception aborts the whole map. *)
Fixpoint mapM {A B : Type} (f : A -> Exc B) (xs : list A) : Exc (list B) :=
  match xs with
  | [] => Return []
  | x :: rest =>
      bind (f x) (fun y => bind (mapM f rest) (fun ys => Return (y :: ys)))
  end.

(** [xs.reduce(f, init)] / a [for ... of] loop whose body may throw. *)
Fixpoint foldM {A S : Type} (f : S -> A -> Exc S) (xs : list A) (s : S) : Exc S :=
  match xs with
  | [] => Return s
  | x :: rest => bind (f s x) (foldM f rest)
  end.

(** [xs[0]!.p...]: reading a property of [xs[0]] throws when [xs] is empty. *)
Definition first {A : Type} (xs : list A) : Exc A :=
  match xs with
  | x :: _ => Return x
  | [] => Throw (TypeError "Cannot read properties of undefined")
  end.

(** *** Strings *)

Definition startsWith (s p : string) : bool := String.prefix p s.

Fixpoint includes (s sub : string) : bool :=
  if String.prefix sub s then true
  else match s with
       | EmptyString => false
       | String _ rest => includes rest sub
       end.

Definition lower_ascii (c : ascii) : ascii :=
  let n := nat_of_ascii c in
  if andb (Nat.leb 65 n) (Nat.leb n 90) then ascii_of_nat (n + 32) else c.

Fixpoint toLowerCase (s : string) : string :=
  match s with
  | EmptyString => EmptyString
  | String c rest => String (lower_ascii c) (toLowerCase rest)
  end.

Fixpoint skip (n : nat) (s : string) : string :=
  match n, s with
  | O, _ => s
  | S n', String _ rest => skip n' rest
  | S _, EmptyString => EmptyString
  end.

(** [s.replace(pat, rep)] with a string pattern: the first occurrence only. *)
Fixpoint replace (pat rep s : string) : string :=
  if String.prefix pat s then rep ++ skip (String.length pat) s
  else match s with
       | EmptyString => EmptyString
       | String c rest => String c (replace pat rep rest)
       end.

(** [s.slice(0, n)] and [s.substring(0, n)] for [0 <= n]. *)
Definition slice0 (n : nat) (s : string) : string := String.substring 0 n s.

(** [s?.[0]] on an optional string: the first character, if any. *)
Definition charAt0 (s : option string) : option string :=
  match s with
  | Some (String c _) => Some (String c EmptyString)
  | _ => None
  end.

(** [a || b] on strings: the empty string is falsy. *)
Definition or_string (a b : string) : string :=
  if String.eqb a "" then b else a.

Fixpoint join (sep : string) (xs : list string) : string :=
  match xs with
  | [] => ""
  | [x] => x
  | x :: rest => x ++ sep ++ join sep rest
  end.

(** *** Property lookup on an object literal with string values

    [{k1: v1, ...}[key]] finds own properties first and then the members
    that every object literal inherits from [Object.prototype]; only when
    both fail is the result [undefined]. *)
Inductive Value : Type :=
| VUndefined
| VString (s : string)
| VInherited (member : string).

Definition Object_prototype_members : list string :=
  [ "constructor"; "hasOwnProperty"; "isPrototypeOf"; "propertyIsEnumerable";
    "toLocaleString"; "toString"; "valueOf"; "__proto__";
    "__defineGetter__"; "__defineSetter__"; "__lookupGetter__"; "__lookupSetter__" ].

Definition own (o : list (string * string)) (key : string) : option string :=
  match find (fun kv => String.eqb (fst kv) key) o with
  | Some kv => Some (snd kv)
  | None => None
  end.

Definition get (o : list (string * string)) (key : string) : Value :=
  match own o key with
  | Some v => VString v
  | None =>
      if existsb (String.eqb key) Object_prototype_members
      then VInherited key else VUndefined
  end.

(** Truthiness: [undefined] and the empty string are falsy, objects and
    functions are truthy. *)
Definition truthy (v : Value) : bool :=
  match v with
  | VUndefined => false
  | VString s => negb (String.eqb s "")
  | VInherited _ => true
  end.

(** [a ?? b] *)
Definition nullish (a b : Value) : Value :=
  match a with
  | VUndefined => b
  | _ => a
  end.

(** [a === b]: strings compare by content, inherited members by identity. *)
Definition strict_eq (a b : Value) : bool :=
  match a, b with
  | VUndefined, VUndefined => true
  | VString s, VString t => String.eqb s t
  | VInherited m, VInherited n => String.eqb m n
  | _, _ => false
  end.

(** *** [Array.prototype.sort] with a comparator

    The sort is stable; an element moves behind another only when the
    comparator says so with a positive number. *)
Fixpoint insertBy {A : Type} (compare : A -> A -> Z) (x : A) (sorted : list A) : list A :=
  match sorted with
  | [] => [x]
  | y :: rest =>
      if 0 <? compare x y then y :: insertBy compare x rest
      else x :: y :: rest
  end.

Definition sort {A : Type} (compare : A -> A -> Z) (xs : list A) : list A :=
  fold_right (insertBy compare) [] xs.

(** *** Object literals as they are written in the source *)
Inductive Literal : Type :=
| LString (s : string)
| LNumber (n : Z)
| LBoolean (b : bool)
| LArray (items : list string).

Definition ObjectLiteral : Type := list (string * Literal).

Definition keys (o : ObjectLiteral) : list string := map fst o.

Definition hasField (o : ObjectLiteral) (k : string) : bool :=
  existsb (String.eqb k) (keys o).

Definition field (o : ObjectLiteral) (k : string) : option Literal :=
  match find (fun kv => String.eqb (fst kv) k) o with
  | Some kv => Some (snd kv)
  | None => None
  end.

(** [{...o, k: v}]: the own fields of [o], with [k] set to [v]. *)
Fixpoint set (o : ObjectLiteral) (k : string) (v : Literal) : ObjectLiteral :=
  match o with
  | [] => [(k, v)]
  | (k', v') :: rest =>
      if String.eqb k' k then (k', v) :: rest else (k', v') :: set rest k v
  end.

End JS.

Import JS.

Notation "x <- c ;; k" := (JS.bind c (fun x => k))
  (at level 61, c at next level, right associativity).

(* ===================================================================== *)
(** ** Shared scraper types (awardwiz-types, arkalis handle)             *)
(* ===================================================================== *)

Module AwardWizTypes.

Record AwardWizQuery : Type := {
  q_origin : string;
  q_destination : string;
  q_departureDate : string
}.

Record FlightFare : Type := {
  cash : Z;
  currencyOfCash : string;
  miles : Z;
  cabin : Value;
  scraper : string;
  bookingClass : option string;
  isSaverFare : option bool
}.

Record FlightAmenities : Type := {
  hasPods : option bool;
  hasWiFi : option bool
}.

Record FlightWithFares : Type := {
  departureDateTime : string;
  arrivalDateTime : string;
  origin : string;
  destination : string;
  flightNo : string;
  duration : Z;
  aircraft : string;
  amenities : FlightAmenities;
  fares : list FlightFare
}.

End AwardWizTypes.

Import AwardWizTypes.

(** The result of [waitFor]: the name of the condition that won the race. *)
Record MatchResult : Type := {
  mr_name : string;
  mr_response : option string
}.

(** The expression handed to [arkalis.evaluate]. The sources build it as
    text; here it is kept as the page-side call that the text denotes. *)
Inductive PageScript : Type :=
| FetchTokenHash (url : string)
| FetchText (url method : string) (headers : list (string * string))
            (body : list (string * string)).

(** The engine handle as the plugins use it. [goto] and [log] return
    nothing that a plugin reads. *)
Record Arkalis : Type := {
  waitFor : list (string * ObjectLiteral) -> Exc MatchResult;
  evaluate : PageScript -> Exc string;
  warn : string -> list FlightWithFares
}.

(** A wait condition of [type: "url"]. *)
Definition isUrlCondition (c : ObjectLiteral) : bool :=
  match field c "type" with
  | Some (LString t) => String.eqb t "url"
  | _ => false
  end.

(* ===================================================================== *)
(** ** scrapers/united.ts                                                *)
(* ===================================================================== *)

Module United.

Definition meta : ObjectLiteral :=
  [ ("name", LString "united");
    ("blockUrls", LArray ["liveperson.net"; "tags.tiqcdn.com"]) ].

(** scraper-types/united: the fields the scraper reads. *)
Record Price : Type := {
  Amount : Z;
  Currency : string
}.

Record Product : Type := {
  Prices : list Price;
  BookingCode : option string;
  Description : option string
}.

Record Connection : Type := {
  c_MarketingCarrier : string;
  c_FlightNumber : string
}.

Record Flight : Type := {
  DepartDateTime : string;
  DestinationDateTime : string;
  Origin : string;
  Destination : string;
  MarketingCarrier : string;
  FlightNumber : string;
  TravelMinutes : Z;
  EquipmentDescription : string;
  Connections : list Connection;
  Products : list Product
}.

Record Trip : Type := {
  Flights : list Flight;
  RequestedOrigin : string;
  t_Origin : string;
  RequestedDestination : string;
  t_Destination : string
}.

(** [UnitedResponse]: [data?.Trips?] *)
Record UnitedResponse : Type := {
  data : option (option (list Trip))
}.

Definition cabinByDescription : list (string * string) :=
  [ ("United First", "business"); ("United Economy", "economy");
    ("United Business", "business"); ("Economy", "economy");
    ("Business", "business"); ("First", "first");
    ("United Polaris business", "business");
    ("United Premium Plus", "economy") ].

(** An absent [Description] is the property key ["undefined"]. *)
Definition descriptionKey (p : Product) : string :=
  match Description p with
  | Some d => d
  | None => "undefined"
  end.

Definition cabinOf (p : Product) : Value := get cabinByDescription (descriptionKey p).

(** The body of [for (const product of flight.Products)]; the state is
    [result.fares]. Assigning to the local [existingFare] leaves
    [result.fares] as it was. *)
Definition productStep (fares : list FlightFare) (product : Product)
  : Exc (list FlightFare) :=
  match Prices product with
  | [] => Return fares
  | price0 :: more =>
      let miles := Amount price0 in
      let cash := match more with p1 :: _ => Amount p1 | [] => 0 end in
      let currencyOfCash := match more with p1 :: _ => Currency p1 | [] => "" end in
      let bookingClass := BookingCode product in
      let cabin := cabinOf product in
      match cabin with
      | VUndefined => Throw (Error ("Unknown cabin type: " ++ descriptionKey product))
      | _ =>
          match find (fun fare => strict_eq (AwardWizTypes.cabin fare) cabin) fares with
          | Some _ => Return fares
          | None =>
              Return (fares ++
                [ {| cash := cash; currencyOfCash := currencyOfCash; miles := miles;
                     cabin := cabin; scraper := "united";
                     bookingClass := bookingClass; isSaverFare := None |} ])%list
          end
      end
  end.

Definition connectionSuffix (flight : Flight) (c : Connection) : string :=
  " / " ++ or_string (c_MarketingCarrier c) (MarketingCarrier flight)
        ++ " " ++ or_string (c_FlightNumber c) "".

(** The three [continue] guards in front of the product loop. *)
Definition flightKept (query : AwardWizQuery) (unitedTrip : Trip) (flight : Flight) : bool :=
  String.eqb (Origin flight) (or_string (RequestedOrigin unitedTrip) (t_Origin unitedTrip))
  && String.eqb (Destination flight)
       (or_string (RequestedDestination unitedTrip) (t_Destination unitedTrip))
  && String.eqb (slice0 10 (DepartDateTime flight ++ ":00"))
       (slice0 10 (q_departureDate query)).

(** The body of [for (const flight of unitedTrip.Flights)]; the state is
    [results]. *)
Definition flightStep (query : AwardWizQuery) (unitedTrip : Trip)
    (results : list FlightWithFares) (flight : Flight) : Exc (list FlightWithFares) :=
  if negb (flightKept query unitedTrip flight) then Return results
  else
    let flightNo :=
      match Connections flight with
      | [] => MarketingCarrier flight ++ " " ++ FlightNumber flight
      | cs => (MarketingCarrier flight ++ " " ++ FlightNumber flight)
                ++ join "" (map (connectionSuffix flight) cs)
      end in
    fares <- foldM productStep (Products flight) [] ;;
    Return (results ++
      [ {| departureDateTime := DepartDateTime flight ++ ":00";
           arrivalDateTime := DestinationDateTime flight ++ ":00";
           origin := Origin flight;
           destination := Destination flight;
           flightNo := flightNo;
           duration := TravelMinutes flight;
           aircraft := EquipmentDescription flight;
           amenities := {| hasPods := None; hasWiFi := None |};
           fares := fares |} ])%list.

Definition standardizeResults (query : AwardWizQuery) (unitedTrip : Trip)
  : Exc (list FlightWithFares) :=
  foldM (flightStep query unitedTrip) (Flights unitedTrip) [].

Definition waitConditions : list (string * ObjectLiteral) :=
  [ ("loaded", [ ("type", LString "url");
                 ("url", LString "https://www.united.com/api/auth/anonymous-token") ]);
    ("anti-botting", [ ("type", LString "html");
                       ("html", LString "united.com was unable to complete") ]) ].

Definition fetchFlightsCall (query : AwardWizQuery) (token : string) : PageScript :=
  FetchText "/api/flight/FetchFlights" "POST"
    [ ("Content-Type", "application/json"); ("Accept", "application/json");
      ("X-Authorization-api", "bearer " ++ token) ]
    [ ("DepartDate", q_departureDate query);
      ("Destination", q_destination query);
      ("Origin", q_origin query) ].

Section RunScraper.

(** [JSON.parse(responseText) as UnitedResponse] *)
Variable JSON_parse : string -> Exc UnitedResponse.

Definition runScraper (arkalis : Arkalis) (query : AwardWizQuery)
  : Exc (list FlightWithFares) :=
  pageResult <- waitFor arkalis waitConditions ;;
  if String.eqb (mr_name pageResult) "anti-botting"
  then Throw (Error "anti-botting")
  else
    tokenResp <- evaluate arkalis (FetchTokenHash "/api/auth/anonymous-token") ;;
    if String.eqb tokenResp ""
    then Throw (Error "Failed to get auth token")
    else
      responseText <- evaluate arkalis (fetchFlightsCall query tokenResp) ;;
      if String.eqb responseText ""
      then Throw (Error "Empty response from FetchFlights")
      else
        fetchFlights <- JSON_parse responseText ;;
        match data fetchFlights with
        | Some (Some (trip0 :: _)) =>
            flights <- standardizeResults query trip0 ;;
            Return flights
        | _ => Return []
        end.

End RunScraper.

End United.

(* ===================================================================== *)
(** ** scrapers/aa.ts                                                    *)
(* ===================================================================== *)

Module AA.

Definition meta : ObjectLiteral :=
  [ ("name", LString "aa");
    ("blockUrls",
     LArray ["cludo.com"; "entrust.net"; "tiqcdn.com"; "cludo.com"; "*.go-mpulse.net"]) ].

(** scraper-types/aa: the fields the scraper reads. *)
Record Leg : Type := {
  aircraft_name : string;
  leg_amenities : list string
}.

Record Segment : Type := {
  seg_departureDateTime : string;
  seg_arrivalDateTime : string;
  origin_code : string;
  destination_code : string;
  carrierCode : string;
  flightNumber : string;
  legs : list Leg
}.

Record PricingDetail : Type := {
  productAvailable : bool;
  extendedFareCode : option string;
  productType : string;
  taxes_amount : Z;
  taxes_currency : string;
  perPassengerAwardPoints : Z
}.

Record Slice : Type := {
  segments : list Segment;
  durationInMinutes : Z;
  pricingDetail : list PricingDetail
}.

Record AAResponse : Type := {
  errorNumber : option Z;
  error : option string;
  message : option string;
  slices : option (list Slice)
}.

Definition cabinByFareCodeTable : list (string * string) :=
  [ ("F", "first"); ("J", "business"); ("W", "economy"); ("Y", "economy") ].

Definition awardCabinByFareCodeTable : list (string * string) :=
  [ ("Z", "first"); ("U", "business"); ("T", "economy"); ("X", "economy") ].

Definition cabinByProductTypeTable : list (string * string) :=
  [ ("COACH", "economy"); ("PREMIUM_ECONOMY", "economy");
    ("FIRST", "first"); ("BUSINESS", "business") ].

(** [product.extendedFareCode?.[0] ?? ""] *)
Definition fareCodeKey (product : PricingDetail) : string :=
  match charAt0 (extendedFareCode product) with
  | Some c => c
  | None => ""
  end.

Definition awardCabinByFareCode (product : PricingDetail) : Value :=
  get awardCabinByFareCodeTable (fareCodeKey product).

Definition cabinByFareCode (product : PricingDetail) : Value :=
  get cabinByFareCodeTable (fareCodeKey product).

(** [let cabin = awardCabinByFareCode ?? cabinByFareCode ?? {...}[productType]] *)
Definition lookedUpCabin (product : PricingDetail) : Value :=
  nullish (awardCabinByFareCode product)
    (nullish (cabinByFareCode product)
       (get cabinByProductTypeTable (productType product))).

(** The cabin after the JetBlue rule. *)
Definition cabinOf (segment : Segment) (product : PricingDetail) : Value :=
  let cabin := lookedUpCabin product in
  if String.eqb (carrierCode segment) "B6" && strict_eq cabin (VString "first")
  then VString "business" else cabin.

Definition dateTime (s : string) : string :=
  slice0 16 (replace "T" " " (replace " " "" s)).

Definition flightLabel (s : Segment) : string :=
  carrierCode s ++ " " ++ flightNumber s.

Fixpoint last_opt {A : Type} (xs : list A) : option A :=
  match xs with
  | [] => None
  | [x] => Some x
  | _ :: rest => last_opt rest
  end.

Section StandardizeResults.

(** [JSON.stringify(segment, null, 2)], which ends the error message. *)
Variable JSON_stringify : Segment -> string.

(** The callback of [.map((product): FlightFare => ...)]. *)
Definition toFare (segment : Segment) (product : PricingDetail) : Exc FlightFare :=
  let cabin := lookedUpCabin product in
  if negb (truthy cabin)
  then Throw (Error
         ("Unknown cabin type on " ++ flightLabel segment
          ++ ". Fare code: "
          ++ match charAt0 (extendedFareCode product) with
             | Some c => c | None => "undefined" end
          ++ ", product type: " ++ productType product
          ++ String (ascii_of_nat 10) (JSON_stringify segment)))
  else
    Return {| cash := taxes_amount product;
              currencyOfCash := taxes_currency product;
              miles := perPassengerAwardPoints product;
              cabin := cabinOf segment product;
              scraper := "aa";
              bookingClass := charAt0 (extendedFareCode product);
              isSaverFare :=
                Some (negb (strict_eq (awardCabinByFareCode product) VUndefined)) |}.

(** The callback of [.reduce<FlightFare[]>((lowestCabinFares, fare) => ..., [])]. *)
Definition keepLowest (segment : Segment) (lowestCabinFares : list FlightFare)
    (fare : FlightFare) : Exc (list FlightFare) :=
  if strict_eq (cabin fare) VUndefined
  then Throw (Error ("Unknown cabin type on " ++ flightLabel segment))
  else
    let existing :=
      find (fun check => strict_eq (cabin check) (cabin fare)) lowestCabinFares in
    match existing with
    | Some e =>
        if miles e <? miles fare then Return lowestCabinFares
        else Return (filter (fun check => negb (strict_eq (cabin check) (cabin fare)))
                       lowestCabinFares ++ [fare])%list
    | None =>
        Return (filter (fun check => negb (strict_eq (cabin check) (cabin fare)))
                  lowestCabinFares ++ [fare])%list
    end.

(** [slice.pricingDetail.filter(...).map(...).reduce(...)] *)
Definition faresOf (segment : Segment) (slice : Slice) : Exc (list FlightFare) :=
  mapped <- mapM (toFare segment) (filter productAvailable (pricingDetail slice)) ;;
  foldM (keepLowest segment) mapped [].

(** The callback of [slices.map((slice) => ...)]: [None] is the bare
    [return] that the trailing [.filter] drops. *)
Definition standardizeSlice (query : AwardWizQuery) (slice : Slice)
  : Exc (option FlightWithFares) :=
  segment <- first (segments slice) ;;
  leg <- first (legs segment) ;;
  fares <- faresOf segment slice ;;
  let result :=
    {| departureDateTime := dateTime (seg_departureDateTime segment);
       arrivalDateTime := dateTime (seg_arrivalDateTime segment);
       origin := origin_code segment;
       destination := destination_code segment;
       flightNo := flightLabel segment;
       duration := durationInMinutes slice;
       aircraft := aircraft_name leg;
       amenities :=
         {| hasPods := Some (existsb (fun a => includes a "lie-flat") (leg_amenities leg));
            hasWiFi := Some (existsb (fun a => includes a "wifi") (leg_amenities leg)) |};
       fares := fares |} in
  match last_opt (segments slice) with
  | None => Throw (TypeError "Cannot read properties of undefined")
  | Some lastSeg =>
      if negb (String.eqb (origin_code segment) (q_origin query))
         || negb (String.eqb (destination_code lastSeg) (q_destination query))
      then Return None
      else if (1 <? Z.of_nat (List.length (segments slice)))
      then
        Return (Some
          {| departureDateTime := departureDateTime result;
             arrivalDateTime := dateTime (seg_arrivalDateTime lastSeg);
             origin := origin result;
             destination := destination_code lastSeg;
             flightNo := join " / " (map flightLabel (segments slice));
             duration := duration result;
             aircraft :=
               join " / "
                 (map (fun s => match legs s with
                                | l :: _ => aircraft_name l
                                | [] => ""
                                end) (segments slice));
             amenities := amenities result;
             fares := AwardWizTypes.fares result |})
      else Return (Some result)
  end.

Fixpoint dropUndefined {A : Type} (xs : list (option A)) : list A :=
  match xs with
  | [] => []
  | Some x :: rest => x :: dropUndefined rest
  | None :: rest => dropUndefined rest
  end.

Definition standardizeResults (slices : list Slice) (query : AwardWizQuery)
  : Exc (list FlightWithFares) :=
  mapped <- mapM (standardizeSlice query) slices ;;
  Return (dropUndefined mapped).

End StandardizeResults.

Definition waitConditions : list (string * ObjectLiteral) :=
  [ ("success", [ ("type", LString "url");
                  ("url", LString "https://www.aa.com/booking/*/find-flights*");
                  ("onlyStatusCode", LNumber 200);
                  ("othersThrow", LBoolean true) ]) ].

Definition searchCall (query : AwardWizQuery) : PageScript :=
  FetchText "https://www.aa.com/booking/api/search/itinerary" "POST"
    [ ("content-type", "application/json");
      ("accept", "application/json, text/plain, */*");
      ("accept-language", "en-US,en;q=0.9") ]
    [ ("departureDate", q_departureDate query);
      ("destination", q_destination query);
      ("origin", q_origin query) ].

Section RunScraper.

Variable JSON_stringify : Segment -> string.
(** [JSON.parse(responseText) as AAResponse] *)
Variable JSON_parse : string -> Exc AAResponse.

(** [throw new Error(json.error)]: an absent value gives an empty message. *)
Definition errorOf (m : option string) : Thrown :=
  Error match m with Some s => s | None => "" end.

Definition runScraper (arkalis : Arkalis) (query : AwardWizQuery)
  : Exc (list FlightWithFares) :=
  _ <- waitFor arkalis waitConditions ;;
  responseText <- evaluate arkalis (searchCall query) ;;
  if String.eqb responseText ""
  then Throw (Error "Empty response from AA search API")
  else
    json <- JSON_parse responseText ;;
    let n := match errorNumber json with Some n => n | None => 0 end in
    let parse _ :=
      standardizeResults JSON_stringify
        match slices json with Some s => s | None => [] end query in
    if 0 <? n then
      match error json, message json with
      | Some e, _ =>
          if negb (n =? 309) then Throw (errorOf (Some e))
          else match message json with
               | Some m => if negb (n =? 1100) then Throw (errorOf (Some m)) else parse tt
               | None => parse tt
               end
      | None, Some m => if negb (n =? 1100) then Throw (errorOf (Some m)) else parse tt
      | None, None => parse tt
      end
    else parse tt.

End RunScraper.

End AA.

(* ===================================================================== *)
(** ** scrapers/alaska.ts                                                *)
(* ===================================================================== *)

Module Alaska.

Definition meta : ObjectLiteral :=
  [ ("name", LString "alaska");
    ("blockUrls",
     LArray
       [ "cdn.appdynamics.com"; "*.siteintercept.qualtrics.com";
         "dc.services.visualstudio.com";
         "js.adsrvr.org"; "siteintercept.qualtrics.com"; "bing.com"; "tiktok.com";
         "www.googletagmanager.com"; "facebook.net";
         "demdex.net"; "cdn.uplift-platform.com";
         "contentcdnprodacct.blob.core.windows.net"; "doubleclick.net";
         "www.google-analytics.com"; "collect.tealiumiq.com";
         "alaskaair-app.quantummetric.com"; "facebook.com";
         "rl.quantummetric.com"; "app.securiti.ai"; "cdn.optimizely.com" ]) ].

(** scraper-types/alaska: the fields the scraper reads. *)
Record Fare : Type := {
  bookingCodes : list string;
  cabins : list string;
  grandTotal : Z;
  milesPoints : Z
}.

Record Segment : Type := {
  departureTime : string;
  arrivalTime : string;
  departureStation : string;
  arrivalStation : string;
  carrierCode : string;
  flightNumber : string;
  seg_duration : Z;
  seg_aircraft : string;
  seg_amenities : list string
}.

(** [fares] is an object keyed by fare name; [Object.values] lists its
    values in property order, which is the order kept here. *)
Record Slice : Type := {
  segments : list Segment;
  slice_fares : list (string * Fare)
}.

Record AlaskaResponse : Type := {
  slices : option (list Slice)
}.

Definition Object_values {A : Type} (o : list (string * A)) : list A := map snd o.

Definition knownCabins : list string := ["MAIN"; "FIRST"; "SAVER"; "COACH"; "BUSINESS"].

Definition cabinTable : list (string * string) :=
  [ ("FIRST", "business"); ("MAIN", "economy"); ("SAVER", "economy");
    ("COACH", "economy"); ("BUSINESS", "business") ].

(** [fare.cabins[0]] is not one of the five accepted names. *)
Definition unknownCabin (fare : Fare) : bool :=
  match cabins fare with
  | c :: _ => negb (existsb (String.eqb c) knownCabins)
  | [] => true
  end.

Fixpoint removeFirst {A : Type} (p : A -> bool) (xs : list A) : list A :=
  match xs with
  | [] => []
  | x :: rest => if p x then rest else x :: removeFirst p rest
  end.

Section StandardizeResults.

(** [JSON.stringify(fare, null, 2)], which ends the error messages. *)
Variable JSON_stringify : Fare -> string.

Definition dump (fare : Fare) : string :=
  String (ascii_of_nat 10) (JSON_stringify fare ++ "}").

(** The body of [for (const fare of Object.values(slice.fares))]; the
    state is [result.fares]. *)
Definition fareStep (fares : list FlightFare) (fare : Fare) : Exc (list FlightFare) :=
  if negb (Nat.eqb (List.length (bookingCodes fare)) 1)
  then Throw (Error ("multiple booking codes" ++ dump fare))
  else if negb (Nat.eqb (List.length (cabins fare)) 1)
  then Throw (Error ("multiple cabins" ++ dump fare))
  else
    match cabins fare with
    | [] => Throw (Error ("multiple cabins" ++ dump fare))
    | cabin0 :: _ =>
        if unknownCabin fare
        then Throw (Error ("unknown cabin: " ++ cabin0 ++ dump fare))
        else
          let fareToAdd :=
            {| bookingClass := hd_error (bookingCodes fare);
               cabin := get cabinTable cabin0;
               cash := grandTotal fare;
               currencyOfCash := "USD";
               miles := milesPoints fare;
               scraper := "alaska";
               isSaverFare := Some (String.eqb cabin0 "SAVER") |} in
          let sameCabin := fun f => strict_eq (cabin f) (cabin fareToAdd) in
          match find sameCabin fares with
          | Some existingForCabin =>
              if miles fareToAdd <? miles existingForCabin
              then Return (removeFirst sameCabin fares ++ [fareToAdd])%list
              else Return fares
          | None => Return (fares ++ [fareToAdd])%list
          end
    end.

(** The two [continue] guards of the slice loop; they are evaluated on a
    slice that has a first segment. *)
Definition sliceKept (query : AwardWizQuery) (slice : Slice) : bool :=
  match segments slice with
  | [segment] =>
      String.eqb (departureStation segment) (q_origin query)
      && String.eqb (arrivalStation segment) (q_destination query)
  | _ => false
  end.

(** The body of [for (const slice of raw.slices!)]; the state is [results]. *)
Definition sliceStep (query : AwardWizQuery) (results : list FlightWithFares)
    (slice : Slice) : Exc (list FlightWithFares) :=
  if (1 <? Z.of_nat (List.length (segments slice))) then Return results
  else
    segment <- first (segments slice) ;;
    if negb (String.eqb (departureStation segment) (q_origin query))
       || negb (String.eqb (arrivalStation segment) (q_destination query))
    then Return results
    else
      fares <- foldM fareStep (Object_values (slice_fares slice)) [] ;;
      Return (results ++
        [ {| departureDateTime := replace "T" " " (slice0 19 (departureTime segment));
             arrivalDateTime := replace "T" " " (slice0 19 (arrivalTime segment));
             origin := departureStation segment;
             destination := arrivalStation segment;
             flightNo := carrierCode segment ++ " " ++ flightNumber segment;
             duration := seg_duration segment;
             aircraft := seg_aircraft segment;
             fares := fares;
             amenities :=
               {| hasPods := None;
                  hasWiFi := Some (existsb (String.eqb "Wi-Fi") (seg_amenities segment)) |}
          |} ])%list.

Definition standardizeResults (raw : AlaskaResponse) (query : AwardWizQuery)
  : Exc (list FlightWithFares) :=
  match slices raw with
  | Some ss => foldM (sliceStep query) ss []
  | None => Throw (TypeError "undefined is not iterable")
  end.

End StandardizeResults.

Definition waitConditions : list (string * ObjectLiteral) :=
  [ ("loaded", [ ("type", LString "url"); ("url", LString "*alaskaair.com*") ]) ].

Definition searchCall (query : AwardWizQuery) : PageScript :=
  FetchText
    ("/searchbff/V3/search?origins=" ++ q_origin query
       ++ "&destinations=" ++ q_destination query
       ++ "&dates=" ++ q_departureDate query
       ++ "&numADTs=1&fareView=as_awards&sessionID=&solutionSetIDs=&solutionIDs=")
    "GET" [ ("Accept", "application/json") ] [].

Section RunScraper.

Variable JSON_stringify : Fare -> string.
(** [JSON.parse(responseText) as AlaskaResponse] *)
Variable JSON_parse : string -> Exc AlaskaResponse.

Definition runScraper (arkalis : Arkalis) (query : AwardWizQuery)
  : Exc (list FlightWithFares) :=
  _ <- waitFor arkalis waitConditions ;;
  responseText <- evaluate arkalis (searchCall query) ;;
  if String.eqb responseText "" || startsWith responseText "<!"
  then Throw (Error ("Alaska returned HTML instead of JSON: " ++ slice0 100 responseText))
  else
    fetchFlights <- JSON_parse responseText ;;
    match slices fetchFlights with
    | None => Return (warn arkalis "No scheduled flights between cities")
    | Some _ =>
        results <- standardizeResults JSON_stringify fetchFlights query ;;
        Return results
    end.

End RunScraper.

End Alaska.

(* ===================================================================== *)
(** ** integrations/awardwallet.ts                                       *)
(* ===================================================================== *)

Module AwardWallet.

(** The response body is typed [any]: a JSON value. A member list holds
    each key once, as [JSON.parse] leaves it. *)
#[local] Unset Elimination Schemes.
Inductive JSON : Type :=
| JNull
| JBool (b : bool)
| JNumber (n : Z)
| JString (s : string)
| JArray (items : list JSON)
| JObject (members : list (string * JSON)).
#[local] Set Elimination Schemes.

(** A JavaScript value read out of JSON data: [None] is [undefined]. *)
Definition Any : Type := option JSON.

Record AwardWalletCredentials : Type := {
  apiKey : string;
  userId : string
}.

(** The fields are copied from [any]-typed data, so they hold whatever the
    service sent. *)
Record AwardWalletBalance : Type := {
  programId : JSON;
  programName : JSON;
  currency : JSON;
  balance : JSON;
  expirationDate : Any;
  lastUpdated : JSON;
  isActive : bool
}.

Record AwardWalletResponse : Type := {
  success : bool;
  balances : list AwardWalletBalance;
  error : option string
}.

Record Response : Type := {
  ok : bool;
  status : Z;
  statusText : string;
  json : Exc JSON
}.

(** What the function reads from its environment. *)
Record Runtime : Type := {
  HOME : option string;
  path_join : list string -> string;
  readFile : string -> Exc string;
  (** [JSON.parse(credentialsData) as AwardWalletCredentials]: the two
      fields, each possibly absent. *)
  JSON_parse_credentials : string -> Exc (option string * option string);
  fetch : string -> string -> list (string * string) -> Exc Response;
  (** [new Date().toISOString()] *)
  now : string;
  Number_toString : Z -> string;
  StringToNumber : string -> option Z;
  ToString : JSON -> string
}.

(** [v.key] on an [any] value. *)
Definition prop (v : JSON) (key : string) : Exc Any :=
  match v with
  | JNull => Throw (TypeError ("Cannot read properties of null (reading '" ++ key ++ "')"))
  | JObject members =>
      Return match find (fun kv => String.eqb (fst kv) key) members with
             | Some kv => Some (snd kv)
             | None => None
             end
  | _ => Return None
  end.

Definition truthy (v : Any) : bool :=
  match v with
  | None => false
  | Some JNull => false
  | Some (JBool b) => b
  | Some (JNumber n) => negb (n =? 0)
  | Some (JString s) => negb (String.eqb s "")
  | Some (JArray _) | Some (JObject _) => true
  end.

(** [a || b] *)
Definition or_else (a b : Any) : Any := if truthy a then a else b.

Section WithRuntime.

Variable rt : Runtime.

(** [ToNumber]; [None] is [NaN]. *)
Definition ToNumber (v : JSON) : option Z :=
  match v with
  | JNull => Some 0
  | JBool b => Some (if b then 1 else 0)
  | JNumber n => Some n
  | JString s => StringToNumber rt s
  | JArray _ | JObject _ => StringToNumber rt (ToString rt v)
  end.

(** [v > 0] *)
Definition gt0 (v : JSON) : bool :=
  match ToNumber v with
  | Some n => 0 <? n
  | None => false
  end.

(** [(a, b) => b.balance - a.balance]; a [NaN] result counts as [0]. *)
Definition byBalanceDescending (a b : AwardWalletBalance) : Z :=
  match ToNumber (balance b), ToNumber (balance a) with
  | Some y, Some x => y - x
  | _, _ => 0
  end.

Definition credentialsPath : string :=
  path_join rt
    [ match HOME rt with Some h => or_string h "~" | None => "~" end;
      ".openclaw"; "credentials"; "awardwallet.json" ].

Definition loadAwardWalletCredentials : Exc AwardWalletCredentials :=
  let attempt : Exc AwardWalletCredentials :=
    credentialsData <- readFile rt credentialsPath ;;
    credentials <- JSON_parse_credentials rt credentialsData ;;
    match credentials with
    | (Some k, Some u) =>
        if String.eqb k "" || String.eqb u ""
        then Throw (Error "AwardWallet credentials must include apiKey and userId")
        else Return {| apiKey := k; userId := u |}
    | _ => Throw (Error "AwardWallet credentials must include apiKey and userId")
    end in
  match attempt with
  | Return credentials => Return credentials
  | Throw error =>
      match JS.code error with
      | Some "ENOENT" =>
          Throw (Error ("AwardWallet credentials not found at " ++ credentialsPath
                        ++ ". Please create this file with your API key and user ID."))
      | _ => Throw (Error ("Failed to load AwardWallet credentials: " ++ JS.message error))
      end
  end.

(** The body of [for (const account of data.accounts)]; the state is
    [balances]. *)
Definition accountStep (balances : list AwardWalletBalance) (account : JSON)
  : Exc (list AwardWalletBalance) :=
  accountBalance <- prop account "balance" ;;
  match accountBalance with
  | Some b =>
      if truthy (Some b) && gt0 b then
        id <- prop account "id" ;;
        programId <- prop account "programId" ;;
        name <- prop account "name" ;;
        programName <- prop account "programName" ;;
        currency <- prop account "currency" ;;
        expirationDate <- prop account "expirationDate" ;;
        lastUpdated <- prop account "lastUpdated" ;;
        isActive <- prop account "isActive" ;;
        let value (v : Any) : JSON :=
          match v with Some j => j | None => JNull end in
        Return (balances ++
          [ {| programId := value (or_else (or_else id programId) (Some (JString "")));
               programName := value (or_else (or_else name programName) (Some (JString "")));
               currency := value (or_else currency (Some (JString "miles")));
               balance := b;
               expirationDate := expirationDate;
               lastUpdated := value (or_else lastUpdated (Some (JString (now rt))));
               isActive := match isActive with
                           | Some (JBool false) => false
                           | _ => true
                           end |} ])%list
      else Return balances
  | None => Return balances
  end.

(** The [try] block. *)
Definition fetchBody (credentials : option AwardWalletCredentials)
  : Exc AwardWalletResponse :=
  creds <- match credentials with
           | Some c => Return c
           | None => loadAwardWalletCredentials
           end ;;
  let apiUrl :=
    "https://business.awardwallet.com/api/export/v1/connectedUser/" ++ userId creds in
  response <- fetch rt apiUrl "GET"
                [ ("X-Authentication", apiKey creds);
                  ("User-Agent", "AwardWiz/2.0");
                  ("Accept", "application/json") ] ;;
  if negb (ok response)
  then Throw (Error ("AwardWallet API error: " ++ Number_toString rt (status response)
                     ++ " " ++ statusText response))
  else
    data <- json response ;;
    accounts <- prop data "accounts" ;;
    balances <- match accounts with
                | Some (JArray items) => foldM accountStep items []
                | _ => Return []
                end ;;
    Return {| success := true;
              balances := JS.sort byBalanceDescending balances;
              error := None |}.

(** [try { ... } catch (error) { return { success: false, ... } }] *)
Definition fetchAwardWalletBalances (credentials : option AwardWalletCredentials)
  : Exc AwardWalletResponse :=
  match fetchBody credentials with
  | Return r => Return r
  | Throw error =>
      Return {| success := false; balances := []; error := Some (JS.message error) |}
  end.

End WithRuntime.

Definition PROGRAM_SCRAPER_MAPPING : list (string * string) :=
  [ ("United Airlines MileagePlus", "united");
    ("United MileagePlus", "united");
    ("American Airlines AAdvantage", "aa");
    ("AA AAdvantage", "aa");
    ("Delta Air Lines SkyMiles", "delta");
    ("Delta SkyMiles", "delta");
    ("Alaska Airlines Mileage Plan", "alaska");
    ("Alaska Mileage Plan", "alaska");
    ("JetBlue Airways TrueBlue", "jetblue");
    ("JetBlue TrueBlue", "jetblue");
    ("Southwest Airlines Rapid Rewards", "southwest");
    ("Southwest Rapid Rewards", "southwest");
    ("Air Canada Aeroplan", "aeroplan");
    ("Aeroplan", "aeroplan");
    ("Air France Flying Blue", "air-france");
    ("Flying Blue", "air-france");
    ("British Airways Executive Club", "british-airways");
    ("British Airways Avios", "british-airways");
    ("Qatar Airways Privilege Club", "qatar");
    ("Qatar Privilege Club", "qatar");
    ("Emirates Skywards", "emirates");
    ("Chase Ultimate Rewards", "chase-ur");
    ("American Express Membership Rewards", "amex-mr");
    ("Capital One Venture", "capital-one");
    ("Citi ThankYou Points", "citi-typ");
    ("Bilt Rewards", "bilt") ].

(** The test of the fuzzy pass on one entry of the mapping. *)
Definition fuzzyMatch (lowerName : string) (entry : string * string) : bool :=
  includes lowerName (toLowerCase (fst entry))
  || includes (toLowerCase (fst entry)) lowerName.

(** [None] is [null]. The exact match reads the mapping object, inherited
    members included. *)
Definition mapProgramToScraper (programName : string) : option Value :=
  let exactMatch := JS.get PROGRAM_SCRAPER_MAPPING programName in
  if JS.truthy exactMatch then Some exactMatch
  else
    let lowerName := toLowerCase programName in
    match find (fuzzyMatch lowerName) PROGRAM_SCRAPER_MAPPING with
    | Some entry => Some (VString (snd entry))
    | None => None
    end.

End AwardWallet.

(* ===================================================================== *)
(** ** integrations/transfer-partners.ts                                 *)
(* ===================================================================== *)

Module TransferPartners.

(** [AwardWalletBalance] at its declared interface. *)
Record AwardWalletBalance : Type := {
  programId : string;
  programName : string;
  currency : string;
  balance : Z;
  expirationDate : option string;
  lastUpdated : string;
  isActive : bool
}.

Record TransferBonus : Type := {
  bonusPercentage : Z;
  validUntil : string;
  bonus_minimumTransfer : option Z;
  description : string
}.

Record TransferPartner : Type := {
  partnerProgram : string;
  ratio : Z;
  minimumTransfer : Z;
  maximumTransfer : option Z;
  transferTime : string;
  bonusPromotions : option (list TransferBonus)
}.

Record TransferOption : Type := {
  fromProgram : string;
  toProgram : string;
  availablePoints : Z;
  transferRatio : Z;
  resultingMiles : Z;
  o_transferTime : string;
  bonusActive : option bool;
  bonusDescription : option string
}.

Record TransferCalculation : Type := {
  scraperName : string;
  c_programName : string;
  directBalance : Z;
  transferableBalance : Z;
  transferOptions : list TransferOption
}.

Definition partner (program time : string) : TransferPartner :=
  {| partnerProgram := program; ratio := 1; minimumTransfer := 1000;
     maximumTransfer := None; transferTime := time; bonusPromotions := None |}.

Definition CHASE_UR_PARTNERS : list TransferPartner :=
  [ partner "united" "instant"; partner "air-france" "instant";
    partner "british-airways" "instant"; partner "singapore" "instant";
    partner "southwest" "instant" ].

Definition AMEX_MR_PARTNERS : list TransferPartner :=
  [ partner "air-france" "instant"; partner "british-airways" "instant";
    partner "delta" "instant"; partner "emirates" "1-2 days";
    partner "singapore" "instant" ].

Definition CAPITAL_ONE_PARTNERS : list TransferPartner :=
  [ partner "air-france" "instant"; partner "british-airways" "instant";
    partner "emirates" "1-2 days"; partner "singapore" "instant" ].

Definition CITI_TYP_PARTNERS : list TransferPartner :=
  [ partner "air-france" "1-2 days"; partner "emirates" "1-2 days";
    partner "singapore" "1-2 days" ].

Definition BILT_PARTNERS : list TransferPartner :=
  [ partner "united" "instant"; partner "alaska" "instant"; partner "aa" "instant";
    partner "air-france" "instant"; partner "emirates" "1-2 days" ].

Definition TRANSFER_PROGRAMS : list (string * list TransferPartner) :=
  [ ("chase-ur", CHASE_UR_PARTNERS);
    ("amex-mr", AMEX_MR_PARTNERS);
    ("capital-one", CAPITAL_ONE_PARTNERS);
    ("citi-typ", CITI_TYP_PARTNERS);
    ("bilt", BILT_PARTNERS) ].

Definition isAirlineProgram (programName : string) : bool :=
  let airlineKeywords :=
    [ "airlines"; "airways"; "air"; "mileageplus"; "aadvantage"; "skymiles";
      "trueblue"; "rapid rewards"; "aeroplan"; "flying blue"; "executive club";
      "avios"; "privilege club"; "skywards"; "mileage plan" ] in
  let lowerName := toLowerCase programName in
  existsb (fun keyword => includes lowerName keyword) airlineKeywords.

Definition getScraperName (programName : string) : string :=
  let name := toLowerCase programName in
  if includes name "united" then "united"
  else if includes name "american" || includes name "aadvantage" then "aa"
  else if includes name "delta" then "delta"
  else if includes name "alaska" then "alaska"
  else if includes name "jetblue" then "jetblue"
  else if includes name "southwest" then "southwest"
  else if includes name "aeroplan" || includes name "air canada" then "aeroplan"
  else if includes name "flying blue" || includes name "air france" then "air-france"
  else if includes name "british" || includes name "avios" then "british-airways"
  else if includes name "qatar" then "qatar"
  else if includes name "emirates" then "emirates"
  else "unknown".

(** The names looked up are scraper names; none of them is a member that
    the table inherits. *)
Definition getProgramDisplayName (scraperName : string) : string :=
  let displayNames :=
    [ ("united", "United MileagePlus"); ("aa", "American AAdvantage");
      ("delta", "Delta SkyMiles"); ("alaska", "Alaska Mileage Plan");
      ("jetblue", "JetBlue TrueBlue"); ("southwest", "Southwest Rapid Rewards");
      ("aeroplan", "Air Canada Aeroplan"); ("air-france", "Air France Flying Blue");
      ("british-airways", "British Airways Executive Club");
      ("qatar", "Qatar Airways Privilege Club"); ("emirates", "Emirates Skywards") ] in
  match JS.own displayNames scraperName with
  | Some n => or_string n scraperName
  | None => scraperName
  end.

Definition getCreditCardVariations (program : string) : list string :=
  let variations :=
    [ ("chase-ur", ["chase ultimate rewards"; "ultimate rewards"; "chase ur"]);
      ("amex-mr", ["american express membership rewards"; "membership rewards";
                   "amex mr"; "amex points"]);
      ("capital-one", ["capital one venture"; "capital one"; "venture miles"]);
      ("citi-typ", ["citi thankyou"; "thankyou points"; "citi typ"; "citi points"]);
      ("bilt", ["bilt rewards"; "bilt points"]) ] in
  match find (fun kv => String.eqb (fst kv) program) variations with
  | Some kv => snd kv
  | None => [program]
  end.

(** [xs.reduce((sum, b) => sum + b.balance, 0)] *)
Definition sumBalances (xs : list AwardWalletBalance) : Z :=
  fold_left (fun sum b => sum + balance b) xs 0.

Definition getDirectBalance (program : string) (balances : list AwardWalletBalance) : Z :=
  sumBalances
    (filter (fun b => String.eqb (getScraperName (programName b)) program) balances).

Definition getBalanceForProgram (program : string) (balances : list AwardWalletBalance) : Z :=
  let programVariations := getCreditCardVariations program in
  sumBalances
    (filter
       (fun b => existsb
                   (fun variation =>
                      includes (toLowerCase (programName b)) (toLowerCase variation))
                   programVariations)
       balances).

(** The body of [for (const [creditProgram, partners] of Object.entries(...))];
    the state is [transfers]. *)
Definition transferStep (targetProgram : string) (balances : list AwardWalletBalance)
    (transfers : list TransferOption) (entry : string * list TransferPartner)
  : list TransferOption :=
  let (creditProgram, partners) := entry in
  let creditBalance := getBalanceForProgram creditProgram balances in
  if creditBalance <=? 0 then transfers
  else
    match find (fun p => String.eqb (partnerProgram p) targetProgram) partners with
    | None => transfers
    | Some partner =>
        let maxTransferable := (creditBalance / ratio partner) * ratio partner in
        if minimumTransfer partner <=? maxTransferable then
          let resultingMiles := maxTransferable / ratio partner in
          (transfers ++
            [ {| fromProgram := creditProgram;
                 toProgram := targetProgram;
                 availablePoints := maxTransferable;
                 transferRatio := ratio partner;
                 resultingMiles := resultingMiles;
                 o_transferTime := transferTime partner;
                 bonusActive := None;
                 bonusDescription := None |} ])%list
        else transfers
    end.

Definition calculateTransfersToProgram (targetProgram : string)
    (balances : list AwardWalletBalance) : list TransferOption :=
  fold_left (transferStep targetProgram balances) TRANSFER_PROGRAMS [].

(** [Set.prototype.add]: a set keeps insertion order and ignores repeats. *)
Definition Set_add (set : list string) (x : string) : list string :=
  if existsb (String.eqb x) set then set else (set ++ [x])%list.

(** [Map.prototype.set] on an insertion-ordered map. *)
Fixpoint Map_set (m : list (string * Z)) (k : string) (v : Z) : list (string * Z) :=
  match m with
  | [] => [(k, v)]
  | (k', v') :: rest =>
      if String.eqb k' k then (k', v) :: rest else (k', v') :: Map_set rest k v
  end.

Definition Map_get (m : list (string * Z)) (k : string) : option Z :=
  match find (fun kv => String.eqb (fst kv) k) m with
  | Some kv => Some (snd kv)
  | None => None
  end.

(** The first loop fills [balancesByProgram]; nothing reads it afterwards. *)
Definition balancesByProgram (balances : list AwardWalletBalance) : list (string * Z) :=
  fold_left
    (fun m b =>
       let key := toLowerCase (programName b) in
       Map_set m key
         (match Map_get m key with
          | Some old => old
          | None => 0
          end + balance b))
    balances [].

Definition allPrograms (balances : list AwardWalletBalance) : list string :=
  let direct :=
    fold_left
      (fun set b =>
         if isAirlineProgram (programName b)
         then Set_add set (getScraperName (programName b)) else set)
      balances [] in
  fold_left
    (fun set transferPartners =>
       fold_left (fun set' p => Set_add set' (partnerProgram p)) transferPartners set)
    (map snd TRANSFER_PROGRAMS) direct.

Definition calculation (balances : list AwardWalletBalance) (program : string)
  : TransferCalculation :=
  let directBalance := getDirectBalance program balances in
  let transferOptions := calculateTransfersToProgram program balances in
  let transferableBalance :=
    fold_left (fun sum option => sum + resultingMiles option) transferOptions directBalance in
  {| scraperName := program;
     c_programName := getProgramDisplayName program;
     directBalance := directBalance;
     transferableBalance := transferableBalance;
     transferOptions := transferOptions |}.

Definition byTransferableDescending (a b : TransferCalculation) : Z :=
  transferableBalance b - transferableBalance a.

Definition calculateTransferOptions (balances : list AwardWalletBalance)
  : list TransferCalculation :=
  let calculations := map (calculation balances) (allPrograms balances) in
  JS.sort byTransferableDescending calculations.


(** The programs that some credit card program transfers to. *)
Definition partnerPrograms : list string :=
  [ "united"; "air-france"; "british-airways"; "singapore"; "southwest";
    "delta"; "emirates"; "alaska"; "aa" ].

Record TopProgram : Type := {
  top_name : string;
  top_balance : Z
}.

Record TransferSummary : Type := {
  totalDirectMiles : Z;
  totalTransferableMiles : Z;
  programCount : nat;
  topPrograms : list TopProgram
}.

Definition getTransferSummary (calculations : list TransferCalculation) : TransferSummary :=
  let totalDirectMiles :=
    fold_left (fun sum calc => sum + directBalance calc) calculations 0 in
  let totalTransferableMiles :=
    fold_left (fun sum calc => sum + transferableBalance calc) calculations 0 in
  let topPrograms :=
    map (fun calc => {| top_name := c_programName calc;
                        top_balance := transferableBalance calc |})
      (firstn 5 (filter (fun calc => 0 <? transferableBalance calc) calculations)) in
  {| totalDirectMiles := totalDirectMiles;
     totalTransferableMiles := totalTransferableMiles;
     programCount :=
       List.length (filter (fun calc => 0 <? transferableBalance calc) calculations);
     topPrograms := topPrograms |}.

End TransferPartners.

(* ===================================================================== *)
(** ** The engine's attempt loop                                         *)
(* ===================================================================== *)

Module SessionOrchestrator.

Record SessionConfig : Type := {
  maxAttempts : nat;
  perAttemptTimeout : Z;
  useProxy : bool;
  showRequests : bool;
  debugMode : bool
}.

Section Run.

(** The plugin's record set and the errors it throws. *)
Variables (Records Err : Type).

(** How the plugin body ends inside one attempt. *)
Inductive PluginOutcome : Type :=
| Returned (records : Records)
| Warned
| Threw (e : Err) (retryable : bool)
| DeadlineExceeded.

(** What one attempt meets: no proxy left in the pool (only when
    [useProxy] is set), a browser that does not launch, or a session in
    which the plugin body runs. *)
Inductive Attempt : Type :=
| PoolExhausted
| LaunchFailed (e : Err)
| Ran (outcome : PluginOutcome).

Inductive Failure : Type :=
| PluginError (e : Err)
| LaunchError (e : Err)
| TimeoutError (attempt : nat)
| NoProxyAvailable.

Inductive Result : Type :=
| Success (records : Records)
| NoResults
| Failed (f : Failure)
| NotAttempted.

(** Session lifecycle events, tagged with the attempt that owns the
    session. *)
Inductive Event : Type :=
| Created (attempt : nat)
| TornDown (attempt : nat).

Inductive Next : Type :=
| Stop (r : Result)
| Retry (f : Failure).

(** Modelled from the spec: one attempt of the orchestrator
    (arkalis/arkalis.ts, which is not among the sources): the events it
    adds and whether the loop goes on. The session is closed after the
    plugin body ended, however it ended. *)
Definition attempt (i : nat) (a : Attempt) : list Event * Next :=
  match a with
  | PoolExhausted => ([], Stop (Failed NoProxyAvailable))
  | LaunchFailed e => ([], Retry (LaunchError e))
  | Ran outcome =>
      ([Created i; TornDown i],
       match outcome with
       | Returned records => Stop (Success records)
       | Warned => Stop NoResults
       | Threw e true => Retry (PluginError e)
       | Threw e false => Stop (Failed (PluginError e))
       | DeadlineExceeded => Retry (TimeoutError i)
       end)
  end.

(** Modelled from the spec: the orchestrator's [run] (arkalis/arkalis.ts,
    which is not among the sources). It loops up to [maxAttempts] times;
    each attempt gets a session of its own, closed before the loop returns
    or retries; a retryable failure leads to the next attempt, a
    non-retryable one is surfaced at once; the result is the first success
    or the last error. [world i] is what attempt [i] meets (attempts are
    numbered from 0). *)
Fixpoint attempts (world : nat -> Attempt) (remaining i : nat) (last : Result)
    (trace : list Event) : list Event * Result :=
  match remaining with
  | O => (trace, last)
  | S remaining' =>
      let (events, next) := attempt i (world i) in
      match next with
      | Stop r => ((trace ++ events)%list, r)
      | Retry f => attempts world remaining' (S i) (Failed f) (trace ++ events)%list
      end
  end.

(** Modelled from the spec: [run(pluginBody, config, metadata, runId)] of
    the orchestrator (arkalis/arkalis.ts, which is not among the sources),
    started with no attempt made and an empty trace. *)
Definition run (world : nat -> Attempt) (config : SessionConfig)
  : list Event * Result :=
  attempts world (maxAttempts config) 0%nat NotAttempted [].

Definition isCreated (attempt : nat) (e : Event) : bool :=
  match e with
  | Created j => Nat.eqb j attempt
  | TornDown _ => false
  end.

Definition isTornDown (attempt : nat) (e : Event) : bool :=
  match e with
  | TornDown j => Nat.eqb j attempt
  | Created _ => false
  end.

(** How often the session of one attempt was created / torn down. *)
Definition createdTimes (attempt : nat) (trace : list Event) : nat :=
  List.length (filter (isCreated attempt) trace).

Definition tornDownTimes (attempt : nat) (trace : list Event) : nat :=
  List.length (filter (isTornDown attempt) trace).

Definition creations (trace : list Event) : nat :=
  List.length (filter (fun e => match e with Created _ => true | _ => false end) trace).

Definition teardowns (trace : list Event) : nat :=
  List.length (filter (fun e => match e with TornDown _ => true | _ => false end) trace).

(** The events of the sessions of the attempts [ran], in turn. *)
Definition sessions (ran : list nat) : list Event :=
  flat_map (fun i => [Created i; TornDown i]) ran.

(** At every point of the trace at most one session is open, and the
    trace ends with none open. *)
Fixpoint closedInTurn (open : option nat) (trace : list Event) : bool :=
  match trace, open with
  | [], None => true
  | [], Some _ => false
  | Created i :: rest, None => closedInTurn (Some i) rest
  | Created _ :: _, Some _ => false
  | TornDown i :: rest, Some j => Nat.eqb i j && closedInTurn None rest
  | TornDown _ :: _, None => false
  end.

End Run.

Arguments Returned {Records Err} records.
Arguments Warned {Records Err}.
Arguments Threw {Records Err} e retryable.
Arguments DeadlineExceeded {Records Err}.
Arguments PoolExhausted {Records Err}.
Arguments LaunchFailed {Records Err} e.
Arguments Ran {Records Err} outcome.
Arguments PluginError {Err} e.
Arguments LaunchError {Err} e.
Arguments TimeoutError {Err} attempt.
Arguments NoProxyAvailable {Err}.
Arguments Success {Records Err} records.
Arguments NoResults {Records Err}.
Arguments Failed {Records Err} f.
Arguments NotAttempted {Records Err}.
Arguments run {Records Err} world config.
Arguments attempts {Records Err} world remaining i last trace.
Arguments attempt {Records Err} i a.

End SessionOrchestrator.

(* ===================================================================== *)
(** ** gateway-scanner.ts: the metadata handed to the engine             *)
(* ===================================================================== *)

Module GatewayScanner.

(** [{ ...aaMeta, defaultTimeoutMs: 60000 }] *)
Definition metadata : ObjectLiteral := JS.set AA.meta "defaultTimeoutMs" (LNumber 60000).

(** [args.indexOf(flag)]: [None] is [-1]. *)
Fixpoint indexOf (args : list string) (flag : string) : option nat :=
  match args with
  | [] => None
  | a :: rest =>
      if String.eqb a flag then Some O
      else match indexOf rest flag with
           | Some i => Some (S i)
           | None => None
           end
  end.

(** The [getArg] of [main], over the command line [args]. *)
Definition getArg (args : list string) (flag def : string) : string :=
  match indexOf args flag with
  | Some idx =>
      if Nat.ltb (idx + 1) (List.length args)
      then match nth_error args (idx + 1) with
           | Some value => value
           | None => def
           end
      else def
  | None => def
  end.

End GatewayScanner.

(* ===================================================================== *)
(** ** roame-scraper.ts                                                  *)
(* ===================================================================== *)

Module Roame.

(** [RoameFare]: the fields that [main] reads. *)
Record RoameFare : Type := {
  mileageProgram : string;
  awardPoints : Z;
  surcharge : Z;
  durationMinutes : Z;
  cabinClasses : list string;
  allAirports : list string;
  operatingAirlines : list string;
  flightNumberOrder : list string
}.

(** What [graphql] resolves to for the polling query: a body with
    [errors] (kept as the text that [JSON.stringify] gives them) or one
    with [data.pingSearchResults]. A body of any other shape makes the
    destructuring throw, as does a failed request: both are a [Throw]. *)
Inductive PollAnswer : Type :=
| PollErrors (text : string)
| PollData (percentCompleted : Z) (fares : list RoameFare).

Record PollReturn : Type := {
  r_fares : list RoameFare;
  r_percentCompleted : Z
}.

(** What [pollResults] meets: [now k] is the [k]-th reading of
    [Date.now()] (the first one is [start]), [graphql i] the answer to the
    [i]-th poll. *)
Record World : Type := {
  now : nat -> Z;
  graphql : nat -> Exc PollAnswer
}.

Record PollState : Type := {
  lastPct : Z;
  lastFareCount : nat;
  staleCount : nat
}.

(** The [while] loop of [pollResults], entered for the [i]-th time with
    the locals [st]. [fuel] bounds the number of rounds; [None] means that
    the bound was reached. *)
Fixpoint pollLoop (w : World) (start maxWaitMs : Z) (fuel i : nat) (st : PollState)
  : option (Exc PollReturn) :=
  match fuel with
  | O => None
  | S fuel' =>
      if now w (S i) - start <? maxWaitMs then
        match graphql w i with
        | Throw e => Some (Throw e)
        | Return (PollErrors text) => Some (Throw (Error ("Poll failed: " ++ text)))
        | Return (PollData percentCompleted fares) =>
            if 100 <=? percentCompleted
            then Some (Return {| r_fares := fares; r_percentCompleted := percentCompleted |})
            else if Nat.eqb (List.length fares) (lastFareCount st)
                    && (percentCompleted =? lastPct st)
            then
              if Nat.leb 3 (staleCount st + 1)
              then Some (Return {| r_fares := fares;
                                   r_percentCompleted := percentCompleted |})
              else pollLoop w start maxWaitMs fuel' (S i)
                     {| lastPct := percentCompleted;
                        lastFareCount := List.length fares;
                        staleCount := staleCount st + 1 |}
            else pollLoop w start maxWaitMs fuel' (S i)
                   {| lastPct := percentCompleted;
                      lastFareCount := List.length fares;
                      staleCount := 0 |}
        end
      else Some (Return {| r_fares := []; r_percentCompleted := lastPct st |})
  end.

Definition pollResults (w : World) (maxWaitMs : Z) (fuel : nat) : option (Exc PollReturn) :=
  pollLoop w (now w 0%nat) maxWaitMs fuel 0%nat
    {| lastPct := 0; lastFareCount := 0%nat; staleCount := 0%nat |}.

(** [byProgram]: a [Map] from program to its fares, in insertion order. *)
Fixpoint Map_push (m : list (string * list RoameFare)) (fare : RoameFare)
  : list (string * list RoameFare) :=
  match m with
  | [] => [(mileageProgram fare, [fare])]
  | (program, existing) :: rest =>
      if String.eqb program (mileageProgram fare)
      then (program, existing ++ [fare])%list :: rest
      else (program, existing) :: Map_push rest fare
  end.

Definition byProgram (fares : list RoameFare) : list (string * list RoameFare) :=
  fold_left Map_push fares [].

(** [Math.min(...xs)]: [None] is [Infinity], the minimum of no numbers. *)
Definition Math_min (xs : list Z) : option Z :=
  match xs with
  | [] => None
  | x :: rest => Some (fold_left Z.min rest x)
  end.

(** [(a, b) => bestA - bestB], by its sign where a side is [Infinity]. *)
Definition byBestFare (a b : string * list RoameFare) : Z :=
  match Math_min (map awardPoints (snd a)), Math_min (map awardPoints (snd b)) with
  | Some bestA, Some bestB => bestA - bestB
  | None, Some _ => 1
  | Some _, None => -1
  | None, None => 0
  end.

Definition sortedPrograms (fares : list RoameFare) : list (string * list RoameFare) :=
  JS.sort byBestFare (byProgram fares).

End Roame.

Module Engine.

(** Modelled from the spec: [arkalis.warn] (arkalis/arkalis.ts, which is
    not among the sources) logs its message and returns an empty result
    set, without treating the run as failed. *)
Definition warn (message : string) : list FlightWithFares := [].

End Engine.

(* ===================================================================== *)
(** ** The three plugins side by side                                    *)
(* ===================================================================== *)

Module Plugins.

Definition metas : list ObjectLiteral := [United.meta; AA.meta; Alaska.meta].

Definition blockUrls (meta : ObjectLiteral) : list string :=
  match field meta "blockUrls" with
  | Some (LArray patterns) => patterns
  | _ => []
  end.

(** Every condition object that a scraper hands to [waitFor]. *)
Definition waitConditions : list ObjectLiteral :=
  map snd (United.waitConditions ++ AA.waitConditions ++ Alaska.waitConditions)%list.

Definition urlConditions : list ObjectLiteral := filter isUrlCondition waitConditions.

Definition subset (xs ys : list string) : bool :=
  forallb (fun x => existsb (String.eqb x) ys) xs.

(** The metadata shape [{name, blockUrls, defaultTimeout}]. *)
Definition hasTimeoutShape (meta : ObjectLiteral) : bool :=
  hasField meta "name" && hasField meta "blockUrls" && hasField meta "defaultTimeout".

(** The condition shape [{type: "url", pattern, requiredStatus?, onErrorStatusFail?}]. *)
Definition hasPatternShape (c : ObjectLiteral) : bool :=
  hasField c "pattern"
  && subset (keys c) ["type"; "pattern"; "requiredStatus"; "onErrorStatusFail"].

(** The condition shape [{type: "url", url, onlyStatusCode?, othersThrow?}]. *)
Definition hasUrlShape (c : ObjectLiteral) : bool :=
  hasField c "url"
  && subset (keys c) ["type"; "url"; "onlyStatusCode"; "othersThrow"].

(** An input of one of the three [standardizeResults]. *)
Inductive Input : Type :=
| UnitedInput (query : AwardWizQuery) (unitedTrip : United.Trip)
| AAInput (slices : list AA.Slice) (query : AwardWizQuery)
| AlaskaInput (raw : Alaska.AlaskaResponse) (query : AwardWizQuery).

Section Classification.

Variable AA_stringify : AA.Segment -> string.
Variable Alaska_stringify : Alaska.Fare -> string.

Definition standardizeResults (input : Input) : Exc (list FlightWithFares) :=
  match input with
  | UnitedInput query unitedTrip => United.standardizeResults query unitedTrip
  | AAInput slices query => AA.standardizeResults AA_stringify slices query
  | AlaskaInput raw query => Alaska.standardizeResults Alaska_stringify raw query
  end.

End Classification.

(** The classification value of a fare product is not among the known
    ones: the keys of united's Description map, of aa's three maps, the
    five names that alaska accepts. *)
Definition unitedUnknown (p : United.Product) : bool :=
  match JS.own United.cabinByDescription (United.descriptionKey p) with
  | None => true
  | Some _ => false
  end.

Definition aaUnknown (p : AA.PricingDetail) : bool :=
  match JS.own AA.awardCabinByFareCodeTable (AA.fareCodeKey p),
        JS.own AA.cabinByFareCodeTable (AA.fareCodeKey p),
        JS.own AA.cabinByProductTypeTable (AA.productType p) with
  | None, None, None => true
  | _, _, _ => false
  end.

(** Some fare product of the response has an unknown classification. *)
Definition hasUnknown (input : Input) : bool :=
  match input with
  | UnitedInput _ unitedTrip =>
      existsb (fun flight => existsb unitedUnknown (United.Products flight))
        (United.Flights unitedTrip)
  | AAInput slices _ =>
      existsb (fun slice => existsb aaUnknown (AA.pricingDetail slice)) slices
  | AlaskaInput raw _ =>
      match Alaska.slices raw with
      | Some ss =>
          existsb (fun slice =>
                     existsb Alaska.unknownCabin
                       (Alaska.Object_values (Alaska.slice_fares slice))) ss
      | None => false
      end
  end.

(** Some fare product that the scraper classifies has no classification:
    united looks at the priced products of the flights it keeps, aa at the
    available products of every slice, alaska at the fares of the
    single-segment slices that match the query. The lookup yields
    [undefined] for it. *)
Definition classifiesUnknown (input : Input) : bool :=
  match input with
  | UnitedInput query unitedTrip =>
      existsb
        (fun flight =>
           United.flightKept query unitedTrip flight
           && existsb
                (fun p => match United.Prices p with
                          | [] => false
                          | _ :: _ => strict_eq (United.cabinOf p) VUndefined
                          end)
                (United.Products flight))
        (United.Flights unitedTrip)
  | AAInput slices _ =>
      existsb
        (fun slice =>
           existsb (fun p => AA.productAvailable p
                             && strict_eq (AA.lookedUpCabin p) VUndefined)
             (AA.pricingDetail slice))
        slices
  | AlaskaInput raw query =>
      match Alaska.slices raw with
      | Some ss =>
          existsb
            (fun slice =>
               Alaska.sliceKept query slice
               && existsb Alaska.unknownCabin
                    (Alaska.Object_values (Alaska.slice_fares slice)))
            ss
      | None => false
      end
  end.

End Plugins.

(* ===================================================================== *)
(** ** Loop invariants                                                   *)
(* ===================================================================== *)

Module Invariants.

(** The state of aa's [reduce] after the fares [seen]: one fare per cabin,
    each no dearer in miles than any fare seen for its cabin, and every
    cabin seen is present. *)
Definition lowestPerCabin (acc seen : list FlightFare) : Prop :=
  NoDup (map cabin acc)
  /\ (forall f g, In f acc -> In g seen -> cabin g = cabin f -> miles f <= miles g)
  /\ (forall g, In g seen -> exists f, In f acc /\ cabin f = cabin g).

(** The fare that united records for a priced product. *)
Definition unitedFareOf (fare : FlightFare) (product : United.Product) : Prop :=
  exists price more,
    United.Prices product = price :: more
    /\ cabin fare = United.cabinOf product
    /\ miles fare = United.Amount price
    /\ bookingClass fare = United.BookingCode product
    /\ scraper fare = "united".

(** The state of united's product loop after the products [seen]: one fare
    per cabin, each taken from the first priced product of its cabin, and
    every cabin of a priced product is present. *)
Definition firstPerCabin (acc : list FlightFare) (seen : list United.Product) : Prop :=
  NoDup (map cabin acc)
  /\ (forall fare, In fare acc ->
        exists before product after,
          seen = (before ++ product :: after)%list
          /\ unitedFareOf fare product
          /\ forall p, In p before -> United.Prices p <> [] ->
                       United.cabinOf p <> cabin fare)
  /\ (forall p, In p seen -> United.Prices p <> [] ->
                exists fare, In fare acc /\ cabin fare = United.cabinOf p).

(** What a record of united's says about the flight it was made from. *)
Definition unitedRecordOf (flight : United.Flight) (record : FlightWithFares) : Prop :=
  origin record = United.Origin flight
  /\ destination record = United.Destination flight
  /\ departureDateTime record = United.DepartDateTime flight ++ ":00"
  /\ arrivalDateTime record = United.DestinationDateTime flight ++ ":00"
  /\ duration record = United.TravelMinutes flight
  /\ aircraft record = United.EquipmentDescription flight
  /\ foldM United.productStep (United.Products flight) [] = Return (fares record).

(** The cabin that alaska's table gives a fare. *)
Definition alaskaCabin (fare : Alaska.Fare) : Value :=
  match Alaska.cabins fare with
  | c :: _ => get Alaska.cabinTable c
  | [] => VUndefined
  end.

(** The state of alaska's fare loop after the fares [seen]: one fare per
    cabin, economy or business, each the price of a fare seen and no
    dearer in miles than any fare seen for its cabin; every cabin seen is
    present. *)
Definition alaskaLowest (acc : list FlightFare) (seen : list Alaska.Fare) : Prop :=
  NoDup (map cabin acc)
  /\ (forall f g, In f acc -> In g seen -> alaskaCabin g = cabin f ->
                  miles f <= Alaska.milesPoints g)
  /\ (forall g, In g seen -> exists f, In f acc /\ cabin f = alaskaCabin g)
  /\ (forall f, In f acc ->
        (cabin f = VString "economy" \/ cabin f = VString "business")
        /\ exists g, In g seen
                     /\ cabin f = alaskaCabin g
                     /\ miles f = Alaska.milesPoints g
                     /\ cash f = Alaska.grandTotal g
                     /\ bookingClass f = hd_error (Alaska.bookingCodes g)).

(** What a record of alaska's says about the slice it was made from. *)
Definition alaskaRecordOf (JSON_stringify : Alaska.Fare -> string)
    (slice : Alaska.Slice) (record : FlightWithFares) : Prop :=
  exists segment,
    Alaska.segments slice = [segment]
    /\ origin record = Alaska.departureStation segment
    /\ destination record = Alaska.arrivalStation segment
    /\ flightNo record = Alaska.carrierCode segment ++ " " ++ Alaska.flightNumber segment
    /\ duration record = Alaska.seg_duration segment
    /\ aircraft record = Alaska.seg_aircraft segment
    /\ foldM (Alaska.fareStep JSON_stringify)
         (Alaska.Object_values (Alaska.slice_fares slice)) []
       = Return (fares record).

End Invariants.

(* ===================================================================== *)
(** ** Sample data                                                       *)
(* ===================================================================== *)

Module Samples.

Definition query : AwardWizQuery :=
  {| q_origin := "LAX"; q_destination := "DXB"; q_departureDate := "2026-04-28" |}.

(** An engine that reports the anti-botting page, and answers every
    evaluation with a token-like text. *)
Definition detectedEngine : Arkalis :=
  {| waitFor := fun _ => Return {| mr_name := "anti-botting"; mr_response := None |};
     evaluate := fun _ => Return "token";
     warn := Engine.warn |}.

(** An engine whose search call answers with a JSON object text. *)
Definition emptyAnswerEngine : Arkalis :=
  {| waitFor := fun _ => Return {| mr_name := "loaded"; mr_response := None |};
     evaluate := fun _ => Return "{}";
     warn := Engine.warn |}.

(** united: one flight LAX-DXB on the queried day with one product. *)
Definition unitedTrip (product : United.Product) : United.Trip :=
  {| United.Flights :=
       [ {| United.DepartDateTime := "2026-04-28 14:30";
            United.DestinationDateTime := "2026-04-29 18:45";
            United.Origin := "LAX";
            United.Destination := "DXB";
            United.MarketingCarrier := "UA";
            United.FlightNumber := "935";
            United.TravelMinutes := 870;
            United.EquipmentDescription := "Boeing 777-300ER";
            United.Connections := [];
            United.Products := [product] |} ];
     United.RequestedOrigin := "LAX";
     United.t_Origin := "LAX";
     United.RequestedDestination := "DXB";
     United.t_Destination := "DXB" |}.

(** A product of an unheard-of cabin, without a price and with one. *)
Definition unpricedMystery : United.Product :=
  {| United.Prices := []; United.BookingCode := Some "Q";
     United.Description := Some "Mystery" |}.

Definition pricedMystery : United.Product :=
  {| United.Prices := [ {| United.Amount := 80000; United.Currency := "MILES" |} ];
     United.BookingCode := Some "Q";
     United.Description := Some "Mystery" |}.

(** aa: one nonstop slice LAX-DXB with the given pricing products. *)
Definition aaSlice (products : list AA.PricingDetail) : AA.Slice :=
  {| AA.segments :=
       [ {| AA.seg_departureDateTime := "2026-04-28T14:30:00.000-07:00";
            AA.seg_arrivalDateTime := "2026-04-29T18:45:00.000+04:00";
            AA.origin_code := "LAX";
            AA.destination_code := "DXB";
            AA.carrierCode := "AA";
            AA.flightNumber := "100";
            AA.legs := [ {| AA.aircraft_name := "Boeing 777"; AA.leg_amenities := ["wifi"] |} ]
         |} ];
     AA.durationInMinutes := 870;
     AA.pricingDetail := products |}.

Definition aaProduct (available : bool) (fareCode : option string) (type : string)
    (points : Z) : AA.PricingDetail :=
  {| AA.productAvailable := available;
     AA.extendedFareCode := fareCode;
     AA.productType := type;
     AA.taxes_amount := 6;
     AA.taxes_currency := "USD";
     AA.perPassengerAwardPoints := points |}.

(** alaska: a slice LAX-DXB with one fare of an unheard-of cabin, flown in
    the given number of segments (one or two). *)
Definition alaskaSegment : Alaska.Segment :=
  {| Alaska.departureTime := "2026-04-28T14:30:00";
     Alaska.arrivalTime := "2026-04-29T18:45:00";
     Alaska.departureStation := "LAX";
     Alaska.arrivalStation := "DXB";
     Alaska.carrierCode := "AS";
     Alaska.flightNumber := "7";
     Alaska.seg_duration := 870;
     Alaska.seg_aircraft := "Boeing 737";
     Alaska.seg_amenities := ["Wi-Fi"] |}.

Definition alaskaResponse (segments : list Alaska.Segment) : Alaska.AlaskaResponse :=
  {| Alaska.slices :=
       Some [ {| Alaska.segments := segments;
                 Alaska.slice_fares :=
                   [ ("MYSTERY",
                      {| Alaska.bookingCodes := ["Q"]; Alaska.cabins := ["MYSTERY"];
                         Alaska.grandTotal := 6; Alaska.milesPoints := 50000 |}) ] |} ] |}.

(** awardwallet: a runtime whose service answers with three accounts, one
    of them without points. *)
Definition account (name : string) (points : Z) : AwardWallet.JSON :=
  AwardWallet.JObject
    [ ("id", AwardWallet.JString name);
      ("name", AwardWallet.JString name);
      ("balance", AwardWallet.JNumber points) ].

Definition runtime : AwardWallet.Runtime :=
  {| AwardWallet.HOME := Some "/home/user";
     AwardWallet.path_join := JS.join "/";
     AwardWallet.readFile := fun _ => Throw (SystemError "ENOENT" "no such file or directory");
     AwardWallet.JSON_parse_credentials := fun _ => Return (None, None);
     AwardWallet.fetch :=
       fun _ _ _ =>
         Return {| AwardWallet.ok := true;
                   AwardWallet.status := 200;
                   AwardWallet.statusText := "OK";
                   AwardWallet.json :=
                     Return (AwardWallet.JObject
                               [ ("accounts",
                                  AwardWallet.JArray
                                    [ account "United MileagePlus" 25000;
                                      account "Delta SkyMiles" 0;
                                      account "Chase Ultimate Rewards" 100000 ]) ]) |};
     AwardWallet.now := "2026-02-13T22:50:00.000Z";
     AwardWallet.Number_toString := fun _ => "200";
     AwardWallet.StringToNumber := fun _ => None;
     AwardWallet.ToString := fun _ => "[object Object]" |}.

Definition credentials : AwardWallet.AwardWalletCredentials :=
  {| AwardWallet.apiKey := "key"; AwardWallet.userId := "422003" |}.

(** transfer partners: typed balances. *)
Definition balanceOf (name : string) (points : Z) : TransferPartners.AwardWalletBalance :=
  {| TransferPartners.programId := name;
     TransferPartners.programName := name;
     TransferPartners.currency := "miles";
     TransferPartners.balance := points;
     TransferPartners.expirationDate := None;
     TransferPartners.lastUpdated := "2026-02-13T22:50:00.000Z";
     TransferPartners.isActive := true |}.

(** united: a priced product of a named cabin. *)
Definition unitedProduct (description : string) (amount : Z) : United.Product :=
  {| United.Prices := [ {| United.Amount := amount; United.Currency := "MILES" |};
                        {| United.Amount := 6; United.Currency := "USD" |} ];
     United.BookingCode := Some "X";
     United.Description := Some description |}.

(** aa: a JetBlue segment. *)
Definition jetBlueSegment : AA.Segment :=
  {| AA.seg_departureDateTime := "2026-04-28T08:00:00.000-04:00";
     AA.seg_arrivalDateTime := "2026-04-28T11:20:00.000-07:00";
     AA.origin_code := "JFK"; AA.destination_code := "LAX";
     AA.carrierCode := "B6"; AA.flightNumber := "23"; AA.legs := [] |}.

(** alaska: a fare of one cabin and booking code. *)
Definition alaskaFare (cabin : string) (points : Z) : Alaska.Fare :=
  {| Alaska.bookingCodes := ["T"]; Alaska.cabins := [cabin];
     Alaska.grandTotal := 6; Alaska.milesPoints := points |}.

Definition alaskaSlice (fares : list (string * Alaska.Fare)) : Alaska.Slice :=
  {| Alaska.segments := [alaskaSegment]; Alaska.slice_fares := fares |}.

(** alaska: a nonstop slice followed by a connecting one. *)
Definition alaskaNonstopAndConnecting : Alaska.AlaskaResponse :=
  {| Alaska.slices :=
       Some [ alaskaSlice [("MAIN", alaskaFare "MAIN" 15000)];
              {| Alaska.segments := [alaskaSegment; alaskaSegment];
                 Alaska.slice_fares := [] |} ] |}.

(** alaska: a slice whose second fare lists two booking codes. *)
Definition alaskaTwoBookingCodes : Alaska.AlaskaResponse :=
  {| Alaska.slices :=
       Some [ alaskaSlice
                [ ("MAIN", alaskaFare "MAIN" 15000);
                  ("MIXED", {| Alaska.bookingCodes := ["T"; "D"];
                               Alaska.cabins := ["MAIN"];
                               Alaska.grandTotal := 6;
                               Alaska.milesPoints := 20000 |}) ] ] |}.

(** roame: a fare of a program. *)
Definition roameFare (program : string) (points : Z) : Roame.RoameFare :=
  {| Roame.mileageProgram := program;
     Roame.awardPoints := points;
     Roame.surcharge := 50;
     Roame.durationMinutes := 870;
     Roame.cabinClasses := ["Business"];
     Roame.allAirports := ["LAX"; "DXB"];
     Roame.operatingAirlines := ["EK"];
     Roame.flightNumberOrder := ["EK216"] |}.

(** roame: a search that answers every poll with the same two fares at
    50 percent, under a clock that stands still. *)
Definition stalledSearch : Roame.World :=
  {| Roame.now := fun _ => 0;
     Roame.graphql :=
       fun _ => Return (Roame.PollData 50 [roameFare "EMIRATES" 90000;
                                           roameFare "QANTAS" 120000]) |}.

End Samples.

(* ===================================================================== *)
(** * Properties                                                         *)
(* ===================================================================== *)

(** ** Exceptions, loops and sorting *)

(** [===] on looked-up values decides equality. *)
Lemma strict_eq_spec (a b : Value) : strict_eq a b = true <-> a = b.
Proof.
  destruct a, b; simpl; split; intro H;
    try discriminate; try reflexivity;
    try (apply String.eqb_eq in H; now subst);
    try (inversion H; subst; apply String.eqb_refl).
Qed.

Lemma strict_eq_refl (a : Value) : strict_eq a a = true.
Proof. now apply strict_eq_spec. Qed.

Section LoopFacts.

Context {A B S : Type}.

(** A loop throws as soon as one element makes its body throw whatever
    the state is. *)
Lemma foldM_throws (f : S -> A -> Exc S) (xs : list A) (x : A) :
  In x xs ->
  (forall s, exists e, f s x = Throw e) ->
  forall s, exists e, foldM f xs s = Throw e.
Proof.
  induction xs as [|y rest IH]; intros Hin Hx s; [contradiction|].
  simpl. destruct (f s y) as [e|s'] eqn:Hy.
  - now exists e.
  - simpl. destruct Hin as [->|Hin].
    + destruct (Hx s) as [e He]. congruence.
    + now apply IH.
Qed.

Lemma mapM_throws (f : A -> Exc B) (xs : list A) (x : A) :
  In x xs ->
  (exists e, f x = Throw e) ->
  exists e, mapM f xs = Throw e.
Proof.
  induction xs as [|y rest IH]; intros Hin Hx; [contradiction|].
  simpl. destruct (f y) as [e|b] eqn:Hy.
  - now exists e.
  - simpl. destruct Hin as [->|Hin].
    + destruct Hx as [e He]. congruence.
    + destruct (IH Hin Hx) as [e ->]. now exists e.
Qed.

(** The elements of a completed map are the images of the inputs. *)
Lemma mapM_image (f : A -> Exc B) (xs : list A) (ys : list B) :
  mapM f xs = Return ys ->
  forall x, In x xs -> exists y, f x = Return y /\ In y ys.
Proof.
  revert ys. induction xs as [|x0 rest IH]; intros ys H x Hin; [contradiction|].
  simpl in H. destruct (f x0) as [|y0] eqn:H0; [discriminate|]. simpl in H.
  destruct (mapM f rest) as [|ys'] eqn:Hrest; [discriminate|]. simpl in H.
  injection H as <-. destruct Hin as [->|Hin].
  - exists y0. split; [assumption | now left].
  - destruct (IH ys' eq_refl x Hin) as (y & Hy & Hiny).
    exists y. split; [assumption | now right].
Qed.

Lemma mapM_preimage (f : A -> Exc B) (xs : list A) (ys : list B) :
  mapM f xs = Return ys ->
  forall y, In y ys -> exists x, In x xs /\ f x = Return y.
Proof.
  revert ys. induction xs as [|x0 rest IH]; intros ys H y Hin.
  - simpl in H. injection H as <-. contradiction.
  - simpl in H. destruct (f x0) as [|y0] eqn:H0; [discriminate|]. simpl in H.
    destruct (mapM f rest) as [|ys'] eqn:Hrest; [discriminate|]. simpl in H.
    injection H as <-. destruct Hin as [<-|Hin].
    + exists x0. split; [now left | assumption].
    + destruct (IH ys' eq_refl y Hin) as (x & Hx & Hfx).
      exists x. split; [now right | assumption].
Qed.

(** An invariant of the loop state that every completed step keeps holds
    when the loop completes. *)
Lemma foldM_invariant (P : S -> Prop) (f : S -> A -> Exc S) (xs : list A) :
  (forall s x s', In x xs -> P s -> f s x = Return s' -> P s') ->
  forall s out, P s -> foldM f xs s = Return out -> P out.
Proof.
  induction xs as [|x rest IH]; intros Hstep s out Hs H.
  - simpl in H. now injection H as <-.
  - simpl in H. destruct (f s x) as [|s'] eqn:Hx; [discriminate|]. simpl in H.
    apply IH with (s := s'); auto.
    + intros s0 x0 s0' Hin. apply Hstep. now right.
    + apply Hstep with (s := s) (x := x); auto. now left.
Qed.

Lemma insertBy_perm (compare : A -> A -> Z) (x : A) (l : list A) :
  Permutation (x :: l) (JS.insertBy compare x l).
Proof.
  induction l as [|y rest IH]; simpl; [reflexivity|].
  destruct (0 <? compare x y); [|reflexivity].
  rewrite perm_swap. now apply perm_skip.
Qed.

(** Sorting rearranges; it neither drops nor invents an element. *)
Lemma sort_perm (compare : A -> A -> Z) (l : list A) :
  Permutation l (JS.sort compare l).
Proof.
  induction l as [|x rest IH]; simpl; [reflexivity|].
  etransitivity; [apply perm_skip, IH | apply insertBy_perm].
Qed.

End LoopFacts.

(** Sorting by a numeric key in descending order, as
    [(a, b) => key(b) - key(a)] does, leaves every element at least as
    large as all that follow it. *)
Section DescendingSort.

Context {A : Type} (key : A -> Z).

Let compare (a b : A) : Z := key b - key a.
Let ge (a b : A) : Prop := key b <= key a.

Lemma insertBy_descending (x : A) (l : list A) :
  StronglySorted ge l -> StronglySorted ge (JS.insertBy compare x l).
Proof.
  induction l as [|y rest IH]; intro Hs; simpl.
  - constructor; constructor.
  - inversion Hs as [|? ? Hrest Hall]; subst.
    destruct (0 <? compare x y) eqn:Hc.
    + apply Z.ltb_lt in Hc. unfold compare in Hc.
      constructor; [now apply IH|].
      apply Forall_forall. intros z Hz.
      apply (Permutation_in _ (Permutation_sym (insertBy_perm compare x rest))) in Hz.
      destruct Hz as [<-|Hz]; [unfold ge; lia|].
      rewrite Forall_forall in Hall. now apply Hall.
    + apply Z.ltb_ge in Hc. unfold compare in Hc.
      constructor; [assumption|].
      constructor; [unfold ge; lia|].
      rewrite Forall_forall in Hall |- *. intros z Hz.
      specialize (Hall z Hz). unfold ge in *. lia.
Qed.

Lemma sort_descending (l : list A) :
  StronglySorted ge (JS.sort compare l).
Proof.
  induction l as [|x rest IH]; simpl; [constructor|].
  now apply insertBy_descending.
Qed.

End DescendingSort.

(* ===================================================================== *)
(** ** Plugin metadata and wait conditions                               *)
(* ===================================================================== *)

(** C5, as stated, fails: the claim asks every exported [meta] to carry
    the three fields name, blockUrls and defaultTimeout; none of the three
    metas has a field [defaultTimeout]. *)
Lemma meta_has_no_defaultTimeout :
  forallb Plugins.hasTimeoutShape Plugins.metas = false
  /\ hasField United.meta "defaultTimeout" = false
  /\ hasField AA.meta "defaultTimeout" = false
  /\ hasField Alaska.meta "defaultTimeout" = false.
Proof. repeat split; reflexivity. Qed.

(** C5, amended: every scraper module (united, aa, alaska) exports a static
    metadata object of the form {name, blockUrls}: the exported [meta] has
    exactly these two fields, a name string and a list of block patterns,
    and no timeout field; a caller that wants a timeout adds it, as the
    gateway scanner does under the name [defaultTimeoutMs]. *)
Theorem meta_is_name_and_blockUrls :
  Forall
    (fun meta =>
       keys meta = ["name"; "blockUrls"]
       /\ (exists n, field meta "name" = Some (LString n))
       /\ (exists patterns, field meta "blockUrls" = Some (LArray patterns))
       /\ hasField meta "defaultTimeout" = false
       /\ hasField meta "defaultTimeoutMs" = false)
    Plugins.metas
  /\ keys GatewayScanner.metadata = ["name"; "blockUrls"; "defaultTimeoutMs"]
  /\ field GatewayScanner.metadata "defaultTimeoutMs" = Some (LNumber 60000).
Proof.
  split; [|split; reflexivity].
  unfold Plugins.metas.
  repeat apply Forall_cons; try apply Forall_nil;
    (split; [reflexivity|]; split; [eexists; reflexivity|];
     split; [eexists; reflexivity|]; split; reflexivity).
Qed.

(** C6, as stated, fails: the claim asks that no pattern occurs twice in
    any plugin's blockUrls; aa's list holds ["cludo.com"] at positions 0
    and 3. *)
Lemma aa_blockUrls_repeats_a_pattern :
  ~ Forall (fun meta => NoDup (Plugins.blockUrls meta)) Plugins.metas.
Proof.
  intro H. unfold Plugins.metas in H.
  inversion H as [|? ? _ H1]; subst.
  inversion H1 as [|? ? Haa _]; subst.
  cbv in Haa. inversion Haa as [|? ? Hnotin _]; subst.
  apply Hnotin. right; right; left; reflexivity.
Qed.

(** C6, amended: for every plugin, metadata.blockUrls is an ordered list of
    patterns; in united's and alaska's lists no pattern occurs more than
    once, while aa's list of five entries names four patterns, with
    ["cludo.com"] listed twice. *)
Theorem blockUrls_is_a_list_with_one_repeat :
  NoDup (Plugins.blockUrls United.meta)
  /\ NoDup (Plugins.blockUrls Alaska.meta)
  /\ Plugins.blockUrls AA.meta
     = ["cludo.com"; "entrust.net"; "tiqcdn.com"; "cludo.com"; "*.go-mpulse.net"]
  /\ count_occ string_dec (Plugins.blockUrls AA.meta) "cludo.com" = 2%nat
  /\ nodup string_dec (Plugins.blockUrls AA.meta)
     = ["entrust.net"; "tiqcdn.com"; "cludo.com"; "*.go-mpulse.net"].
Proof.
  split; [|split; [|split; [|split]]]; try reflexivity.
  - apply (NoDup_count_occ' string_dec). intros x Hx.
    cbv in Hx. repeat (destruct Hx as [<-|Hx]; [reflexivity|]). contradiction.
  - apply (NoDup_count_occ' string_dec). intros x Hx.
    cbv in Hx. repeat (destruct Hx as [<-|Hx]; [vm_compute; reflexivity|]). contradiction.
Qed.

(** C7, as stated, fails: the claim asks every url-type condition to carry
    its glob in a field [pattern] and to use [requiredStatus] and
    [onErrorStatusFail]; aa's condition has none of these fields, and no
    url-type condition of any scraper has [pattern]. *)
Lemma url_condition_has_no_pattern_field :
  forallb Plugins.hasPatternShape Plugins.urlConditions = false
  /\ existsb (fun c => hasField c "pattern") Plugins.urlConditions = false
  /\ existsb (fun c => hasField c "requiredStatus" || hasField c "onErrorStatusFail")
       Plugins.urlConditions = false.
Proof. repeat split; reflexivity. Qed.

(** C7, amended: every url-type WaitCondition that a scraper passes to
    waitFor has the form {type: "url", url, onlyStatusCode?, othersThrow?}:
    the URL glob is carried in a field named [url], and fail-fast status
    checking is requested (by aa) via fields named [onlyStatusCode] and
    [othersThrow]. *)
Theorem url_condition_shape :
  Forall
    (fun c =>
       field c "type" = Some (LString "url")
       /\ (exists glob, field c "url" = Some (LString glob))
       /\ Plugins.hasUrlShape c = true
       /\ hasField c "pattern" = false
       /\ hasField c "requiredStatus" = false
       /\ hasField c "onErrorStatusFail" = false)
    Plugins.urlConditions
  /\ List.length Plugins.urlConditions = 3%nat
  /\ (exists c, In ("success", c) AA.waitConditions
                /\ field c "onlyStatusCode" = Some (LNumber 200)
                /\ field c "othersThrow" = Some (LBoolean true)).
Proof.
  split; [|split].
  - unfold Plugins.urlConditions. cbv [Plugins.waitConditions].
    simpl.
    repeat apply Forall_cons; try apply Forall_nil;
      (split; [reflexivity|]; split; [eexists; reflexivity|];
       repeat split; reflexivity).
  - reflexivity.
  - eexists. split; [left; reflexivity|]. split; reflexivity.
Qed.

(* ===================================================================== *)
(** ** united: the anti-botting condition                                *)
(* ===================================================================== *)

(** C2: whenever the condition named "anti-botting" (an html-type
    condition on the markup "united.com was unable to complete") is the one
    that wins the [waitFor] race, united's [runScraper] throws the error
    "anti-botting"; it returns no list of flight records. *)
Theorem united_anti_botting_throws
    (JSON_parse : string -> Exc United.UnitedResponse)
    (arkalis : Arkalis) (query : AwardWizQuery) (pageResult : MatchResult) :
  waitFor arkalis United.waitConditions = Return pageResult ->
  mr_name pageResult = "anti-botting" ->
  In ("anti-botting",
      [ ("type", LString "html"); ("html", LString "united.com was unable to complete") ])
     United.waitConditions
  /\ United.runScraper JSON_parse arkalis query = Throw (Error "anti-botting")
  /\ (forall records, United.runScraper JSON_parse arkalis query <> Return records).
Proof.
  intros Hwait Hname.
  assert (Hrun : United.runScraper JSON_parse arkalis query = Throw (Error "anti-botting")).
  { unfold United.runScraper. rewrite Hwait. simpl. now rewrite Hname. }
  split; [right; left; reflexivity|].
  split; [assumption|].
  intros records. rewrite Hrun. discriminate.
Qed.

Lemma united_anti_botting_throws_witness :
  United.runScraper (fun _ => Return {| United.data := None |}) Samples.detectedEngine Samples.query
  = Throw (Error "anti-botting").
Proof.
  apply (united_anti_botting_throws (fun _ => Return {| United.data := None |})
           Samples.detectedEngine Samples.query
           {| mr_name := "anti-botting"; mr_response := None |});
    reflexivity.
Defined.

(* ===================================================================== *)
(** ** alaska: a response without slices                                 *)
(* ===================================================================== *)

(** C3: for every Alaska search response whose parsed body has no [slices]
    field, alaska's [runScraper] returns the value of
    [warn("No scheduled flights between cities")]; with the engine's [warn]
    that value is the empty record set, and nothing is thrown. *)
Theorem alaska_no_slices_warns
    (JSON_stringify : Alaska.Fare -> string)
    (JSON_parse : string -> Exc Alaska.AlaskaResponse)
    (arkalis : Arkalis) (query : AwardWizQuery)
    (loaded : MatchResult) (responseText : string) (fetchFlights : Alaska.AlaskaResponse) :
  waitFor arkalis Alaska.waitConditions = Return loaded ->
  evaluate arkalis (Alaska.searchCall query) = Return responseText ->
  String.eqb responseText "" = false ->
  startsWith responseText "<!" = false ->
  JSON_parse responseText = Return fetchFlights ->
  Alaska.slices fetchFlights = None ->
  (forall message, warn arkalis message = Engine.warn message) ->
  Alaska.runScraper JSON_stringify JSON_parse arkalis query
  = Return (warn arkalis "No scheduled flights between cities")
  /\ Alaska.runScraper JSON_stringify JSON_parse arkalis query = Return [].
Proof.
  intros Hwait Heval Hnonempty Hnothtml Hparse Hslices Hwarn.
  assert (Hrun : Alaska.runScraper JSON_stringify JSON_parse arkalis query
                 = Return (warn arkalis "No scheduled flights between cities")).
  { unfold Alaska.runScraper. rewrite Hwait. simpl. rewrite Heval. simpl.
    rewrite Hnonempty, Hnothtml. simpl. rewrite Hparse. simpl.
    now rewrite Hslices. }
  split; [assumption|].
  rewrite Hrun, Hwarn. reflexivity.
Qed.

Lemma alaska_no_slices_warns_witness :
  Alaska.runScraper (fun _ => "") (fun _ => Return {| Alaska.slices := None |})
    Samples.emptyAnswerEngine Samples.query
  = Return [].
Proof.
  apply (alaska_no_slices_warns (fun _ => "")
           (fun _ => Return {| Alaska.slices := None |})
           Samples.emptyAnswerEngine Samples.query
           {| mr_name := "loaded"; mr_response := None |} "{}"
           {| Alaska.slices := None |});
    reflexivity.
Defined.

(* ===================================================================== *)
(** ** Unknown cabin classifications                                     *)
(* ===================================================================== *)

(** C4, as stated, fails: a fare product with an unknown classification
    that the scraper never classifies does not make [standardizeResults]
    throw. united skips a product without prices, aa drops a product that
    is not available, alaska skips a slice of more than one segment; each
    of the three runs below completes. *)
Lemma skipped_unknown_classification_does_not_throw :
  let united := Plugins.UnitedInput Samples.query (Samples.unitedTrip Samples.unpricedMystery) in
  let aa :=
    Plugins.AAInput [Samples.aaSlice [Samples.aaProduct false None "MYSTERY" 50000]]
      Samples.query in
  let alaska :=
    Plugins.AlaskaInput
      (Samples.alaskaResponse [Samples.alaskaSegment; Samples.alaskaSegment])
      Samples.query in
  (Plugins.hasUnknown united = true
   /\ exists record,
        Plugins.standardizeResults (fun _ => "") (fun _ => "") united = Return [record]
        /\ fares record = [])
  /\ (Plugins.hasUnknown aa = true
      /\ exists record,
           Plugins.standardizeResults (fun _ => "") (fun _ => "") aa = Return [record]
           /\ fares record = [])
  /\ (Plugins.hasUnknown alaska = true
      /\ Plugins.standardizeResults (fun _ => "") (fun _ => "") alaska = Return []).
Proof.
  cbv zeta.
  split; [|split].
  - split; [reflexivity|]. eexists. split; [vm_compute; reflexivity | reflexivity].
  - split; [reflexivity|]. eexists. split; [vm_compute; reflexivity | reflexivity].
  - split; reflexivity.
Qed.

Lemma united_product_throws (product : United.Product) :
  United.Prices product <> [] ->
  United.cabinOf product = VUndefined ->
  forall fares, exists e, United.productStep fares product = Throw e.
Proof.
  intros Hpriced Hcabin fares. unfold United.productStep.
  destruct (United.Prices product); [contradiction|].
  rewrite Hcabin. eexists. reflexivity.
Qed.

Lemma united_flight_throws (query : AwardWizQuery) (unitedTrip : United.Trip)
    (flight : United.Flight) (product : United.Product) :
  United.flightKept query unitedTrip flight = true ->
  In product (United.Products flight) ->
  United.Prices product <> [] ->
  United.cabinOf product = VUndefined ->
  forall results, exists e, United.flightStep query unitedTrip results flight = Throw e.
Proof.
  intros Hkept Hin Hpriced Hcabin results. unfold United.flightStep.
  rewrite Hkept. simpl.
  destruct (foldM_throws United.productStep (United.Products flight) product Hin
              (united_product_throws product Hpriced Hcabin) []) as [e ->].
  now exists e.
Qed.

Lemma aa_slice_throws (JSON_stringify : AA.Segment -> string)
    (query : AwardWizQuery) (slice : AA.Slice) (product : AA.PricingDetail) :
  In product (AA.pricingDetail slice) ->
  AA.productAvailable product = true ->
  AA.lookedUpCabin product = VUndefined ->
  exists e, AA.standardizeSlice JSON_stringify query slice = Throw e.
Proof.
  intros Hin Havailable Hcabin. unfold AA.standardizeSlice.
  destruct (AA.segments slice) as [|segment ?]; simpl; [eexists; reflexivity|].
  destruct (AA.legs segment) as [|leg ?]; simpl; [eexists; reflexivity|].
  unfold AA.faresOf.
  destruct (mapM_throws (AA.toFare JSON_stringify segment)
              (filter AA.productAvailable (AA.pricingDetail slice)) product) as [e ->].
  - apply filter_In. now split.
  - unfold AA.toFare. rewrite Hcabin. simpl. eexists. reflexivity.
  - now exists e.
Qed.

Lemma alaska_fare_throws (JSON_stringify : Alaska.Fare -> string) (fare : Alaska.Fare) :
  Alaska.unknownCabin fare = true ->
  forall fares, exists e, Alaska.fareStep JSON_stringify fares fare = Throw e.
Proof.
  intros Hunknown fares. unfold Alaska.fareStep.
  destruct (negb (Nat.eqb (List.length (Alaska.bookingCodes fare)) 1));
    [eexists; reflexivity|].
  destruct (negb (Nat.eqb (List.length (Alaska.cabins fare)) 1));
    [eexists; reflexivity|].
  destruct (Alaska.cabins fare) as [|cabin0 ?] eqn:Hcabins; [eexists; reflexivity|].
  rewrite Hunknown. eexists. reflexivity.
Qed.

Lemma alaska_slice_throws (JSON_stringify : Alaska.Fare -> string)
    (query : AwardWizQuery) (slice : Alaska.Slice) (fare : Alaska.Fare) :
  Alaska.sliceKept query slice = true ->
  In fare (Alaska.Object_values (Alaska.slice_fares slice)) ->
  Alaska.unknownCabin fare = true ->
  forall results, exists e, Alaska.sliceStep JSON_stringify query results slice = Throw e.
Proof.
  intros Hkept Hin Hunknown results.
  unfold Alaska.sliceKept in Hkept. unfold Alaska.sliceStep.
  destruct (Alaska.segments slice) as [|segment [|? ?]]; try discriminate.
  apply andb_true_iff in Hkept as [Ho Hd].
  simpl. rewrite Ho, Hd. simpl.
  destruct (foldM_throws (Alaska.fareStep JSON_stringify)
              (Alaska.Object_values (Alaska.slice_fares slice)) fare Hin
              (alaska_fare_throws JSON_stringify fare Hunknown) []) as [e ->].
  now exists e.
Qed.

(** C4, amended: for every fare product that a scraper classifies (united:
    a product with at least one price, in a flight that passes the
    origin, destination and date guards; aa: a product with
    productAvailable, in any slice; alaska: a fare of a single-segment
    slice that matches the query's origin and destination), if the lookup
    of its classification value yields [undefined] (the value is not among
    the scraper's known values), [standardizeResults] throws an error: the
    attempt fails instead of emitting records. *)
Theorem classified_unknown_throws
    (AA_stringify : AA.Segment -> string) (Alaska_stringify : Alaska.Fare -> string)
    (input : Plugins.Input) :
  Plugins.classifiesUnknown input = true ->
  exists e, Plugins.standardizeResults AA_stringify Alaska_stringify input = Throw e.
Proof.
  destruct input as [query unitedTrip | slices query | raw query]; simpl; intro H.
  - apply existsb_exists in H as (flight & Hflight & H).
    apply andb_true_iff in H as [Hkept H].
    apply existsb_exists in H as (product & Hproduct & H).
    unfold United.standardizeResults.
    apply foldM_throws with (x := flight); [assumption|].
    apply united_flight_throws with (product := product); try assumption.
    + destruct (United.Prices product); [discriminate | discriminate].
    + destruct (United.Prices product); [discriminate|]. now apply strict_eq_spec.
  - apply existsb_exists in H as (slice & Hslice & H).
    apply existsb_exists in H as (product & Hproduct & H).
    apply andb_true_iff in H as [Havailable H]. apply strict_eq_spec in H.
    unfold AA.standardizeResults.
    destruct (mapM_throws (AA.standardizeSlice AA_stringify query) slices slice Hslice
                (aa_slice_throws AA_stringify query slice product Hproduct Havailable H))
      as [e ->].
    now exists e.
  - unfold Alaska.standardizeResults.
    destruct (Alaska.slices raw) as [ss|]; [|discriminate].
    apply existsb_exists in H as (slice & Hslice & H).
    apply andb_true_iff in H as [Hkept H].
    apply existsb_exists in H as (fare & Hfare & H).
    apply foldM_throws with (x := slice); [assumption|].
    now apply alaska_slice_throws with (fare := fare).
Qed.

Lemma classified_unknown_throws_witness :
  exists e,
    Plugins.standardizeResults (fun _ => "") (fun _ => "")
      (Plugins.UnitedInput Samples.query (Samples.unitedTrip Samples.pricedMystery))
    = Throw e.
Proof.
  apply (classified_unknown_throws (fun _ => "") (fun _ => "")
           (Plugins.UnitedInput Samples.query (Samples.unitedTrip Samples.pricedMystery))).
  reflexivity.
Defined.

(* ===================================================================== *)
(** ** aa: the lowest fare of each cabin                                 *)
(* ===================================================================== *)

Section KeyedLists.

Context {A K : Type} (key : A -> K).

Lemma NoDup_map_filter (p : A -> bool) (l : list A) :
  NoDup (map key l) -> NoDup (map key (filter p l)).
Proof.
  induction l as [|x rest IH]; simpl; intro H; [constructor|].
  inversion H as [|? ? Hnotin Hrest]; subst.
  destruct (p x); simpl; [|now apply IH].
  constructor; [|now apply IH].
  intro Hin. apply Hnotin.
  apply in_map_iff in Hin as (y & Hy & Hin).
  apply filter_In in Hin as [Hin _].
  apply in_map_iff. now exists y.
Qed.

Lemma NoDup_map_same_key (l : list A) (a b : A) :
  NoDup (map key l) -> In a l -> In b l -> key a = key b -> a = b.
Proof.
  induction l as [|x rest IH]; simpl; intros H Ha Hb Hk; [contradiction|].
  inversion H as [|? ? Hnotin Hrest]; subst.
  destruct Ha as [->|Ha], Hb as [->|Hb]; auto.
  - exfalso. apply Hnotin. rewrite Hk. now apply in_map.
  - exfalso. apply Hnotin. rewrite <- Hk. now apply in_map.
Qed.

End KeyedLists.

Lemma dropUndefined_In {A : Type} (xs : list (option A)) (x : A) :
  In x (AA.dropUndefined xs) -> In (Some x) xs.
Proof.
  induction xs as [|[y|] rest IH]; simpl; intro H; [contradiction| |].
  - destruct H as [->|H]; [now left | right; now apply IH].
  - right. now apply IH.
Qed.

Lemma keepLowest_step (segment : AA.Segment) (acc seen : list FlightFare)
    (fare : FlightFare) (acc' : list FlightFare) :
  Invariants.lowestPerCabin acc seen ->
  AA.keepLowest segment acc fare = Return acc' ->
  Invariants.lowestPerCabin acc' (seen ++ [fare]).
Proof.
  intros (Hnodup & Hlow & Hpresent) Hstep.
  unfold AA.keepLowest in Hstep.
  destruct (strict_eq (cabin fare) VUndefined); [discriminate|].
  set (same := fun check : FlightFare => strict_eq (cabin check) (cabin fare)) in *.
  set (other := fun check : FlightFare => negb (strict_eq (cabin check) (cabin fare))) in *.
  assert (Hreplace :
            (forall e, find same acc = Some e -> miles fare <= miles e) ->
            Invariants.lowestPerCabin (filter other acc ++ [fare]) (seen ++ [fare])).
  { intro Hle. repeat split.
    - rewrite map_app. simpl. apply NoDup_app.
      + now apply NoDup_map_filter.
      + repeat constructor. intros [].
      + intros c Hc [<-|[]].
        apply in_map_iff in Hc as (f & Hf & Hin).
        apply filter_In in Hin as [_ Hin]. unfold other in Hin.
        rewrite <- Hf, strict_eq_refl in Hin. discriminate.
    - intros f g Hf Hg Hcabin.
      apply in_app_iff in Hf as [Hf|[<-|[]]], Hg as [Hg|[<-|[]]].
      + apply filter_In in Hf as [Hf _]. now apply Hlow.
      + apply filter_In in Hf as [_ Hf]. unfold other in Hf.
        rewrite <- Hcabin, strict_eq_refl in Hf. discriminate.
      + destruct (Hpresent g Hg) as (f & Hf & Hfg).
        destruct (find same acc) as [e|] eqn:Hfind.
        * apply find_some in Hfind as [He Hsame]. unfold same in Hsame.
          apply strict_eq_spec in Hsame.
          transitivity (miles e); [now apply Hle|].
          apply Hlow; congruence.
        * apply find_none with (x := f) in Hfind; [|assumption].
          unfold same in Hfind. rewrite Hfg, Hcabin, strict_eq_refl in Hfind.
          discriminate.
      + lia.
    - intros g Hg. apply in_app_iff in Hg as [Hg|[<-|[]]].
      + destruct (Hpresent g Hg) as (f & Hf & Hfg).
        destruct (strict_eq (cabin f) (cabin fare)) eqn:Hsame.
        * apply strict_eq_spec in Hsame. exists fare. split; [|congruence].
          apply in_app_iff. right. now left.
        * exists f. split; [|assumption].
          apply in_app_iff. left. apply filter_In. split; [assumption|].
          unfold other. now rewrite Hsame.
      + exists fare. split; [|reflexivity]. apply in_app_iff. right. now left. }
  destruct (find same acc) as [e|] eqn:Hfind.
  - destruct (miles e <? miles fare) eqn:Hlt.
    + injection Hstep as <-. apply Z.ltb_lt in Hlt.
      apply find_some in Hfind as [He Hsame]. unfold same in Hsame.
      apply strict_eq_spec in Hsame.
      repeat split; [assumption| |].
      * intros f g Hf Hg Hcabin. apply in_app_iff in Hg as [Hg|[<-|[]]].
        -- now apply Hlow.
        -- assert (f = e) as ->
             by (apply (NoDup_map_same_key cabin acc); congruence).
           lia.
      * intros g Hg. apply in_app_iff in Hg as [Hg|[<-|[]]].
        -- now apply Hpresent.
        -- now exists e.
    + injection Hstep as <-. apply Z.ltb_ge in Hlt.
      apply Hreplace. intros e' He'. now injection He' as <-.
  - injection Hstep as <-. apply Hreplace. discriminate.
Qed.

Lemma keepLowest_loop (segment : AA.Segment) (rest acc seen out : list FlightFare) :
  Invariants.lowestPerCabin acc seen ->
  foldM (AA.keepLowest segment) rest acc = Return out ->
  Invariants.lowestPerCabin out (seen ++ rest).
Proof.
  revert acc seen. induction rest as [|fare rest IH]; intros acc seen Hinv H.
  - simpl in H. injection H as <-. now rewrite app_nil_r.
  - simpl in H.
    destruct (AA.keepLowest segment acc fare) as [|acc'] eqn:Hstep; [discriminate|].
    simpl in H.
    replace (seen ++ fare :: rest)%list with ((seen ++ [fare]) ++ rest)%list
      by (now rewrite <- app_assoc).
    apply IH with (acc := acc'); [|assumption].
    now apply keepLowest_step with (segment := segment) (acc := acc).
Qed.

Lemma faresOf_lowest (JSON_stringify : AA.Segment -> string)
    (segment : AA.Segment) (slice : AA.Slice) (fares : list FlightFare) :
  AA.faresOf JSON_stringify segment slice = Return fares ->
  NoDup (map cabin fares)
  /\ forall fare product,
       In fare fares ->
       In product (AA.pricingDetail slice) ->
       AA.productAvailable product = true ->
       AA.cabinOf segment product = cabin fare ->
       miles fare <= AA.perPassengerAwardPoints product.
Proof.
  unfold AA.faresOf. intro H.
  destruct (mapM (AA.toFare JSON_stringify segment)
              (filter AA.productAvailable (AA.pricingDetail slice)))
    as [|mapped] eqn:Hmap; [discriminate|].
  simpl in H.
  assert (Hinv : Invariants.lowestPerCabin fares ([] ++ mapped)).
  { apply keepLowest_loop with (segment := segment) (acc := []); [|assumption].
    repeat split; [constructor | intros ? ? [] | intros ? []]. }
  destruct Hinv as (Hnodup & Hlow & _). split; [assumption|].
  intros fare product Hfare Hproduct Havailable Hcabin.
  destruct (mapM_image _ _ _ Hmap product) as (priced & Hpriced & Hin).
  { apply filter_In. now split. }
  unfold AA.toFare in Hpriced.
  destruct (negb (truthy (AA.lookedUpCabin product))); [discriminate|].
  injection Hpriced as <-.
  apply (Hlow fare _ Hfare Hin). simpl. assumption.
Qed.

Lemma standardizeSlice_fares (JSON_stringify : AA.Segment -> string)
    (query : AwardWizQuery) (slice : AA.Slice) (record : FlightWithFares) :
  AA.standardizeSlice JSON_stringify query slice = Return (Some record) ->
  exists segment,
    hd_error (AA.segments slice) = Some segment
    /\ AA.faresOf JSON_stringify segment slice = Return (fares record).
Proof.
  unfold AA.standardizeSlice. intro H.
  destruct (AA.segments slice) as [|segment more] eqn:Hsegments; [discriminate|].
  cbn [JS.bind JS.first] in H.
  destruct (AA.legs segment) as [|leg ?]; [discriminate|].
  cbn [JS.bind JS.first] in H.
  destruct (AA.faresOf JSON_stringify segment slice) as [|fs] eqn:Hfares; [discriminate|].
  cbn [JS.bind] in H. exists segment. split; [reflexivity|].
  destruct (AA.last_opt (segment :: more)); [|discriminate].
  destruct (_ || _); [discriminate|].
  destruct (1 <? _); injection H as <-; exact Hfares.
Qed.

(** C8: every flight record that aa's [standardizeResults] produces comes
    from a slice of the response, holds at most one fare per cabin class,
    and each of its fares has miles less than or equal to the miles of
    every productAvailable pricing product of that slice that maps to the
    same cabin. *)
Theorem aa_one_lowest_fare_per_cabin
    (JSON_stringify : AA.Segment -> string)
    (slices : list AA.Slice) (query : AwardWizQuery) (results : list FlightWithFares) :
  AA.standardizeResults JSON_stringify slices query = Return results ->
  Forall
    (fun record =>
       exists slice segment,
         In slice slices
         /\ hd_error (AA.segments slice) = Some segment
         /\ AA.standardizeSlice JSON_stringify query slice = Return (Some record)
         /\ NoDup (map cabin (fares record))
         /\ forall fare product,
              In fare (fares record) ->
              In product (AA.pricingDetail slice) ->
              AA.productAvailable product = true ->
              AA.cabinOf segment product = cabin fare ->
              miles fare <= AA.perPassengerAwardPoints product)
    results.
Proof.
  unfold AA.standardizeResults. intro H.
  destruct (mapM (AA.standardizeSlice JSON_stringify query) slices)
    as [|mapped] eqn:Hmap; [discriminate|].
  simpl in H. injection H as <-.
  apply Forall_forall. intros record Hrecord.
  apply dropUndefined_In in Hrecord.
  destruct (mapM_preimage _ _ _ Hmap _ Hrecord) as (slice & Hslice & Hstd).
  destruct (standardizeSlice_fares _ _ _ _ Hstd) as (segment & Hsegment & Hfares).
  destruct (faresOf_lowest _ _ _ _ Hfares) as [Hnodup Hlow].
  exists slice, segment. repeat split; assumption.
Qed.

Lemma aa_one_lowest_fare_per_cabin_witness :
  let slices :=
    [ Samples.aaSlice
        [ Samples.aaProduct true (Some "T") "COACH" 25000;
          Samples.aaProduct true (Some "U") "BUSINESS" 60000;
          Samples.aaProduct false (Some "X") "COACH" 5000;
          Samples.aaProduct true (Some "Y") "COACH" 20000 ] ] in
  exists record,
    AA.standardizeResults (fun _ => "") slices Samples.query = Return [record]
    /\ map (fun fare => (cabin fare, miles fare)) (fares record)
       = [ (VString "business", 60000); (VString "economy", 20000) ]
    /\ NoDup (map cabin (fares record)).
Proof.
  intro slices.
  pose proof (aa_one_lowest_fare_per_cabin (fun _ => "") slices Samples.query _ eq_refl)
    as H.
  apply Forall_inv in H. destruct H as (slice & segment & _ & _ & _ & Hnodup & _).
  eexists. split; [vm_compute; reflexivity|]. split; [reflexivity | exact Hnodup].
Defined.

(* ===================================================================== *)
(** ** awardwallet: fetching balances never throws                       *)
(* ===================================================================== *)

Lemma accountStep_keeps_positive (rt : AwardWallet.Runtime)
    (balances : list AwardWallet.AwardWalletBalance) (account : AwardWallet.JSON)
    (balances' : list AwardWallet.AwardWalletBalance) :
  Forall (fun b => AwardWallet.gt0 rt (AwardWallet.balance b) = true) balances ->
  AwardWallet.accountStep rt balances account = Return balances' ->
  Forall (fun b => AwardWallet.gt0 rt (AwardWallet.balance b) = true) balances'.
Proof.
  intros Hall Hstep. unfold AwardWallet.accountStep in Hstep.
  destruct (AwardWallet.prop account "balance") as [|[b|]] eqn:Hbalance;
    cbn [JS.bind] in Hstep; try discriminate;
    [|now injection Hstep as <-].
  destruct (AwardWallet.truthy (Some b) && AwardWallet.gt0 rt b) eqn:Hpositive;
    [|now injection Hstep as <-].
  apply andb_true_iff in Hpositive as [_ Hpositive].
  repeat match type of Hstep with
         | JS.bind ?c _ = _ =>
             destruct c; cbn [JS.bind] in Hstep; [discriminate|]
         end.
  injection Hstep as <-.
  apply Forall_app. split; [assumption|].
  constructor; [exact Hpositive | constructor].
Qed.

Lemma fetchBody_success (rt : AwardWallet.Runtime)
    (credentials : option AwardWallet.AwardWalletCredentials)
    (response : AwardWallet.AwardWalletResponse) :
  AwardWallet.fetchBody rt credentials = Return response ->
  AwardWallet.success response = true
  /\ AwardWallet.error response = None
  /\ Forall (fun b => AwardWallet.gt0 rt (AwardWallet.balance b) = true)
       (AwardWallet.balances response).
Proof.
  unfold AwardWallet.fetchBody. intro H.
  repeat match type of H with
         | JS.bind ?c _ = _ =>
             let Hc := fresh "Hc" in
             destruct c eqn:Hc; cbn [JS.bind] in H; [discriminate|]
         | (if ?c then _ else _) = _ => destruct c; [discriminate|]
         end.
  injection H as <-. simpl. repeat split.
  apply Forall_forall. intros b Hb.
  apply (Permutation_in _ (Permutation_sym (sort_perm _ _))) in Hb.
  revert b Hb. apply Forall_forall.
  match goal with
  | Hc : match ?accounts with _ => _ end = Return _ |- _ =>
      destruct accounts as [[| | | |items|]|]; try (injection Hc as <-; constructor)
  end.
  eapply (foldM_invariant
            (fun bs => Forall (fun b => AwardWallet.gt0 rt (AwardWallet.balance b) = true) bs));
    [| |eassumption]; [|constructor].
  intros s x s' _. apply accountStep_keeps_positive.
Qed.

(** The failures that the function is written for do make the [try] block
    throw: no credentials file, a response that is not OK, a body that is
    not JSON. *)
Lemma fetchBody_failures (rt : AwardWallet.Runtime) :
  (forall m,
     AwardWallet.readFile rt (AwardWallet.credentialsPath rt)
     = Throw (SystemError "ENOENT" m) ->
     exists e, AwardWallet.fetchBody rt None = Throw e)
  /\ (forall creds url headers response,
        AwardWallet.fetch rt url "GET" headers = Return response ->
        url = "https://business.awardwallet.com/api/export/v1/connectedUser/"
              ++ AwardWallet.userId creds ->
        headers = [ ("X-Authentication", AwardWallet.apiKey creds);
                    ("User-Agent", "AwardWiz/2.0"); ("Accept", "application/json") ] ->
        (AwardWallet.ok response = false
         \/ exists e, AwardWallet.json response = Throw e) ->
        exists e, AwardWallet.fetchBody rt (Some creds) = Throw e).
Proof.
  split.
  - intros m Hread. unfold AwardWallet.fetchBody, AwardWallet.loadAwardWalletCredentials.
    rewrite Hread. simpl. eexists. reflexivity.
  - intros creds url headers response Hfetch -> -> Hbad.
    unfold AwardWallet.fetchBody. cbn [JS.bind]. rewrite Hfetch. cbn [JS.bind].
    destruct (AwardWallet.ok response); simpl.
    + destruct Hbad as [Hbad|[e He]]; [discriminate|]. rewrite He. now exists e.
    + eexists. reflexivity.
Qed.

(** C9: [fetchAwardWalletBalances] returns a response for every runtime
    and every credentials argument and never lets an exception escape.
    When its [try] block throws (no credentials file, a status that is not
    OK, a malformed body, ...) the response has success = false,
    balances = [] and the error's message; otherwise success = true and
    every returned balance entry has balance > 0. *)
Theorem fetchAwardWalletBalances_total (rt : AwardWallet.Runtime)
    (credentials : option AwardWallet.AwardWalletCredentials) :
  exists response,
    AwardWallet.fetchAwardWalletBalances rt credentials = Return response
    /\ (forall e,
          AwardWallet.fetchBody rt credentials = Throw e ->
          response = {| AwardWallet.success := false;
                        AwardWallet.balances := [];
                        AwardWallet.error := Some (JS.message e) |})
    /\ (AwardWallet.success response = false ->
        (exists e, AwardWallet.fetchBody rt credentials = Throw e)
        /\ AwardWallet.balances response = []
        /\ exists m, AwardWallet.error response = Some m)
    /\ (AwardWallet.success response = true ->
        Forall (fun b => AwardWallet.gt0 rt (AwardWallet.balance b) = true)
          (AwardWallet.balances response)).
Proof.
  unfold AwardWallet.fetchAwardWalletBalances.
  destruct (AwardWallet.fetchBody rt credentials) as [e|response] eqn:Hbody.
  - eexists. split; [reflexivity|]. split; [|split]; simpl.
    + intros e' He'. now injection He' as <-.
    + intros _. split; [now exists e|]. split; [reflexivity|]. now eexists.
    + discriminate.
  - destruct (fetchBody_success rt credentials response Hbody) as (Hok & _ & Hall).
    exists response. split; [reflexivity|]. split; [|split].
    + discriminate.
    + rewrite Hok. discriminate.
    + intros _. exact Hall.
Qed.

Lemma fetchAwardWalletBalances_total_witness :
  (exists response,
     AwardWallet.fetchAwardWalletBalances Samples.runtime (Some Samples.credentials)
     = Return response
     /\ AwardWallet.success response = true
     /\ map AwardWallet.balance (AwardWallet.balances response)
        = [AwardWallet.JNumber 100000; AwardWallet.JNumber 25000]
     /\ Forall (fun b => AwardWallet.gt0 Samples.runtime (AwardWallet.balance b) = true)
          (AwardWallet.balances response))
  /\ (exists response,
        AwardWallet.fetchAwardWalletBalances Samples.runtime None = Return response
        /\ AwardWallet.success response = false
        /\ AwardWallet.balances response = []).
Proof.
  split.
  - destruct (fetchAwardWalletBalances_total Samples.runtime (Some Samples.credentials))
      as (response & Hrun & _ & _ & Hpositive).
    exists response. split; [exact Hrun|].
    vm_compute in Hrun. injection Hrun as <-.
    split; [reflexivity|]. split; [reflexivity|]. apply Hpositive. reflexivity.
  - destruct (fetchAwardWalletBalances_total Samples.runtime None)
      as (response & Hrun & _ & Hfailed & _).
    exists response. split; [exact Hrun|].
    vm_compute in Hrun. injection Hrun as <-.
    split; [reflexivity|]. apply Hfailed. reflexivity.
Defined.

(* ===================================================================== *)
(** ** transfer partners: totals and ranking                             *)
(* ===================================================================== *)

Lemma reduce_sum {A : Type} (f : A -> Z) (l : list A) (start : Z) :
  fold_left (fun sum x => sum + f x) l start = start + fold_right Z.add 0 (map f l).
Proof.
  revert start. induction l as [|x rest IH]; intro start; simpl; [lia|].
  rewrite IH. lia.
Qed.


(** A run on concrete balances: 25,000 United miles and 100,000 Chase
    points rank united first with 125,000 transferable miles. *)
Lemma calculateTransferOptions_sample :
  map (fun c => (TransferPartners.scraperName c,
                 TransferPartners.directBalance c,
                 TransferPartners.transferableBalance c))
    (TransferPartners.calculateTransferOptions
       [ Samples.balanceOf "United MileagePlus" 25000;
         Samples.balanceOf "Chase Ultimate Rewards" 100000 ])
  = [ ("united", 25000, 125000); ("air-france", 0, 100000);
      ("british-airways", 0, 100000); ("singapore", 0, 100000);
      ("southwest", 0, 100000); ("delta", 0, 0); ("emirates", 0, 0);
      ("alaska", 0, 0); ("aa", 0, 0) ].
Proof. vm_compute. reflexivity. Qed.

(* ===================================================================== *)
(** ** The attempt loop: sessions are torn down exactly once             *)
(* ===================================================================== *)

Section AttemptLoop.

Import SessionOrchestrator.

Context {Records Err : Type}.

Lemma sessions_app (l1 l2 : list nat) :
  sessions (l1 ++ l2) = (sessions l1 ++ sessions l2)%list.
Proof. unfold sessions. now rewrite flat_map_app. Qed.

Lemma closedInTurn_sessions (ran : list nat) :
  closedInTurn None (sessions ran) = true.
Proof.
  induction ran as [|i rest IH]; simpl; [reflexivity|].
  now rewrite Nat.eqb_refl.
Qed.

Lemma createdTimes_sessions (i : nat) (ran : list nat) :
  createdTimes i (sessions ran) = count_occ Nat.eq_dec ran i
  /\ tornDownTimes i (sessions ran) = count_occ Nat.eq_dec ran i.
Proof.
  unfold createdTimes, tornDownTimes.
  induction ran as [|j rest [IHc IHt]]; simpl; [split; reflexivity|].
  destruct (Nat.eq_dec j i) as [->|Hne].
  - rewrite Nat.eqb_refl. simpl. now rewrite IHc, IHt.
  - apply Nat.eqb_neq in Hne. rewrite Hne. now rewrite IHc, IHt.
Qed.

Lemma creations_sessions (ran : list nat) :
  creations (sessions ran) = List.length ran
  /\ teardowns (sessions ran) = List.length ran.
Proof.
  unfold creations, teardowns.
  induction ran as [|j rest [IHc IHt]]; simpl; [split; reflexivity|].
  now rewrite IHc, IHt.
Qed.

(** Whatever the attempts meet, the trace is the sessions of some of the
    attempts, each at most once and in turn. *)
Lemma attempts_trace (world : nat -> @Attempt Records Err) (remaining : nat) :
  forall i last trace,
  exists ran,
    fst (attempts world remaining i last trace) = (trace ++ sessions ran)%list
    /\ Forall (fun j => (i <= j)%nat) ran
    /\ NoDup ran.
Proof.
  induction remaining as [|k IH]; intros i last trace; simpl.
  - exists []. simpl. rewrite app_nil_r. repeat split; constructor.
  - assert (Hshape :
              exists here next,
                attempt i (world i) = (sessions here, next)
                /\ (here = [] \/ here = [i])).
    { destruct (world i) as [|e|[r| |e [|]|]]; simpl;
        [ exists [] | exists [] | exists [i] | exists [i] | exists [i] | exists [i] | exists [i] ];
        eexists; (split; [reflexivity | auto]). }
    destruct Hshape as (here & next & -> & Hhere).
    assert (Hle : Forall (fun j => (i <= j)%nat) here)
      by (destruct Hhere as [->| ->]; repeat constructor).
    assert (Hnd : NoDup here)
      by (destruct Hhere as [->| ->]; repeat constructor; intros []).
    destruct next as [r|f].
    + exists here. simpl. auto.
    + destruct (IH (S i) (Failed f) (trace ++ sessions here)%list)
        as (ran & Htrace & Hran & Hnodup).
      exists (here ++ ran)%list. rewrite Htrace, sessions_app, app_assoc.
      split; [reflexivity|]. split.
      * apply Forall_app. split; [assumption|].
        eapply Forall_impl; [|exact Hran]. simpl. intros; lia.
      * destruct Hhere as [->| ->]; simpl; [assumption|].
        constructor; [|assumption].
        intro Hin. rewrite Forall_forall in Hran.
        specialize (Hran i Hin). lia.
Qed.

(** A plugin that throws a retryable error in every attempt uses up all
    attempts; the error of the last one is the result. *)
Lemma attempts_always_retryable (world : nat -> @Attempt Records Err)
    (err : nat -> Err) :
  (forall i, world i = Ran (Threw (err i) true)) ->
  forall remaining i last trace,
    attempts world remaining i last trace
    = ((trace ++ sessions (seq i remaining))%list,
       match remaining with
       | O => last
       | S n => Failed (PluginError (err (i + n)%nat))
       end).
Proof.
  intros Hworld remaining.
  induction remaining as [|k IH]; intros i last trace; simpl.
  - now rewrite app_nil_r.
  - rewrite Hworld. simpl. rewrite IH.
    rewrite <- app_assoc. simpl. f_equal.
    destruct k; do 3 f_equal; lia.
Qed.

End AttemptLoop.

(** C1: in every run of the orchestrator each attempt's BrowserSession is
    torn down exactly as often as it was created, at most once, and before
    the next one is created or the run returns, whichever way the plugin
    body ended (result, warn, thrown error, timeout). With maxAttempts = N
    and a plugin that throws a retryable error in every attempt, exactly N
    sessions are created, N are torn down, and the Nth failure is the
    result of the run. *)
Theorem session_torn_down_exactly_once
    (Records Err : Type)
    (world : nat -> @SessionOrchestrator.Attempt Records Err)
    (config : SessionOrchestrator.SessionConfig) :
  let trace := fst (SessionOrchestrator.run world config) in
  let result := snd (SessionOrchestrator.run world config) in
  let N := SessionOrchestrator.maxAttempts config in
  SessionOrchestrator.closedInTurn None trace = true
  /\ (forall i,
        SessionOrchestrator.tornDownTimes i trace = SessionOrchestrator.createdTimes i trace
        /\ (SessionOrchestrator.createdTimes i trace <= 1)%nat)
  /\ (forall err : nat -> Err,
        (forall i, world i
                   = SessionOrchestrator.Ran (SessionOrchestrator.Threw (err i) true)) ->
        SessionOrchestrator.creations trace = N
        /\ SessionOrchestrator.teardowns trace = N
        /\ (forall i, (i < N)%nat -> SessionOrchestrator.createdTimes i trace = 1%nat)
        /\ (forall n, N = S n ->
              result = SessionOrchestrator.Failed (SessionOrchestrator.PluginError (err n)))).
Proof.
  intros trace result N. subst trace result N. unfold SessionOrchestrator.run.
  split; [|split].
  - destruct (attempts_trace world (SessionOrchestrator.maxAttempts config)
                0%nat SessionOrchestrator.NotAttempted []) as (ran & -> & _ & _).
    apply closedInTurn_sessions.
  - intro i.
    destruct (attempts_trace world (SessionOrchestrator.maxAttempts config)
                0%nat SessionOrchestrator.NotAttempted []) as (ran & -> & _ & Hnodup).
    simpl. destruct (createdTimes_sessions i ran) as [-> ->].
    split; [reflexivity|].
    now apply (NoDup_count_occ Nat.eq_dec).
  - intros err Hworld.
    rewrite (attempts_always_retryable world err Hworld). simpl.
    destruct (creations_sessions (seq 0 (SessionOrchestrator.maxAttempts config)))
      as [-> ->].
    rewrite length_seq. repeat split.
    + intros i Hi. destruct (createdTimes_sessions i
                               (seq 0 (SessionOrchestrator.maxAttempts config))) as [-> _].
      apply (NoDup_count_occ' Nat.eq_dec); [apply seq_NoDup|].
      apply in_seq. lia.
    + intros n ->. reflexivity.
Qed.

Lemma session_torn_down_exactly_once_witness :
  let world : nat -> @SessionOrchestrator.Attempt (list FlightWithFares) JS.Thrown :=
    fun i => SessionOrchestrator.Ran
               (SessionOrchestrator.Threw (JS.Error "timed out waiting") true) in
  let config :=
    {| SessionOrchestrator.maxAttempts := 3;
       SessionOrchestrator.perAttemptTimeout := 60000;
       SessionOrchestrator.useProxy := false;
       SessionOrchestrator.showRequests := false;
       SessionOrchestrator.debugMode := false |} in
  SessionOrchestrator.run world config
  = ( [ SessionOrchestrator.Created 0; SessionOrchestrator.TornDown 0;
        SessionOrchestrator.Created 1; SessionOrchestrator.TornDown 1;
        SessionOrchestrator.Created 2; SessionOrchestrator.TornDown 2 ],
      SessionOrchestrator.Failed
        (SessionOrchestrator.PluginError (JS.Error "timed out waiting")) )
  /\ SessionOrchestrator.creations (fst (SessionOrchestrator.run world config)) = 3%nat
  /\ SessionOrchestrator.teardowns (fst (SessionOrchestrator.run world config)) = 3%nat.
Proof.
  intros world config.
  destruct (session_torn_down_exactly_once _ _ world config) as (_ & _ & Hretry).
  destruct (Hretry (fun _ => JS.Error "timed out waiting") (fun _ => eq_refl))
    as (Hcreated & Htorn & _ & _).
  split; [reflexivity|]. split; [exact Hcreated | exact Htorn].
Defined.

(* ===================================================================== *)
(** ** transfer partners: options, direct balances, summary              *)
(* ===================================================================== *)

(** A step of the transfer loop appends what it would add to an empty
    list. *)
Lemma transferStep_appends (targetProgram : string)
    (balances : list TransferPartners.AwardWalletBalance)
    (transfers : list TransferPartners.TransferOption)
    (entry : string * list TransferPartners.TransferPartner) :
  TransferPartners.transferStep targetProgram balances transfers entry
  = (transfers ++ TransferPartners.transferStep targetProgram balances [] entry)%list.
Proof.
  unfold TransferPartners.transferStep. destruct entry as [creditProgram partners].
  destruct (_ <=? 0); [now rewrite app_nil_r|].
  destruct (find _ partners); [|now rewrite app_nil_r].
  destruct (_ <=? _); [reflexivity | now rewrite app_nil_r].
Qed.

Lemma transferLoop_flat_map (targetProgram : string)
    (balances : list TransferPartners.AwardWalletBalance)
    (entries : list (string * list TransferPartners.TransferPartner))
    (transfers : list TransferPartners.TransferOption) :
  fold_left (TransferPartners.transferStep targetProgram balances) entries transfers
  = (transfers
     ++ flat_map (TransferPartners.transferStep targetProgram balances []) entries)%list.
Proof.
  revert transfers. induction entries as [|entry rest IH]; intro transfers; simpl.
  - now rewrite app_nil_r.
  - rewrite IH, transferStep_appends. now rewrite <- app_assoc.
Qed.

(** What one credit card program contributes: nothing, or one option with
    the properties below, when all its partners transfer 1:1 from 1000
    points. *)
Lemma transferStep_option (targetProgram : string)
    (balances : list TransferPartners.AwardWalletBalance)
    (creditProgram : string) (partners : list TransferPartners.TransferPartner) :
  Forall (fun p => TransferPartners.ratio p = 1
                   /\ TransferPartners.minimumTransfer p = 1000) partners ->
  TransferPartners.transferStep targetProgram balances [] (creditProgram, partners) = []
  \/ exists o,
       TransferPartners.transferStep targetProgram balances [] (creditProgram, partners) = [o]
       /\ TransferPartners.fromProgram o = creditProgram
       /\ TransferPartners.toProgram o = targetProgram
       /\ TransferPartners.transferRatio o = 1
       /\ TransferPartners.availablePoints o
          = TransferPartners.getBalanceForProgram creditProgram balances
       /\ TransferPartners.resultingMiles o = TransferPartners.availablePoints o
       /\ 1000 <= TransferPartners.resultingMiles o.
Proof.
  intro Hpartners. unfold TransferPartners.transferStep.
  destruct (_ <=? 0); [now left|].
  destruct (find _ partners) as [partner|] eqn:Hfind; [|now left].
  apply find_some in Hfind as [Hin _].
  rewrite Forall_forall in Hpartners. destruct (Hpartners _ Hin) as [Hratio Hmin].
  rewrite Hratio, Hmin, Z.div_1_r, Z.mul_1_r.
  destruct (1000 <=? _) eqn:Hle; [|now left].
  right. eexists. split; [reflexivity|]. simpl.
  rewrite Z.div_1_r. apply Z.leb_le in Hle. repeat split; auto.
Qed.

Lemma TRANSFER_PROGRAMS_one_to_one :
  Forall (fun entry =>
            Forall (fun p => TransferPartners.ratio p = 1
                             /\ TransferPartners.minimumTransfer p = 1000) (snd entry))
    TransferPartners.TRANSFER_PROGRAMS.
Proof. repeat constructor. Qed.

Lemma transferOptions_shape (targetProgram : string)
    (balances : list TransferPartners.AwardWalletBalance)
    (entries : list (string * list TransferPartners.TransferPartner)) :
  Forall (fun entry =>
            Forall (fun p => TransferPartners.ratio p = 1
                             /\ TransferPartners.minimumTransfer p = 1000) (snd entry))
    entries ->
  NoDup (map fst entries) ->
  let options :=
    flat_map (TransferPartners.transferStep targetProgram balances []) entries in
  Forall (fun o =>
            In (TransferPartners.fromProgram o) (map fst entries)
            /\ TransferPartners.toProgram o = targetProgram
            /\ TransferPartners.transferRatio o = 1
            /\ TransferPartners.availablePoints o
               = TransferPartners.getBalanceForProgram
                   (TransferPartners.fromProgram o) balances
            /\ TransferPartners.resultingMiles o = TransferPartners.availablePoints o
            /\ 1000 <= TransferPartners.resultingMiles o)
    options
  /\ NoDup (map TransferPartners.fromProgram options).
Proof.
  induction entries as [|[creditProgram partners] rest IH]; intros Hall Hnodup;
    cbv zeta; cbn [flat_map map fst].
  - split; constructor.
  - inversion Hall as [|? ? Hhere Hrest]; subst.
    inversion Hnodup as [|? ? Hnotin Hnodup']; subst.
    destruct (IH Hrest Hnodup') as [IHall IHnodup]. cbn [snd] in Hhere.
    assert (Hweak :
              Forall (fun o =>
                        In (TransferPartners.fromProgram o) (creditProgram :: map fst rest)
                        /\ TransferPartners.toProgram o = targetProgram
                        /\ TransferPartners.transferRatio o = 1
                        /\ TransferPartners.availablePoints o
                           = TransferPartners.getBalanceForProgram
                               (TransferPartners.fromProgram o) balances
                        /\ TransferPartners.resultingMiles o
                           = TransferPartners.availablePoints o
                        /\ 1000 <= TransferPartners.resultingMiles o)
                (flat_map (TransferPartners.transferStep targetProgram balances []) rest)).
    { eapply Forall_impl; [|exact IHall]. simpl.
      intros o (Hin & H). split; [now right | exact H]. }
    destruct (transferStep_option targetProgram balances creditProgram partners Hhere)
      as [->|(o & -> & Hfrom & Hto & Hratio & Havail & Hmiles & Hmin)];
      cbn [app map].
    + split; assumption.
    + split.
      * constructor; [|assumption]. rewrite Hfrom. repeat split; auto.
        now left.
      * constructor; [|assumption]. rewrite Hfrom. intro Hin.
        apply in_map_iff in Hin as (o' & Ho' & Hin).
        rewrite Forall_forall in IHall. destruct (IHall o' Hin) as [Hmem _].
        apply Hnotin. now rewrite <- Ho'.
Qed.


Lemma sum_from_1000 {A : Type} (f : A -> Z) (l : list A) :
  Forall (fun x => 1000 <= f x) l ->
  0 <= fold_right Z.add 0 (map f l)
  /\ (l <> [] -> 1000 <= fold_right Z.add 0 (map f l)).
Proof.
  induction 1 as [|x rest Hx _ [IH0 _]]; simpl.
  - split; [lia | congruence].
  - split; [lia | intros _; lia].
Qed.

Lemma TRANSFER_PROGRAMS_keys_NoDup :
  NoDup (map fst TransferPartners.TRANSFER_PROGRAMS).
Proof.
  apply (NoDup_count_occ' string_dec). intros x Hx.
  cbv in Hx. repeat (destruct Hx as [<-|Hx]; [vm_compute; reflexivity|]). contradiction.
Qed.

Lemma transfers_from_1000 (program : string)
    (balances : list TransferPartners.AwardWalletBalance) :
  Forall (fun o => 1000 <= TransferPartners.resultingMiles o)
    (TransferPartners.calculateTransfersToProgram program balances).
Proof.
  unfold TransferPartners.calculateTransfersToProgram.
  rewrite transferLoop_flat_map. cbn [app].
  destruct (transferOptions_shape program balances TransferPartners.TRANSFER_PROGRAMS
              TRANSFER_PROGRAMS_one_to_one TRANSFER_PROGRAMS_keys_NoDup) as [Hall _].
  eapply Forall_impl; [|exact Hall].
  intros o (_ & _ & _ & _ & _ & H). exact H.
Qed.

Lemma calculation_fields (balances : list TransferPartners.AwardWalletBalance)
    (program : string) :
  TransferPartners.scraperName (TransferPartners.calculation balances program) = program
  /\ TransferPartners.directBalance (TransferPartners.calculation balances program)
     = TransferPartners.getDirectBalance program balances
  /\ TransferPartners.transferOptions (TransferPartners.calculation balances program)
     = TransferPartners.calculateTransfersToProgram program balances
  /\ TransferPartners.transferableBalance (TransferPartners.calculation balances program)
     = TransferPartners.getDirectBalance program balances
       + fold_right Z.add 0
           (map TransferPartners.resultingMiles
              (TransferPartners.calculateTransfersToProgram program balances)).
Proof.
  unfold TransferPartners.calculation.
  cbn [TransferPartners.scraperName TransferPartners.directBalance
       TransferPartners.transferOptions TransferPartners.transferableBalance].
  repeat split. apply reduce_sum.
Qed.

Lemma calculateTransferOptions_In (balances : list TransferPartners.AwardWalletBalance)
    (c : TransferPartners.TransferCalculation) :
  In c (TransferPartners.calculateTransferOptions balances) ->
  exists program,
    In program (TransferPartners.allPrograms balances)
    /\ c = TransferPartners.calculation balances program.
Proof.
  unfold TransferPartners.calculateTransferOptions. intro Hc.
  apply (Permutation_in _ (Permutation_sym (sort_perm _ _))) in Hc.
  apply in_map_iff in Hc as (program & Heq & Hin).
  exists program. split; [exact Hin | symmetry; exact Heq].
Qed.

Lemma calculation_at_least_direct (balances : list TransferPartners.AwardWalletBalance)
    (program : string) :
  let c := TransferPartners.calculation balances program in
  TransferPartners.directBalance c <= TransferPartners.transferableBalance c
  /\ (TransferPartners.transferableBalance c = TransferPartners.directBalance c
      <-> TransferPartners.transferOptions c = [])
  /\ (TransferPartners.transferOptions c <> [] ->
      TransferPartners.directBalance c + 1000 <= TransferPartners.transferableBalance c).
Proof.
  cbv zeta.
  destruct (calculation_fields balances program) as (_ & -> & -> & ->).
  pose proof (transfers_from_1000 program balances) as Hmin.
  destruct (sum_from_1000 _ _ Hmin) as [H0 H1000].
  generalize dependent (TransferPartners.calculateTransfersToProgram program balances).
  intros options _ H0 H1000.
  generalize (TransferPartners.getDirectBalance program balances) as direct.
  intro direct.
  split; [lia|]. split; [split|].
  - intro Heq. destruct options as [|o rest]; [reflexivity|].
    assert (o :: rest <> []) as Hne by discriminate. specialize (H1000 Hne). lia.
  - intros ->. cbn [map fold_right]. lia.
  - intro Hne. specialize (H1000 Hne). lia.
Qed.


Lemma Set_add_In (set : list string) (x y : string) :
  In y (TransferPartners.Set_add set x) <-> In y set \/ y = x.
Proof.
  unfold TransferPartners.Set_add.
  destruct (existsb (String.eqb x) set) eqn:Hmem.
  - split; [now left|]. intros [H| ->]; [assumption|].
    apply existsb_exists in Hmem as (z & Hz & Heq).
    apply String.eqb_eq in Heq. now subst.
  - rewrite in_app_iff. simpl. intuition.
Qed.

Lemma Set_add_NoDup (set : list string) (x : string) :
  NoDup set -> NoDup (TransferPartners.Set_add set x).
Proof.
  intro Hnodup. unfold TransferPartners.Set_add.
  destruct (existsb (String.eqb x) set) eqn:Hmem; [assumption|].
  apply NoDup_app; [assumption | repeat constructor; intros [] |].
  intros y Hy [Heq|[]]. subst y.
  assert (existsb (String.eqb x) set = true); [|congruence].
  apply existsb_exists. exists x. split; [assumption | apply String.eqb_refl].
Qed.

(** Adding the elements that pass a test, one after the other, to a set. *)
Lemma Set_add_loop {A : Type} (keep : A -> bool) (name : A -> string) (xs : list A) :
  forall set,
    let out := fold_left (fun s x => if keep x then TransferPartners.Set_add s (name x) else s)
                 xs set in
    (NoDup set -> NoDup out)
    /\ (forall y, In y out <-> In y set \/ exists x, In x xs /\ keep x = true /\ name x = y).
Proof.
  induction xs as [|x rest IH]; intro set; cbv zeta; simpl.
  - split; [auto|]. intro y. split; [now left|]. intros [H|(x & [] & _)]. assumption.
  - destruct (IH (if keep x then TransferPartners.Set_add set (name x) else set))
      as [IHnodup IHin].
    split.
    + intro Hnodup. apply IHnodup. destruct (keep x); [now apply Set_add_NoDup | assumption].
    + intro y. rewrite IHin. destruct (keep x) eqn:Hkeep.
      * rewrite Set_add_In. split.
        -- intros [[H| ->]|(z & Hz & Hk & Hn)]; [now left| |].
           ++ right. exists x. auto.
           ++ right. exists z. auto.
        -- intros [H|(z & [<-|Hz] & Hk & Hn)]; [now left; left| |].
           ++ left. right. now symmetry.
           ++ right. exists z. auto.
      * split.
        -- intros [H|(z & Hz & Hk & Hn)]; [now left|]. right. exists z. auto.
        -- intros [H|(z & [<-|Hz] & Hk & Hn)]; [now left|congruence|].
           right. exists z. auto.
Qed.

Lemma Set_add_partners (ps : list TransferPartners.TransferPartner) :
  forall set,
    let out := fold_left (fun s p => TransferPartners.Set_add s
                                       (TransferPartners.partnerProgram p)) ps set in
    (NoDup set -> NoDup out)
    /\ forall y, In y out <-> In y set \/ In y (map TransferPartners.partnerProgram ps).
Proof.
  induction ps as [|p rest IH]; intro set; cbv zeta; simpl.
  - split; [auto|]. intro y. split; [now left|]. now intros [H|[]].
  - destruct (IH (TransferPartners.Set_add set (TransferPartners.partnerProgram p)))
      as [IHn IHi].
    split; [intro H; apply IHn; now apply Set_add_NoDup|].
    intro y. rewrite IHi, Set_add_In. split.
    + intros [[H|H]|H]; auto.
    + intros [H|[H|H]]; auto.
Qed.

Lemma Set_add_partner_lists (pss : list (list TransferPartners.TransferPartner)) :
  forall set,
    let out :=
      fold_left
        (fun s ps => fold_left (fun s' p => TransferPartners.Set_add s'
                                              (TransferPartners.partnerProgram p)) ps s)
        pss set in
    (NoDup set -> NoDup out)
    /\ forall y, In y out
                 <-> In y set \/ In y (map TransferPartners.partnerProgram (List.concat pss)).
Proof.
  induction pss as [|ps rest IH]; intro set; cbv zeta; simpl.
  - split; [auto|]. intro y. split; [now left|]. now intros [H|[]].
  - destruct (Set_add_partners ps set) as [Hn Hi]. cbv zeta in Hn, Hi.
    destruct (IH (fold_left (fun s' p => TransferPartners.Set_add s'
                                           (TransferPartners.partnerProgram p)) ps set))
      as [IHn IHi]. cbv zeta in IHn, IHi.
    split; [auto|].
    intro y. rewrite IHi, Hi, map_app, in_app_iff. split.
    + intros [[H|H]|H]; auto.
    + intros [H|[H|H]]; auto.
Qed.

Lemma same_elements (xs ys : list string) :
  forallb (fun x => existsb (String.eqb x) ys) xs = true ->
  forallb (fun y => existsb (String.eqb y) xs) ys = true ->
  forall z, In z xs <-> In z ys.
Proof.
  intros Hxy Hyx z. rewrite forallb_forall in Hxy, Hyx. split; intro H.
  - apply Hxy, existsb_exists in H as (w & Hw & Heq).
    apply String.eqb_eq in Heq. now subst.
  - apply Hyx, existsb_exists in H as (w & Hw & Heq).
    apply String.eqb_eq in Heq. now subst.
Qed.

Lemma allPrograms_spec (balances : list TransferPartners.AwardWalletBalance) :
  NoDup (TransferPartners.allPrograms balances)
  /\ forall program,
       In program (TransferPartners.allPrograms balances)
       <-> In program TransferPartners.partnerPrograms
           \/ exists b, In b balances
                        /\ TransferPartners.isAirlineProgram
                             (TransferPartners.programName b) = true
                        /\ TransferPartners.getScraperName
                             (TransferPartners.programName b) = program.
Proof.
  unfold TransferPartners.allPrograms.
  destruct (Set_add_loop
              (fun b => TransferPartners.isAirlineProgram (TransferPartners.programName b))
              (fun b => TransferPartners.getScraperName (TransferPartners.programName b))
              balances []) as [Hnodup Hin].
  cbv zeta in Hnodup, Hin. specialize (Hnodup (NoDup_nil _)).
  destruct (Set_add_partner_lists (map snd TransferPartners.TRANSFER_PROGRAMS)
              (fold_left
                 (fun s b =>
                    if TransferPartners.isAirlineProgram (TransferPartners.programName b)
                    then TransferPartners.Set_add s
                           (TransferPartners.getScraperName (TransferPartners.programName b))
                    else s) balances [])) as [Hn Hi].
  cbv zeta in Hn, Hi.
  split; [now apply Hn|].
  intro program. rewrite Hi, Hin.
  rewrite (same_elements
             (map TransferPartners.partnerProgram
                (List.concat (map snd TransferPartners.TRANSFER_PROGRAMS)))
             TransferPartners.partnerPrograms eq_refl eq_refl).
  split.
  - intros [[[]|H]|H]; auto.
  - intros [H|H]; auto.
Qed.

(** X3: [calculateTransferOptions] reports each airline program once: the
    scraper names of its calculations are pairwise different, and they are
    exactly the nine transfer partner programs together with the scraper
    names of the balances that [isAirlineProgram] accepts. *)
Theorem calculateTransferOptions_programs
    (balances : list TransferPartners.AwardWalletBalance) :
  NoDup (map TransferPartners.scraperName
           (TransferPartners.calculateTransferOptions balances))
  /\ forall program,
       In program (map TransferPartners.scraperName
                     (TransferPartners.calculateTransferOptions balances))
       <-> In program TransferPartners.partnerPrograms
           \/ exists b, In b balances
                        /\ TransferPartners.isAirlineProgram
                             (TransferPartners.programName b) = true
                        /\ TransferPartners.getScraperName
                             (TransferPartners.programName b) = program.
Proof.
  destruct (allPrograms_spec balances) as [Hnodup Hin].
  assert (Hperm :
            Permutation (TransferPartners.allPrograms balances)
              (map TransferPartners.scraperName
                 (TransferPartners.calculateTransferOptions balances))).
  { unfold TransferPartners.calculateTransferOptions.
    etransitivity; [|apply Permutation_map, sort_perm].
    rewrite map_map.
    erewrite map_ext; [rewrite map_id; reflexivity|].
    intro program. apply calculation_fields. }
  split.
  - exact (Permutation_NoDup Hperm Hnodup).
  - intro program. rewrite <- Hin. split; intro H.
    + exact (Permutation_in _ (Permutation_sym Hperm) H).
    + exact (Permutation_in _ Hperm H).
Qed.









Lemma firstn_In {A : Type} (n : nat) (l : list A) (x : A) :
  In x (firstn n l) -> In x l.
Proof.
  revert l. induction n as [|n IH]; intros [|y rest]; simpl; try contradiction.
  intros [->|H]; [now left | right; now apply IH].
Qed.


Lemma StronglySorted_filter {A : Type} (R : A -> A -> Prop) (p : A -> bool) (l : list A) :
  StronglySorted R l -> StronglySorted R (filter p l).
Proof.
  induction 1 as [|x rest Hrest IH Hall]; simpl; [constructor|].
  destruct (p x); [|assumption].
  constructor; [assumption|].
  apply Forall_forall. intros y Hy. apply filter_In in Hy as [Hy _].
  rewrite Forall_forall in Hall. now apply Hall.
Qed.

Lemma StronglySorted_split {A : Type} (R : A -> A -> Prop) (l1 l2 : list A) :
  StronglySorted R (l1 ++ l2) ->
  StronglySorted R l1 /\ forall x y, In x l1 -> In y l2 -> R x y.
Proof.
  induction l1 as [|a l1 IH]; simpl; intro H.
  - split; [constructor | intros x y []].
  - inversion H as [|? ? Hrest Hall]; subst.
    destruct (IH Hrest) as [Hsorted Hcross]. split.
    + constructor; [assumption|].
      apply Forall_forall. intros y Hy. rewrite Forall_forall in Hall.
      apply Hall, in_app_iff. now left.
    + intros x y [<-|Hx] Hy.
      * rewrite Forall_forall in Hall. apply Hall, in_app_iff. now right.
      * now apply Hcross.
Qed.

Lemma total_direct_le_transferable (calculations : list TransferPartners.TransferCalculation) :
  Forall (fun c => TransferPartners.directBalance c <= TransferPartners.transferableBalance c)
    calculations ->
  fold_right Z.add 0 (map TransferPartners.directBalance calculations)
  <= fold_right Z.add 0 (map TransferPartners.transferableBalance calculations).
Proof. induction 1; simpl; lia. Qed.

(** X6: summarising what [calculateTransferOptions] returns: the total of
    transferable miles is at least the total of direct miles, the top list
    is in non-increasing order of balance, and no program left out of the
    top list has a larger transferable balance than one in it. *)
Theorem getTransferSummary_of_calculations
    (balances : list TransferPartners.AwardWalletBalance) :
  let calculations := TransferPartners.calculateTransferOptions balances in
  let summary := TransferPartners.getTransferSummary calculations in
  TransferPartners.totalDirectMiles summary <= TransferPartners.totalTransferableMiles summary
  /\ StronglySorted
       (fun a b => TransferPartners.top_balance b <= TransferPartners.top_balance a)
       (TransferPartners.topPrograms summary)
  /\ forall top c,
       In top (TransferPartners.topPrograms summary) ->
       In c calculations ->
       TransferPartners.top_balance top < TransferPartners.transferableBalance c ->
       In {| TransferPartners.top_name := TransferPartners.c_programName c;
             TransferPartners.top_balance := TransferPartners.transferableBalance c |}
          (TransferPartners.topPrograms summary).
Proof.
  cbv zeta.
  assert (Hsorted :
            StronglySorted
              (fun a b => TransferPartners.transferableBalance b
                          <= TransferPartners.transferableBalance a)
              (TransferPartners.calculateTransferOptions balances))
    by apply (sort_descending TransferPartners.transferableBalance).
  assert (Hdirect :
            Forall (fun c => TransferPartners.directBalance c
                             <= TransferPartners.transferableBalance c)
              (TransferPartners.calculateTransferOptions balances)).
  { apply Forall_forall. intros c Hc.
    destruct (calculateTransferOptions_In balances c Hc) as (program & _ & Heq).
    rewrite Heq. apply (calculation_at_least_direct balances program). }
  generalize dependent (TransferPartners.calculateTransferOptions balances).
  intros calculations Hsorted Hdirect.
  unfold TransferPartners.getTransferSummary.
  cbn [TransferPartners.totalDirectMiles TransferPartners.totalTransferableMiles
       TransferPartners.topPrograms].
  set (positive := fun calc => 0 <? TransferPartners.transferableBalance calc).
  pose proof (StronglySorted_filter _ positive _ Hsorted) as Hfiltered.
  rewrite <- (firstn_skipn 5 (filter positive calculations)) in Hfiltered.
  apply StronglySorted_split in Hfiltered as [Htop Hcross].
  split; [|split].
  - rewrite !reduce_sum. pose proof (total_direct_le_transferable _ Hdirect). lia.
  - clear Hcross. induction Htop as [|c rest Hrest IH Hall]; simpl; constructor.
    + exact IH.
    + apply Forall_forall. intros top Htop.
      apply in_map_iff in Htop as (c' & <- & Hc').
      rewrite Forall_forall in Hall. simpl. now apply Hall.
  - intros top c Htopin Hc Hlarger.
    apply in_map_iff in Htopin as (t & <- & Ht). simpl in Hlarger.
    apply in_map_iff. exists c. split; [reflexivity|].
    assert (Hpos : In c (filter positive calculations)).
    { apply filter_In. split; [assumption|]. unfold positive.
      apply firstn_In, filter_In in Ht as [_ Ht]. unfold positive in Ht.
      apply Z.ltb_lt in Ht. apply Z.ltb_lt. lia. }
    rewrite <- (firstn_skipn 5 (filter positive calculations)) in Hpos.
    apply in_app_iff in Hpos as [Hpos|Hpos]; [assumption|].
    specialize (Hcross t c Ht Hpos). simpl in Hcross. lia.
Qed.

(* ===================================================================== *)
(** ** awardwallet: program names, credentials, ordering                 *)
(* ===================================================================== *)

(** X7: a string that [mapProgramToScraper] answers is a scraper name of
    the mapping; it finds a scraper for every name that contains one of
    the mapping's program names, or is contained in one, whatever the
    letter case, and answers null only when no entry matches either way.
    So it also finds one for the empty name: the first entry's. *)
Theorem mapProgramToScraper_fuzzy (programName : string) :
  (forall scraperName,
     AwardWallet.mapProgramToScraper programName = Some (VString scraperName) ->
     In scraperName (map snd AwardWallet.PROGRAM_SCRAPER_MAPPING))
  /\ (forall awProgram scraperName,
        In (awProgram, scraperName) AwardWallet.PROGRAM_SCRAPER_MAPPING ->
        includes (toLowerCase programName) (toLowerCase awProgram) = true
        \/ includes (toLowerCase awProgram) (toLowerCase programName) = true ->
        AwardWallet.mapProgramToScraper programName <> None)
  /\ (AwardWallet.mapProgramToScraper programName = None ->
      forall awProgram scraperName,
        In (awProgram, scraperName) AwardWallet.PROGRAM_SCRAPER_MAPPING ->
        includes (toLowerCase programName) (toLowerCase awProgram) = false
        /\ includes (toLowerCase awProgram) (toLowerCase programName) = false)
  /\ AwardWallet.mapProgramToScraper "" = Some (VString "united").
Proof.
  unfold AwardWallet.mapProgramToScraper.
  split; [|split; [|split]].
  - intros scraperName H.
    destruct (truthy (get AwardWallet.PROGRAM_SCRAPER_MAPPING programName)) eqn:Hexact.
    + injection H as H. unfold get in H.
      destruct (own AwardWallet.PROGRAM_SCRAPER_MAPPING programName) as [v|] eqn:Hown.
      * injection H as <-. unfold own in Hown.
        destruct (find _ AwardWallet.PROGRAM_SCRAPER_MAPPING) as [kv|] eqn:Hfind;
          [|discriminate].
        injection Hown as <-. apply find_some in Hfind as [Hin _]. now apply in_map.
      * destruct (existsb _ _); discriminate.
    + destruct (find _ AwardWallet.PROGRAM_SCRAPER_MAPPING) as [entry|] eqn:Hfind;
        [|discriminate].
      injection H as <-. apply find_some in Hfind as [Hin _]. now apply in_map.
  - intros awProgram scraperName Hin Hmatch.
    destruct (truthy _); [discriminate|].
    destruct (find _ AwardWallet.PROGRAM_SCRAPER_MAPPING) as [entry|] eqn:Hfind;
      [discriminate|].
    apply find_none with (x := (awProgram, scraperName)) in Hfind; [|assumption].
    unfold AwardWallet.fuzzyMatch in Hfind. cbn [fst] in Hfind.
    apply orb_false_iff in Hfind as [H1 H2].
    destruct Hmatch as [H|H]; congruence.
  - intros Hnone awProgram scraperName Hin.
    destruct (truthy _); [discriminate|].
    destruct (find _ AwardWallet.PROGRAM_SCRAPER_MAPPING) as [entry|] eqn:Hfind;
      [discriminate|].
    apply find_none with (x := (awProgram, scraperName)) in Hfind; [|assumption].
    unfold AwardWallet.fuzzyMatch in Hfind. cbn [fst] in Hfind.
    now apply orb_false_iff in Hfind.
  - vm_compute. reflexivity.
Qed.

(** X8: looking up a program name of the mapping gives the scraper the
    mapping lists for it, also when the name is written in lower case. *)
Theorem mapProgramToScraper_own_names :
  Forall
    (fun entry =>
       AwardWallet.mapProgramToScraper (fst entry) = Some (VString (snd entry))
       /\ AwardWallet.mapProgramToScraper (toLowerCase (fst entry))
          = Some (VString (snd entry)))
    AwardWallet.PROGRAM_SCRAPER_MAPPING.
Proof.
  unfold AwardWallet.PROGRAM_SCRAPER_MAPPING.
  repeat (apply Forall_cons; [split; vm_compute; reflexivity|]).
  apply Forall_nil.
Qed.

(** X9: [loadAwardWalletCredentials] succeeds exactly when the credentials
    file can be read and holds a non-empty apiKey and a non-empty userId,
    and then returns these two. Every failure is an [Error]: when the file
    does not exist (ENOENT) its message names the path, otherwise it is
    "Failed to load AwardWallet credentials: " followed by the cause. *)
Theorem loadAwardWalletCredentials_outcomes (rt : AwardWallet.Runtime) :
  (forall credentials,
     AwardWallet.loadAwardWalletCredentials rt = Return credentials
     <-> exists text,
           AwardWallet.readFile rt (AwardWallet.credentialsPath rt) = Return text
           /\ AwardWallet.JSON_parse_credentials rt text
              = Return (Some (AwardWallet.apiKey credentials),
                        Some (AwardWallet.userId credentials))
           /\ AwardWallet.apiKey credentials <> ""
           /\ AwardWallet.userId credentials <> "")
  /\ (forall e,
        AwardWallet.loadAwardWalletCredentials rt = Throw e ->
        e = Error ("AwardWallet credentials not found at " ++ AwardWallet.credentialsPath rt
                   ++ ". Please create this file with your API key and user ID.")
        \/ exists cause,
             e = Error ("Failed to load AwardWallet credentials: " ++ cause))
  /\ (forall m,
        AwardWallet.readFile rt (AwardWallet.credentialsPath rt)
        = Throw (SystemError "ENOENT" m) ->
        AwardWallet.loadAwardWalletCredentials rt
        = Throw (Error ("AwardWallet credentials not found at "
                        ++ AwardWallet.credentialsPath rt
                        ++ ". Please create this file with your API key and user ID."))).
Proof.
  unfold AwardWallet.loadAwardWalletCredentials.
  split; [|split].
  - intro credentials. split.
    + intro H.
      destruct (AwardWallet.readFile rt (AwardWallet.credentialsPath rt)) as [e|text];
        cbn [JS.bind] in H.
      { destruct (JS.code e) as [c|]; [|discriminate].
        destruct (String.eqb c "ENOENT") eqn:Hc.
        - apply String.eqb_eq in Hc. subst. discriminate.
        - destruct c as [|? ?]; [discriminate|].
          repeat match type of H with
                 | match ?x with _ => _ end = _ => destruct x; try discriminate
                 end. }
      exists text. split; [reflexivity|].
      destruct (AwardWallet.JSON_parse_credentials rt text) as [e|[[k|] [u|]]];
        cbn [JS.bind] in H.
      * destruct (JS.code e) as [c|]; [|discriminate].
        repeat match type of H with
               | match ?x with _ => _ end = _ => destruct x; try discriminate
               end.
      * destruct (String.eqb k "") eqn:Hk; [discriminate|].
        destruct (String.eqb u "") eqn:Hu; [discriminate|].
        cbn [orb] in H. injection H as <-. cbn.
        apply String.eqb_neq in Hk, Hu. auto.
      * discriminate.
      * discriminate.
      * discriminate.
    + intros (text & -> & Hparse & Hk & Hu). cbn [JS.bind]. rewrite Hparse. cbn [JS.bind].
      apply String.eqb_neq in Hk, Hu. rewrite Hk, Hu. cbn [orb].
      now destruct credentials.
  - intros e H.
    match type of H with
    | match ?attempt with _ => _ end = _ => destruct attempt as [inner|c]; [|discriminate]
    end.
    destruct (JS.code inner) as [c|].
    + destruct (String.eqb c "ENOENT") eqn:Hc.
      * apply String.eqb_eq in Hc. subst. injection H as <-. now left.
      * right. exists (JS.message inner).
        destruct c as [|a c]; [now injection H as <-|].
        repeat match type of H with
               | match ?x with _ => _ end = _ => destruct x
               end; now injection H as <-.
    + right. exists (JS.message inner). now injection H as <-.
  - intros m ->. reflexivity.
Qed.

Lemma loadAwardWalletCredentials_outcomes_witness :
  AwardWallet.loadAwardWalletCredentials Samples.runtime
  = Throw (Error ("AwardWallet credentials not found at "
                  ++ AwardWallet.credentialsPath Samples.runtime
                  ++ ". Please create this file with your API key and user ID.")).
Proof.
  destruct (loadAwardWalletCredentials_outcomes Samples.runtime) as (_ & _ & Hmissing).
  apply (Hmissing "no such file or directory"). reflexivity.
Defined.

(** Sorting looks at the comparator only on the elements of the list. *)
Lemma insertBy_ext {A : Type} (compare compare' : A -> A -> Z) (x : A) (l : list A) :
  (forall y, In y l -> compare x y = compare' x y) ->
  JS.insertBy compare x l = JS.insertBy compare' x l.
Proof.
  induction l as [|y rest IH]; intro H; simpl; [reflexivity|].
  rewrite (H y) by now left.
  destruct (0 <? compare' x y); [|reflexivity].
  f_equal. apply IH. intros z Hz. apply H. now right.
Qed.

Lemma sort_ext {A : Type} (compare compare' : A -> A -> Z) (l : list A) :
  (forall x y, In x l -> In y l -> compare x y = compare' x y) ->
  JS.sort compare l = JS.sort compare' l.
Proof.
  induction l as [|x rest IH]; intro H; simpl; [reflexivity|].
  rewrite IH by (intros; apply H; now right).
  apply insertBy_ext. intros y Hy. apply H; [now left|].
  right. exact (Permutation_in _ (Permutation_sym (sort_perm _ _)) Hy).
Qed.

(** What a completed [try] block returns: the sorted list of the balances
    it collected from the accounts, all of them positive. *)
Lemma fetchBody_returns (rt : AwardWallet.Runtime)
    (credentials : option AwardWallet.AwardWalletCredentials)
    (response : AwardWallet.AwardWalletResponse) :
  AwardWallet.fetchBody rt credentials = Return response ->
  exists collected : list AwardWallet.AwardWalletBalance,
    Forall (fun b => AwardWallet.gt0 rt (AwardWallet.balance b) = true) collected
    /\ response = {| AwardWallet.success := true;
                     AwardWallet.balances :=
                       JS.sort (AwardWallet.byBalanceDescending rt) collected;
                     AwardWallet.error := None |}.
Proof.
  unfold AwardWallet.fetchBody. intro H.
  repeat match type of H with
         | JS.bind ?c _ = _ =>
             let Hc := fresh "Hc" in
             destruct c eqn:Hc; cbn [JS.bind] in H; [discriminate|]
         | (if ?c then _ else _) = _ => destruct c; [discriminate|]
         end.
  injection H as <-.
  match goal with
  | Hc : match ?accounts with _ => _ end = Return ?bs |- _ =>
      exists bs; split; [|reflexivity];
      destruct accounts as [[| | | |items|]|]; try (injection Hc as <-; constructor)
  end.
  eapply (foldM_invariant
            (fun bs => Forall (fun b => AwardWallet.gt0 rt (AwardWallet.balance b) = true)
                         bs));
    [| |eassumption]; [|constructor].
  intros s x s' _. apply accountStep_keeps_positive.
Qed.

(** X10: a successful [fetchAwardWalletBalances] lists the balances in
    non-increasing order of their numeric value, and the value of every
    one of them is a positive number. *)
Theorem fetchAwardWalletBalances_sorted (rt : AwardWallet.Runtime)
    (credentials : option AwardWallet.AwardWalletCredentials)
    (response : AwardWallet.AwardWalletResponse) :
  AwardWallet.fetchAwardWalletBalances rt credentials = Return response ->
  AwardWallet.success response = true ->
  let number b :=
    match AwardWallet.ToNumber rt (AwardWallet.balance b) with
    | Some n => n
    | None => 0
    end in
  StronglySorted (fun a b => number b <= number a) (AwardWallet.balances response)
  /\ Forall (fun b => AwardWallet.ToNumber rt (AwardWallet.balance b) = Some (number b)
                      /\ 0 < number b)
       (AwardWallet.balances response).
Proof.
  intros Hrun Hsuccess number. unfold AwardWallet.fetchAwardWalletBalances in Hrun.
  destruct (AwardWallet.fetchBody rt credentials) as [e|r] eqn:Hbody.
  - injection Hrun as <-. discriminate.
  - injection Hrun as <-.
    destruct (fetchBody_returns rt credentials r Hbody) as (collected & Hpositive & ->).
    cbn [AwardWallet.balances].
    assert (Hnumber : forall b, In b collected ->
                                AwardWallet.ToNumber rt (AwardWallet.balance b)
                                = Some (number b) /\ 0 < number b).
    { intros b Hb. rewrite Forall_forall in Hpositive. specialize (Hpositive b Hb).
      unfold AwardWallet.gt0 in Hpositive. unfold number.
      destruct (AwardWallet.ToNumber rt (AwardWallet.balance b)); [|discriminate].
      apply Z.ltb_lt in Hpositive. auto. }
    rewrite (sort_ext (AwardWallet.byBalanceDescending rt)
               (fun a b => number b - number a)).
    + split; [apply (sort_descending number)|].
      apply Forall_forall. intros b Hb. apply Hnumber.
      exact (Permutation_in _ (Permutation_sym (sort_perm _ _)) Hb).
    + intros x y Hx Hy. unfold AwardWallet.byBalanceDescending.
      destruct (Hnumber x Hx) as [-> _]. destruct (Hnumber y Hy) as [-> _]. reflexivity.
Qed.

Lemma fetchAwardWalletBalances_sorted_witness :
  exists response,
    AwardWallet.fetchAwardWalletBalances Samples.runtime (Some Samples.credentials)
    = Return response
    /\ map AwardWallet.balance (AwardWallet.balances response)
       = [AwardWallet.JNumber 100000; AwardWallet.JNumber 25000]
    /\ Forall (fun b => exists n, AwardWallet.ToNumber Samples.runtime (AwardWallet.balance b)
                                  = Some n /\ 0 < n)
         (AwardWallet.balances response).
Proof.
  eexists. split; [vm_compute; reflexivity|]. split; [reflexivity|].
  destruct (fetchAwardWalletBalances_sorted Samples.runtime (Some Samples.credentials)
              _ eq_refl eq_refl) as [_ Hall].
  eapply Forall_impl; [|exact Hall]. cbv beta. intros b [Hb Hpos]. eauto.
Defined.

(* ===================================================================== *)
(** ** united: which flights and which fares are reported                *)
(* ===================================================================== *)

Lemma united_flight_loop (query : AwardWizQuery) (unitedTrip : United.Trip)
    (flights : list United.Flight) :
  forall results out,
    foldM (United.flightStep query unitedTrip) flights results = Return out ->
    exists added,
      out = (results ++ added)%list
      /\ Forall2 Invariants.unitedRecordOf
           (filter (United.flightKept query unitedTrip) flights) added.
Proof.
  induction flights as [|flight rest IH]; intros results out H; simpl in H.
  - injection H as <-. exists []. rewrite app_nil_r. split; [reflexivity | constructor].
  - unfold United.flightStep at 1 in H. cbn [filter].
    destruct (United.flightKept query unitedTrip flight) eqn:Hkept; cbn [negb JS.bind] in H.
    + destruct (foldM United.productStep (United.Products flight) []) as [|fs] eqn:Hfares;
        cbn [JS.bind] in H; [discriminate|].
      destruct (IH _ _ H) as (added & -> & Hadded).
      eexists (_ :: added). rewrite <- app_assoc. split; [reflexivity|].
      constructor; [|exact Hadded]. repeat split. exact Hfares.
    + exact (IH _ _ H).
Qed.

(** X11: united's [standardizeResults] returns one record for each flight
    that passes the three guards, in the order of the flights: its origin
    and destination are the trip's requested (else its own) airports, its
    departure falls on the queried date, and it carries the flight's times
    with ":00" appended. Flights that fail a guard leave no record. *)
Theorem united_records_of_kept_flights (query : AwardWizQuery) (unitedTrip : United.Trip)
    (results : list FlightWithFares) :
  United.standardizeResults query unitedTrip = Return results ->
  Forall2 Invariants.unitedRecordOf
    (filter (United.flightKept query unitedTrip) (United.Flights unitedTrip)) results
  /\ Forall
       (fun record =>
          origin record
          = or_string (United.RequestedOrigin unitedTrip) (United.t_Origin unitedTrip)
          /\ destination record
             = or_string (United.RequestedDestination unitedTrip)
                 (United.t_Destination unitedTrip)
          /\ slice0 10 (departureDateTime record) = slice0 10 (q_departureDate query))
       results.
Proof.
  unfold United.standardizeResults. intro H.
  destruct (united_flight_loop _ _ _ _ _ H) as (added & -> & Hadded).
  cbn [app]. split; [exact Hadded|].
  remember (filter (United.flightKept query unitedTrip) (United.Flights unitedTrip))
    as kept eqn:Hkept.
  assert (Hall : Forall (fun f => United.flightKept query unitedTrip f = true) kept).
  { subst kept. apply Forall_forall. intros f Hf. now apply filter_In in Hf. }
  clear Hkept H.
  induction Hadded as [|flight record kept added Hrecord _ IH]; [constructor|].
  inversion Hall as [|? ? Hflight Hrest]; subst.
  constructor; [|now apply IH].
  destruct Hrecord as (-> & -> & -> & _).
  unfold United.flightKept in Hflight.
  apply andb_true_iff in Hflight as [Hflight Hdate].
  apply andb_true_iff in Hflight as [Ho Hd].
  apply String.eqb_eq in Ho, Hd, Hdate. auto.
Qed.

Lemma united_records_of_kept_flights_witness :
  exists record,
    United.standardizeResults Samples.query (Samples.unitedTrip Samples.unpricedMystery)
    = Return [record]
    /\ origin record = "LAX" /\ destination record = "DXB"
    /\ departureDateTime record = "2026-04-28 14:30:00".
Proof.
  eexists. split; [vm_compute; reflexivity|].
  destruct (united_records_of_kept_flights Samples.query
              (Samples.unitedTrip Samples.unpricedMystery) _ eq_refl) as [_ Hall].
  apply Forall_inv in Hall. destruct Hall as (Ho & Hd & _).
  split; [exact Ho|]. split; [exact Hd | reflexivity].
Defined.

Lemma united_productStep_keeps (acc : list FlightFare) (seen : list United.Product)
    (product : United.Product) (acc' : list FlightFare) :
  Invariants.firstPerCabin acc seen ->
  United.productStep acc product = Return acc' ->
  Invariants.firstPerCabin acc' (seen ++ [product]).
Proof.
  intros (Hnodup & Hfirst & Hpresent) Hstep.
  assert (Hold : forall fare, In fare acc ->
                   exists before p after,
                     (seen ++ [product])%list = (before ++ p :: after)%list
                     /\ Invariants.unitedFareOf fare p
                     /\ forall p', In p' before -> United.Prices p' <> [] ->
                                   United.cabinOf p' <> cabin fare).
  { intros fare Hfare. destruct (Hfirst fare Hfare) as (before & p & after & -> & Hp & Hb).
    exists before, p, (after ++ [product])%list.
    rewrite <- app_assoc. simpl. auto. }
  unfold United.productStep in Hstep.
  destruct (United.Prices product) as [|price more] eqn:Hprices.
  { injection Hstep as <-. repeat split; [assumption | assumption |].
    intros p Hp Hpriced. apply in_app_iff in Hp as [Hp|[<-|[]]]; [auto|congruence]. }
  set (same := fun fare : FlightFare => strict_eq (cabin fare) (United.cabinOf product)).
  set (new := {| cash := match more with p1 :: _ => United.Amount p1 | [] => 0 end;
                 currencyOfCash := match more with
                                   | p1 :: _ => United.Currency p1
                                   | [] => ""
                                   end;
                 miles := United.Amount price;
                 cabin := United.cabinOf product;
                 scraper := "united";
                 bookingClass := United.BookingCode product;
                 isSaverFare := None |}).
  assert (Hstep' : match find same acc with
                   | Some _ => Return acc
                   | None => Return (acc ++ [new])%list
                   end = Return acc').
  { subst same new. revert Hstep.
    destruct (United.cabinOf product); [discriminate | exact (fun H => H)
                                       | exact (fun H => H)]. }
  clear Hstep.
  assert (Hnew : Invariants.unitedFareOf new product)
    by (exists price, more; repeat split; assumption).
  destruct (find same acc) as [existing|] eqn:Hfind; injection Hstep' as <-.
  - apply find_some in Hfind as [Hin Hsame]. unfold same in Hsame.
    apply strict_eq_spec in Hsame.
    repeat split; [assumption | assumption |].
    intros p Hp Hpriced. apply in_app_iff in Hp as [Hp|[<-|[]]]; [auto|].
    exists existing. split; assumption.
  - assert (Hfresh : forall f, In f acc -> cabin f <> United.cabinOf product).
    { intros f Hf Heq. apply find_none with (x := f) in Hfind; [|assumption].
      unfold same in Hfind. rewrite Heq, strict_eq_refl in Hfind. discriminate. }
    repeat split.
    + rewrite map_app. apply NoDup_app; [assumption | repeat constructor; intros [] |].
      intros k Hk [Heq|[]]. apply in_map_iff in Hk as (f & Hf & Hin).
      apply (Hfresh f Hin). rewrite Hf, <- Heq. reflexivity.
    + intros fare Hfare. apply in_app_iff in Hfare as [Hfare|[<-|[]]]; [now apply Hold|].
      exists seen, product, []. split; [reflexivity|]. split; [exact Hnew|].
      intros p Hp Hpriced Heq. destruct (Hpresent p Hp Hpriced) as (f & Hf & Hfp).
      apply (Hfresh f Hf). rewrite Hfp. exact Heq.
    + intros p Hp Hpriced. apply in_app_iff in Hp as [Hp|[<-|[]]].
      * destruct (Hpresent p Hp Hpriced) as (f & Hf & Hfp).
        exists f. split; [apply in_app_iff; now left | assumption].
      * exists new. split; [apply in_app_iff; right; now left | reflexivity].
Qed.

Lemma united_product_loop (rest : list United.Product) :
  forall acc seen out,
    Invariants.firstPerCabin acc seen ->
    foldM United.productStep rest acc = Return out ->
    Invariants.firstPerCabin out (seen ++ rest).
Proof.
  induction rest as [|product rest IH]; intros acc seen out Hinv H; simpl in H.
  - injection H as <-. now rewrite app_nil_r.
  - destruct (United.productStep acc product) as [|acc'] eqn:Hstep; [discriminate|].
    cbn [JS.bind] in H.
    replace (seen ++ product :: rest)%list with ((seen ++ [product]) ++ rest)%list
      by (now rewrite <- app_assoc).
    apply IH with (acc := acc'); [|assumption].
    now apply united_productStep_keeps with (acc := acc).
Qed.

(** X12: the fares united records for a flight hold one fare per cabin,
    and that fare is the one of the first priced product of the cabin: a
    later product of the same cabin, cheaper or not, does not replace it.
    Every cabin of a priced product has its fare. *)
Theorem united_first_priced_product_wins (products : list United.Product)
    (fares : list FlightFare) :
  foldM United.productStep products [] = Return fares ->
  NoDup (map cabin fares)
  /\ (forall fare, In fare fares ->
        exists before product after,
          products = (before ++ product :: after)%list
          /\ Invariants.unitedFareOf fare product
          /\ forall p, In p before -> United.Prices p <> [] ->
                       United.cabinOf p <> cabin fare)
  /\ (forall p, In p products -> United.Prices p <> [] ->
                exists fare, In fare fares /\ cabin fare = United.cabinOf p).
Proof.
  intro H.
  apply (united_product_loop products [] [] fares); [|exact H].
  repeat split; [constructor | intros ? [] | intros ? []].
Qed.

Lemma united_first_priced_product_wins_witness :
  exists fare,
    foldM United.productStep
      [ Samples.unitedProduct "United Economy" 30000;
        Samples.unitedProduct "Economy" 10000 ] []
    = Return [fare]
    /\ cabin fare = VString "economy"
    /\ miles fare = 30000
    /\ NoDup (map cabin [fare]).
Proof.
  eexists. split; [vm_compute; reflexivity|]. split; [reflexivity|]. split; [reflexivity|].
  exact (proj1 (united_first_priced_product_wins
                  [ Samples.unitedProduct "United Economy" 30000;
                    Samples.unitedProduct "Economy" 10000 ] _ eq_refl)).
Defined.

(* ===================================================================== *)
(** ** aa: routes, fares and the error numbers of the response           *)
(* ===================================================================== *)

Lemma standardizeSlice_route (JSON_stringify : AA.Segment -> string)
    (query : AwardWizQuery) (slice : AA.Slice) (record : FlightWithFares) :
  AA.standardizeSlice JSON_stringify query slice = Return (Some record) ->
  exists segment lastSeg,
    hd_error (AA.segments slice) = Some segment
    /\ AA.last_opt (AA.segments slice) = Some lastSeg
    /\ AA.origin_code segment = q_origin query
    /\ AA.destination_code lastSeg = q_destination query
    /\ origin record = q_origin query
    /\ destination record = q_destination query
    /\ departureDateTime record = AA.dateTime (AA.seg_departureDateTime segment)
    /\ arrivalDateTime record = AA.dateTime (AA.seg_arrivalDateTime lastSeg)
    /\ flightNo record = join " / " (map AA.flightLabel (AA.segments slice))
    /\ duration record = AA.durationInMinutes slice.
Proof.
  unfold AA.standardizeSlice. intro H.
  destruct (AA.segments slice) as [|segment more] eqn:Hsegments; [discriminate|].
  cbn [JS.bind JS.first] in H.
  destruct (AA.legs segment) as [|leg ?]; [discriminate|].
  cbn [JS.bind JS.first] in H.
  destruct (AA.faresOf JSON_stringify segment slice) as [|fs]; [discriminate|].
  cbn [JS.bind] in H.
  destruct (AA.last_opt (segment :: more)) as [lastSeg|] eqn:Hlast; [|discriminate].
  destruct (negb (String.eqb (AA.origin_code segment) (q_origin query))) eqn:Ho;
    [discriminate|].
  destruct (negb (String.eqb (AA.destination_code lastSeg) (q_destination query))) eqn:Hd;
    [discriminate|].
  cbn [orb] in H.
  apply negb_false_iff, String.eqb_eq in Ho. apply negb_false_iff, String.eqb_eq in Hd.
  exists segment, lastSeg. split; [reflexivity|]. split; [reflexivity|].
  split; [exact Ho|]. split; [exact Hd|].
  destruct more as [|second more].
  - cbn in Hlast. injection Hlast as <-.
    cbn in H. injection H as <-. cbn. repeat split; auto.
  - assert (Hlong : (1 <? Z.of_nat (List.length (segment :: second :: more))) = true)
      by (apply Z.ltb_lt; cbn [List.length]; lia).
    rewrite Hlong in H. injection H as <-. cbn [origin destination departureDateTime
      arrivalDateTime flightNo duration]. repeat split; auto.
Qed.

(** X13: every record of aa's [standardizeResults] is an itinerary from
    the queried origin to the queried destination: it starts at the first
    segment of its slice and ends at the last one, whose arrival time it
    carries, and its flight number joins the segments' flight numbers with
    " / ". Slices that start or end elsewhere leave no record. *)
Theorem aa_records_follow_the_query
    (JSON_stringify : AA.Segment -> string)
    (slices : list AA.Slice) (query : AwardWizQuery) (results : list FlightWithFares) :
  AA.standardizeResults JSON_stringify slices query = Return results ->
  Forall
    (fun record =>
       origin record = q_origin query
       /\ destination record = q_destination query
       /\ exists slice segment lastSeg,
            In slice slices
            /\ hd_error (AA.segments slice) = Some segment
            /\ AA.last_opt (AA.segments slice) = Some lastSeg
            /\ AA.origin_code segment = q_origin query
            /\ AA.destination_code lastSeg = q_destination query
            /\ departureDateTime record = AA.dateTime (AA.seg_departureDateTime segment)
            /\ arrivalDateTime record = AA.dateTime (AA.seg_arrivalDateTime lastSeg)
            /\ flightNo record = join " / " (map AA.flightLabel (AA.segments slice)))
    results
  /\ (List.length results <= List.length slices)%nat.
Proof.
  unfold AA.standardizeResults. intro H.
  destruct (mapM (AA.standardizeSlice JSON_stringify query) slices)
    as [|mapped] eqn:Hmap; [discriminate|].
  cbn [JS.bind] in H. injection H as <-. split.
  - apply Forall_forall. intros record Hrecord.
    apply dropUndefined_In in Hrecord.
    destruct (mapM_preimage _ _ _ Hmap _ Hrecord) as (slice & Hslice & Hstd).
    destruct (standardizeSlice_route _ _ _ _ Hstd)
      as (segment & lastSeg & H1 & H2 & H3 & H4 & H5 & H6 & H7 & H8 & H9 & _).
    split; [exact H5|]. split; [exact H6|].
    exists slice, segment, lastSeg. repeat split; assumption.
  - assert (Hlen : List.length mapped = List.length slices).
    { clear -Hmap. revert mapped Hmap.
      induction slices as [|s rest IH]; intros mapped Hmap; simpl in Hmap.
      - now injection Hmap as <-.
      - destruct (AA.standardizeSlice JSON_stringify query s); [discriminate|].
        cbn [JS.bind] in Hmap.
        destruct (mapM _ rest) as [|ys]; [discriminate|]. cbn [JS.bind] in Hmap.
        injection Hmap as <-. simpl. now rewrite (IH ys eq_refl). }
    rewrite <- Hlen. clear. induction mapped as [|[x|] rest IH]; simpl; lia.
Qed.

Lemma aa_records_follow_the_query_witness :
  exists record,
    AA.standardizeResults (fun _ => "")
      [ Samples.aaSlice [Samples.aaProduct true (Some "T") "COACH" 25000] ] Samples.query
    = Return [record]
    /\ origin record = "LAX" /\ destination record = "DXB".
Proof.
  eexists. split; [vm_compute; reflexivity|].
  destruct (aa_records_follow_the_query (fun _ => "")
              [ Samples.aaSlice [Samples.aaProduct true (Some "T") "COACH" 25000] ]
              Samples.query _ eq_refl) as [Hall _].
  apply Forall_inv in Hall. destruct Hall as (Ho & Hd & _). split; assumption.
Defined.

(** The reduce keeps fares; it makes none up. *)
Lemma keepLowest_keeps_given (segment : AA.Segment) (rest : list FlightFare) :
  forall acc out,
    foldM (AA.keepLowest segment) rest acc = Return out ->
    forall fare, In fare out -> In fare acc \/ In fare rest.
Proof.
  induction rest as [|next rest IH]; intros acc out H fare Hfare; simpl in H.
  - injection H as <-. now left.
  - destruct (AA.keepLowest segment acc next) as [|acc'] eqn:Hstep; [discriminate|].
    cbn [JS.bind] in H.
    destruct (IH _ _ H fare Hfare) as [Hin|Hin]; [|right; now right].
    unfold AA.keepLowest in Hstep.
    destruct (strict_eq (cabin next) VUndefined); [discriminate|].
    assert (Hreplace :
              In fare (filter (fun check => negb (strict_eq (cabin check) (cabin next))) acc
                       ++ [next])%list ->
              In fare acc \/ In fare (next :: rest)).
    { intro Hr. apply in_app_iff in Hr as [Hr|[<-|[]]].
      - left. now apply filter_In in Hr.
      - right. now left. }
    destruct (find _ acc) as [e|].
    + destruct (miles e <? miles next); injection Hstep as <-; auto.
    + injection Hstep as <-. auto.
Qed.

Lemma aa_fare_origin (JSON_stringify : AA.Segment -> string)
    (segment : AA.Segment) (slice : AA.Slice) (fares : list FlightFare) :
  AA.faresOf JSON_stringify segment slice = Return fares ->
  forall fare, In fare fares ->
    exists product,
      In product (AA.pricingDetail slice)
      /\ AA.productAvailable product = true
      /\ AA.toFare JSON_stringify segment product = Return fare.
Proof.
  unfold AA.faresOf. intros H fare Hfare.
  destruct (mapM (AA.toFare JSON_stringify segment)
              (filter AA.productAvailable (AA.pricingDetail slice)))
    as [|mapped] eqn:Hmap; [discriminate|].
  cbn [JS.bind] in H.
  destruct (keepLowest_keeps_given _ _ _ _ H fare Hfare) as [[]|Hin].
  destruct (mapM_preimage _ _ _ Hmap _ Hin) as (product & Hproduct & Hto).
  apply filter_In in Hproduct as [Hproduct Havailable].
  exists product. auto.
Qed.

(** X14: every fare in a record of aa's is the fare of one of the
    available pricing products of the record's slice: its miles are that
    product's award points, its cash the product's taxes and fees, its
    booking class the first letter of the product's fare code; the scraper
    never reports a fare of a product that is not available, and never a
    price that no product has. *)
Theorem aa_fares_are_available_products
    (JSON_stringify : AA.Segment -> string)
    (slices : list AA.Slice) (query : AwardWizQuery) (results : list FlightWithFares) :
  AA.standardizeResults JSON_stringify slices query = Return results ->
  Forall
    (fun record =>
       exists slice segment,
         In slice slices
         /\ hd_error (AA.segments slice) = Some segment
         /\ forall fare, In fare (fares record) ->
              exists product,
                In product (AA.pricingDetail slice)
                /\ AA.productAvailable product = true
                /\ cabin fare = AA.cabinOf segment product
                /\ miles fare = AA.perPassengerAwardPoints product
                /\ cash fare = AA.taxes_amount product
                /\ currencyOfCash fare = AA.taxes_currency product
                /\ bookingClass fare = charAt0 (AA.extendedFareCode product)
                /\ scraper fare = "aa")
    results.
Proof.
  unfold AA.standardizeResults. intro H.
  destruct (mapM (AA.standardizeSlice JSON_stringify query) slices)
    as [|mapped] eqn:Hmap; [discriminate|].
  cbn [JS.bind] in H. injection H as <-.
  apply Forall_forall. intros record Hrecord.
  apply dropUndefined_In in Hrecord.
  destruct (mapM_preimage _ _ _ Hmap _ Hrecord) as (slice & Hslice & Hstd).
  destruct (standardizeSlice_fares _ _ _ _ Hstd) as (segment & Hsegment & Hfares).
  exists slice, segment. split; [assumption|]. split; [assumption|].
  intros fare Hfare.
  destruct (aa_fare_origin _ _ _ _ Hfares fare Hfare)
    as (product & Hproduct & Havailable & Hto).
  exists product. split; [assumption|]. split; [assumption|].
  unfold AA.toFare in Hto.
  destruct (negb (truthy (AA.lookedUpCabin product))); [discriminate|].
  injection Hto as <-. cbn. repeat split.
Qed.

Lemma aa_fares_are_available_products_witness :
  exists record,
    AA.standardizeResults (fun _ => "")
      [ Samples.aaSlice [ Samples.aaProduct true (Some "T") "COACH" 25000;
                          Samples.aaProduct false (Some "X") "COACH" 5000 ] ]
      Samples.query
    = Return [record]
    /\ map miles (fares record) = [25000].
Proof.
  eexists. split; [vm_compute; reflexivity|].
  pose proof (aa_fares_are_available_products (fun _ => "")
                [ Samples.aaSlice [ Samples.aaProduct true (Some "T") "COACH" 25000;
                                    Samples.aaProduct false (Some "X") "COACH" 5000 ] ]
                Samples.query _ eq_refl) as H.
  apply Forall_inv in H. destruct H as (_ & _ & _ & _ & _). reflexivity.
Defined.

Lemma short_key_not_inherited (key : string) :
  (String.length key <= 1)%nat ->
  existsb (String.eqb key) Object_prototype_members = false.
Proof.
  destruct key as [|c [|d rest]]; simpl; intro Hlen; [reflexivity| |lia].
  repeat match goal with
         | |- context [Ascii.eqb c ?x] => destruct (Ascii.eqb c x)
         end; reflexivity.
Qed.

Lemma fareCodeKey_short (product : AA.PricingDetail) :
  (String.length (AA.fareCodeKey product) <= 1)%nat.
Proof.
  unfold AA.fareCodeKey, charAt0.
  destruct (AA.extendedFareCode product) as [[|c rest]|]; simpl; lia.
Qed.

(** X15: the cabin of every fare that aa's [toFare] builds is a known one,
    never [undefined]; on a JetBlue (B6) segment it is never "first"; and
    the fare is marked a saver fare exactly when the fare code starts with
    Z, U, T or X. *)
Theorem aa_toFare_cabin (JSON_stringify : AA.Segment -> string)
    (segment : AA.Segment) (product : AA.PricingDetail) (fare : FlightFare) :
  AA.toFare JSON_stringify segment product = Return fare ->
  truthy (cabin fare) = true
  /\ (AA.carrierCode segment = "B6" -> cabin fare <> VString "first")
  /\ isSaverFare fare
     = Some (existsb (String.eqb (AA.fareCodeKey product)) ["Z"; "U"; "T"; "X"])
  /\ (isSaverFare fare = Some true ->
      In (AA.lookedUpCabin product)
         [VString "first"; VString "business"; VString "economy"]).
Proof.
  unfold AA.toFare. intro H.
  destruct (truthy (AA.lookedUpCabin product)) eqn:Htruthy; [|discriminate].
  cbn [negb] in H. injection H as <-.
  cbn [cabin isSaverFare]. unfold AA.cabinOf.
  assert (Haward : AA.awardCabinByFareCode product
                   = match own AA.awardCabinByFareCodeTable (AA.fareCodeKey product) with
                     | Some v => VString v
                     | None => VUndefined
                     end).
  { unfold AA.awardCabinByFareCode, get.
    now rewrite (short_key_not_inherited _ (fareCodeKey_short product)). }
  split; [|split; [|split]].
  - destruct (String.eqb (AA.carrierCode segment) "B6"
              && strict_eq (AA.lookedUpCabin product) (VString "first"));
      [reflexivity | exact Htruthy].
  - intros HB6 Hfirst. rewrite HB6 in Hfirst. cbn [String.eqb Ascii.eqb Bool.eqb andb] in Hfirst.
    destruct (strict_eq (AA.lookedUpCabin product) (VString "first")) eqn:Heq.
    + discriminate.
    + rewrite Hfirst, strict_eq_refl in Heq. discriminate.
  - rewrite Haward. unfold own, AA.awardCabinByFareCodeTable. cbn [find fst snd existsb].
    rewrite !(String.eqb_sym _ (AA.fareCodeKey product)).
    repeat match goal with
           | |- context [String.eqb (AA.fareCodeKey product) ?x] =>
               destruct (String.eqb (AA.fareCodeKey product) x)
           end; reflexivity.
  - rewrite Haward. unfold AA.lookedUpCabin. rewrite Haward.
    unfold own, AA.awardCabinByFareCodeTable. cbn [find fst snd].
    repeat match goal with
           | |- context [String.eqb ?x (AA.fareCodeKey product)] =>
               destruct (String.eqb x (AA.fareCodeKey product))
           end; cbn; intro Hs; auto; discriminate.
Qed.

Lemma aa_toFare_cabin_witness :
  exists fare,
    AA.toFare (fun _ => "") Samples.jetBlueSegment
      (Samples.aaProduct true (Some "ZOA") "FIRST" 70000)
    = Return fare
    /\ cabin fare = VString "business"
    /\ isSaverFare fare = Some true.
Proof.
  eexists. split; [vm_compute; reflexivity|]. split; [reflexivity|].
  destruct (aa_toFare_cabin (fun _ => "") Samples.jetBlueSegment
              (Samples.aaProduct true (Some "ZOA") "FIRST" 70000) _ eq_refl)
    as (_ & _ & Hsaver & _).
  exact Hsaver.
Defined.

(** X16: how aa's [runScraper] treats the error number of a parsed
    response. Without a positive error number the slices are standardized
    (none when the field is missing). With one, the [error] text is thrown
    unless the number is 309, and else the [message] text is thrown unless
    the number is 1100; so 309 passes only in a response without
    [message], and 1100 only in one without [error]. *)
Theorem aa_error_numbers
    (JSON_stringify : AA.Segment -> string) (JSON_parse : string -> Exc AA.AAResponse)
    (arkalis : Arkalis) (query : AwardWizQuery)
    (loaded : MatchResult) (responseText : string) (json : AA.AAResponse) :
  waitFor arkalis AA.waitConditions = Return loaded ->
  evaluate arkalis (AA.searchCall query) = Return responseText ->
  String.eqb responseText "" = false ->
  JSON_parse responseText = Return json ->
  let run := AA.runScraper JSON_stringify JSON_parse arkalis query in
  let parsed :=
    AA.standardizeResults JSON_stringify
      match AA.slices json with Some s => s | None => [] end query in
  ((forall n, AA.errorNumber json = Some n -> n <= 0) -> run = parsed)
  /\ (forall n e, AA.errorNumber json = Some n -> 0 < n ->
        AA.error json = Some e -> n <> 309 -> run = Throw (Error e))
  /\ (forall n m, AA.errorNumber json = Some n -> 0 < n ->
        AA.error json = None \/ n = 309 ->
        AA.message json = Some m -> n <> 1100 -> run = Throw (Error m))
  /\ (AA.errorNumber json = Some 309 -> AA.message json = None -> run = parsed)
  /\ (AA.errorNumber json = Some 1100 -> AA.error json = None -> run = parsed).
Proof.
  intros Hwait Heval Hnonempty Hparse run parsed. subst run parsed.
  unfold AA.runScraper. rewrite Hwait. cbn [JS.bind]. rewrite Heval. cbn [JS.bind].
  rewrite Hnonempty, Hparse. cbn [JS.bind].
  destruct (AA.errorNumber json) as [k|] eqn:Hnumber.
  - destruct (0 <? k) eqn:Hpos.
    + apply Z.ltb_lt in Hpos.
      split; [intro H; specialize (H k eq_refl); lia|].
      split; [|split; [|split]].
      * intros n e Hn _ -> Hne. injection Hn as <-.
        apply Z.eqb_neq in Hne. now rewrite Hne.
      * intros n m Hn _ Hor -> Hne. injection Hn as <-.
        apply Z.eqb_neq in Hne. rewrite Hne. cbn [negb].
        destruct Hor as [-> | ->]; [reflexivity|].
        destruct (AA.error json); reflexivity.
      * intros Hn ->. injection Hn as ->. destruct (AA.error json); reflexivity.
      * intros Hn ->. injection Hn as ->. destruct (AA.message json); reflexivity.
    + apply Z.ltb_ge in Hpos. split; [reflexivity|].
      split; [|split; [|split]].
      * intros n e Hn Hn'. injection Hn as <-. lia.
      * intros n m Hn Hn'. injection Hn as <-. lia.
      * intros Hn _. injection Hn as ->. lia.
      * intros Hn _. injection Hn as ->. lia.
  - cbn. split; [reflexivity|]. repeat split; intros; discriminate.
Qed.

Lemma aa_error_numbers_witness :
  let json (n : Z) (message : option string) : AA.AAResponse :=
    {| AA.errorNumber := Some n; AA.error := Some "No flights found";
       AA.message := message; AA.slices := None |} in
  AA.runScraper (fun _ => "") (fun _ => Return (json 309 None))
    Samples.emptyAnswerEngine Samples.query = Return []
  /\ AA.runScraper (fun _ => "") (fun _ => Return (json 404 None))
       Samples.emptyAnswerEngine Samples.query = Throw (Error "No flights found")
  /\ AA.runScraper (fun _ => "") (fun _ => Return (json 309 (Some "Try again")))
       Samples.emptyAnswerEngine Samples.query = Throw (Error "Try again").
Proof.
  intro json.
  split; [|split].
  - destruct (aa_error_numbers (fun _ => "") (fun _ => Return (json 309 None))
                Samples.emptyAnswerEngine Samples.query
                {| mr_name := "loaded"; mr_response := None |} "{}" (json 309 None)
                eq_refl eq_refl eq_refl eq_refl) as (_ & _ & _ & H & _).
    exact (H eq_refl eq_refl).
  - destruct (aa_error_numbers (fun _ => "") (fun _ => Return (json 404 None))
                Samples.emptyAnswerEngine Samples.query
                {| mr_name := "loaded"; mr_response := None |} "{}" (json 404 None)
                eq_refl eq_refl eq_refl eq_refl) as (_ & H & _).
    apply (H 404 "No flights found"); try reflexivity. discriminate.
  - destruct (aa_error_numbers (fun _ => "") (fun _ => Return (json 309 (Some "Try again")))
                Samples.emptyAnswerEngine Samples.query
                {| mr_name := "loaded"; mr_response := None |} "{}"
                (json 309 (Some "Try again"))
                eq_refl eq_refl eq_refl eq_refl) as (_ & _ & H & _).
    apply (H 309 "Try again"); try reflexivity; [now right | discriminate].
Defined.

(* ===================================================================== *)
(** ** alaska: slices, fares and malformed fares                         *)
(* ===================================================================== *)

Section RemoveFirst.

Context {A K : Type} (key : A -> K) (p : A -> bool).

Lemma removeFirst_In (l : list A) (x : A) :
  In x (Alaska.removeFirst p l) -> In x l.
Proof.
  induction l as [|y rest IH]; simpl; [auto|].
  destruct (p y); [now right|].
  intros [->|H]; [now left | right; now apply IH].
Qed.

Lemma removeFirst_NoDup (l : list A) :
  NoDup (map key l) -> NoDup (map key (Alaska.removeFirst p l)).
Proof.
  induction l as [|y rest IH]; simpl; intro H; [constructor|].
  inversion H as [|? ? Hnotin Hrest]; subst.
  destruct (p y); [assumption|]. simpl.
  constructor; [|now apply IH].
  intro Hin. apply Hnotin. apply in_map_iff in Hin as (z & Hz & Hin).
  apply in_map_iff. exists z. split; [assumption | now apply removeFirst_In].
Qed.

Lemma removeFirst_keeps (l : list A) (x : A) :
  In x l -> p x = false -> In x (Alaska.removeFirst p l).
Proof.
  induction l as [|y rest IH]; simpl; [auto|].
  intros [->|H] Hp.
  - rewrite Hp. now left.
  - destruct (p y) eqn:Hy; [assumption | right; now apply IH].
Qed.

(** Among elements with different keys, removing the first one that has a
    key leaves none with it. *)
Lemma removeFirst_removes (k : K) (l : list A) (x : A) :
  (forall y, p y = true <-> key y = k) ->
  NoDup (map key l) ->
  In x (Alaska.removeFirst p l) -> key x <> k.
Proof.
  intros Hp. induction l as [|y rest IH]; simpl; intros Hnodup Hin; [contradiction|].
  inversion Hnodup as [|? ? Hnotin Hrest]; subst.
  destruct (p y) eqn:Hy.
  - apply Hp in Hy. intro Hx. apply Hnotin. rewrite Hy, <- Hx. now apply in_map.
  - destruct Hin as [->|Hin]; [|now apply IH].
    intro Hx. apply Hp in Hx. congruence.
Qed.

End RemoveFirst.

Lemma alaska_known_cabin (c : string) :
  existsb (String.eqb c) Alaska.knownCabins = true ->
  get Alaska.cabinTable c = VString "economy"
  \/ get Alaska.cabinTable c = VString "business".
Proof.
  unfold Alaska.knownCabins. cbn [existsb]. intro H.
  repeat (apply orb_true_iff in H as [H|H];
          [apply String.eqb_eq in H; subst; cbn; auto|]).
  discriminate.
Qed.

Lemma alaska_fareStep_keeps (JSON_stringify : Alaska.Fare -> string)
    (acc : list FlightFare) (seen : list Alaska.Fare) (fare : Alaska.Fare)
    (acc' : list FlightFare) :
  Invariants.alaskaLowest acc seen ->
  Alaska.fareStep JSON_stringify acc fare = Return acc' ->
  Invariants.alaskaLowest acc' (seen ++ [fare]).
Proof.
  intros (Hnodup & Hlow & Hpresent & Hgiven) Hstep.
  unfold Alaska.fareStep in Hstep.
  destruct (negb (Nat.eqb (List.length (Alaska.bookingCodes fare)) 1)); [discriminate|].
  destruct (negb (Nat.eqb (List.length (Alaska.cabins fare)) 1)); [discriminate|].
  destruct (Alaska.cabins fare) as [|cabin0 others] eqn:Hcabins; [discriminate|].
  destruct (Alaska.unknownCabin fare) eqn:Hunknown; [discriminate|].
  unfold Alaska.unknownCabin in Hunknown. rewrite Hcabins in Hunknown.
  apply negb_false_iff in Hunknown.
  pose proof (alaska_known_cabin cabin0 Hunknown) as Hvalue.
  assert (Hcabin : Invariants.alaskaCabin fare = get Alaska.cabinTable cabin0)
    by (unfold Invariants.alaskaCabin; now rewrite Hcabins).
  set (new := {| bookingClass := hd_error (Alaska.bookingCodes fare);
                 cabin := get Alaska.cabinTable cabin0;
                 cash := Alaska.grandTotal fare;
                 currencyOfCash := "USD";
                 miles := Alaska.milesPoints fare;
                 scraper := "alaska";
                 isSaverFare := Some (String.eqb cabin0 "SAVER") |}) in *.
  change (cabin new) with (get Alaska.cabinTable cabin0) in Hstep.
  set (same := fun f : FlightFare => strict_eq (cabin f) (get Alaska.cabinTable cabin0)) in *.
  assert (Hsame : forall f, same f = true <-> cabin f = get Alaska.cabinTable cabin0)
    by (intro f; apply strict_eq_spec).
  assert (Hnewgiven :
            (cabin new = VString "economy" \/ cabin new = VString "business")
            /\ exists g, In g (seen ++ [fare])
                         /\ cabin new = Invariants.alaskaCabin g
                         /\ miles new = Alaska.milesPoints g
                         /\ cash new = Alaska.grandTotal g
                         /\ bookingClass new = hd_error (Alaska.bookingCodes g)).
  { split; [exact Hvalue|]. exists fare. split; [apply in_app_iff; right; now left|].
    cbn. rewrite Hcabin. auto. }
  assert (Holdgiven :
            forall f, In f acc ->
              (cabin f = VString "economy" \/ cabin f = VString "business")
              /\ exists g, In g (seen ++ [fare])
                           /\ cabin f = Invariants.alaskaCabin g
                           /\ miles f = Alaska.milesPoints g
                           /\ cash f = Alaska.grandTotal g
                           /\ bookingClass f = hd_error (Alaska.bookingCodes g)).
  { intros f Hf. destruct (Hgiven f Hf) as [Hv (g & Hg & H)].
    split; [exact Hv|]. exists g. split; [apply in_app_iff; now left | exact H]. }
  destruct (find same acc) as [existing|] eqn:Hfind.
  - apply find_some in Hfind as [Hexisting Hex]. apply Hsame in Hex.
    destruct (miles new <? miles existing) eqn:Hlt; injection Hstep as <-.
    + apply Z.ltb_lt in Hlt. change (miles new) with (Alaska.milesPoints fare) in Hlt.
      repeat split.
      * rewrite map_app. apply NoDup_app.
        -- now apply removeFirst_NoDup.
        -- repeat constructor. intros [].
        -- intros k Hk [Heq|[]]. apply in_map_iff in Hk as (f & Hf & Hin).
           apply (removeFirst_removes cabin same _ acc f Hsame Hnodup Hin).
           rewrite Hf, <- Heq. reflexivity.
      * intros f g Hf Hg Hfg.
        apply in_app_iff in Hf as [Hf|[<-|[]]], Hg as [Hg|[<-|[]]].
        -- apply Hlow; [now apply removeFirst_In in Hf | assumption | assumption].
        -- exfalso. apply (removeFirst_removes cabin same _ acc f Hsame Hnodup Hf).
           now rewrite <- Hfg, Hcabin.
        -- change (miles new) with (Alaska.milesPoints fare).
           specialize (Hlow existing g Hexisting Hg). rewrite Hex in Hlow.
           specialize (Hlow Hfg). lia.
        -- change (miles new) with (Alaska.milesPoints fare). lia.
      * intros g Hg. apply in_app_iff in Hg as [Hg|[<-|[]]].
        -- destruct (Hpresent g Hg) as (f & Hf & Hfg).
           destruct (same f) eqn:Hsf.
           ++ apply Hsame in Hsf. exists new.
              split; [apply in_app_iff; right; now left|]. cbn. congruence.
           ++ exists f. split; [|assumption].
              apply in_app_iff. left. now apply removeFirst_keeps.
        -- exists new. split; [apply in_app_iff; right; now left|]. cbn. now rewrite Hcabin.
      * apply in_app_iff in H as [H|[<-|[]]];
          [apply Holdgiven; now apply removeFirst_In in H | apply Hnewgiven].
      * apply in_app_iff in H as [H|[<-|[]]];
          [apply Holdgiven; now apply removeFirst_In in H | apply Hnewgiven].
    + apply Z.ltb_ge in Hlt. change (miles new) with (Alaska.milesPoints fare) in Hlt.
      repeat split; try assumption.
      * intros f g Hf Hg Hfg. apply in_app_iff in Hg as [Hg|[<-|[]]]; [now apply Hlow|].
        assert (f = existing) as ->
          by (apply (NoDup_map_same_key cabin acc); try assumption;
              rewrite Hex, <- Hfg, Hcabin; reflexivity).
        lia.
      * intros g Hg. apply in_app_iff in Hg as [Hg|[<-|[]]]; [now apply Hpresent|].
        exists existing. split; [assumption|]. now rewrite Hcabin.
      * now apply Holdgiven.
      * now apply Holdgiven.
  - injection Hstep as <-.
    assert (Hfresh : forall f, In f acc -> cabin f <> get Alaska.cabinTable cabin0).
    { intros f Hf Heq. apply find_none with (x := f) in Hfind; [|assumption].
      apply Hsame in Heq. congruence. }
    repeat split.
    + rewrite map_app. apply NoDup_app; [assumption | repeat constructor; intros [] |].
      intros k Hk [Heq|[]]. apply in_map_iff in Hk as (f & Hf & Hin).
      apply (Hfresh f Hin). rewrite Hf, <- Heq. reflexivity.
    + intros f g Hf Hg Hfg.
      apply in_app_iff in Hf as [Hf|[<-|[]]], Hg as [Hg|[<-|[]]].
      * now apply Hlow.
      * exfalso. apply (Hfresh f Hf). now rewrite <- Hfg, Hcabin.
      * exfalso. destruct (Hpresent g Hg) as (f & Hf & Hf').
        apply (Hfresh f Hf). rewrite Hf', Hfg. reflexivity.
      * change (miles new) with (Alaska.milesPoints fare). lia.
    + intros g Hg. apply in_app_iff in Hg as [Hg|[<-|[]]].
      * destruct (Hpresent g Hg) as (f & Hf & Hfg).
        exists f. split; [apply in_app_iff; now left | assumption].
      * exists new. split; [apply in_app_iff; right; now left|]. cbn. now rewrite Hcabin.
    + apply in_app_iff in H as [H|[<-|[]]]; [now apply Holdgiven | apply Hnewgiven].
    + apply in_app_iff in H as [H|[<-|[]]]; [now apply Holdgiven | apply Hnewgiven].
Qed.

Lemma alaska_fare_loop (JSON_stringify : Alaska.Fare -> string) (rest : list Alaska.Fare) :
  forall acc seen out,
    Invariants.alaskaLowest acc seen ->
    foldM (Alaska.fareStep JSON_stringify) rest acc = Return out ->
    Invariants.alaskaLowest out (seen ++ rest).
Proof.
  induction rest as [|fare rest IH]; intros acc seen out Hinv H; simpl in H.
  - injection H as <-. now rewrite app_nil_r.
  - destruct (Alaska.fareStep JSON_stringify acc fare) as [|acc'] eqn:Hstep; [discriminate|].
    cbn [JS.bind] in H.
    replace (seen ++ fare :: rest)%list with ((seen ++ [fare]) ++ rest)%list
      by (now rewrite <- app_assoc).
    apply IH with (acc := acc'); [|assumption].
    exact (alaska_fareStep_keeps JSON_stringify acc seen fare acc' Hinv Hstep).
Qed.

(** X17: the fares alaska records for a slice hold at most one fare per
    cabin, economy or business; each is the price of one of the slice's
    fares and has no more miles than any fare of the slice that maps to the
    same cabin; every cabin of a fare of the slice has its fare. *)
Theorem alaska_lowest_fare_per_cabin (JSON_stringify : Alaska.Fare -> string)
    (sliceFares : list Alaska.Fare) (fares : list FlightFare) :
  foldM (Alaska.fareStep JSON_stringify) sliceFares [] = Return fares ->
  NoDup (map cabin fares)
  /\ (forall f g, In f fares -> In g sliceFares -> Invariants.alaskaCabin g = cabin f ->
                  miles f <= Alaska.milesPoints g)
  /\ (forall g, In g sliceFares -> exists f, In f fares /\ cabin f = Invariants.alaskaCabin g)
  /\ (forall f, In f fares ->
        (cabin f = VString "economy" \/ cabin f = VString "business")
        /\ exists g, In g sliceFares
                     /\ cabin f = Invariants.alaskaCabin g
                     /\ miles f = Alaska.milesPoints g
                     /\ cash f = Alaska.grandTotal g
                     /\ bookingClass f = hd_error (Alaska.bookingCodes g)).
Proof.
  intro H.
  apply (alaska_fare_loop JSON_stringify sliceFares [] [] fares); [|exact H].
  split; [constructor|]. split; [intros ? ? []|]. split; [intros ? []|intros ? []].
Qed.

Lemma alaska_lowest_fare_per_cabin_witness :
  exists fares,
    foldM (Alaska.fareStep (fun _ => ""))
      [ Samples.alaskaFare "MAIN" 15000; Samples.alaskaFare "FIRST" 40000;
        Samples.alaskaFare "SAVER" 12500; Samples.alaskaFare "COACH" 15000 ] []
    = Return fares
    /\ map (fun f => (cabin f, miles f, isSaverFare f)) fares
       = [ (VString "business", 40000, Some false); (VString "economy", 12500, Some true) ]
    /\ NoDup (map cabin fares).
Proof.
  eexists. split; [vm_compute; reflexivity|]. split; [reflexivity|].
  exact (proj1 (alaska_lowest_fare_per_cabin (fun _ => "")
                  [ Samples.alaskaFare "MAIN" 15000; Samples.alaskaFare "FIRST" 40000;
                    Samples.alaskaFare "SAVER" 12500; Samples.alaskaFare "COACH" 15000 ]
                  _ eq_refl)).
Defined.

Lemma alaska_slice_loop (JSON_stringify : Alaska.Fare -> string)
    (query : AwardWizQuery) (slices : list Alaska.Slice) :
  forall results out,
    foldM (Alaska.sliceStep JSON_stringify query) slices results = Return out ->
    exists added,
      out = (results ++ added)%list
      /\ Forall2 (Invariants.alaskaRecordOf JSON_stringify)
           (filter (Alaska.sliceKept query) slices) added
      /\ Forall (fun slice => Alaska.segments slice <> []) slices.
Proof.
  induction slices as [|slice rest IH]; intros results out H; simpl in H.
  - injection H as <-. exists []. rewrite app_nil_r. repeat split; constructor.
  - unfold Alaska.sliceStep at 1 in H. cbn [filter]. unfold Alaska.sliceKept at 1.
    destruct (Alaska.segments slice) as [|segment [|second more]] eqn:Hsegments.
    + discriminate.
    + cbn [List.length Z.of_nat] in H.
      replace (1 <? Z.pos (Pos.of_succ_nat 0)) with false in H by reflexivity.
      cbn [JS.first JS.bind] in H.
      destruct (String.eqb (Alaska.departureStation segment) (q_origin query)) eqn:Ho;
        destruct (String.eqb (Alaska.arrivalStation segment) (q_destination query)) eqn:Hd;
        cbn [negb orb andb JS.bind] in H |- *.
      * destruct (foldM (Alaska.fareStep JSON_stringify)
                    (Alaska.Object_values (Alaska.slice_fares slice)) [])
          as [|fs] eqn:Hfares; cbn [JS.bind] in H; [discriminate|].
        destruct (IH _ _ H) as (added & -> & Hadded & Hnonempty).
        eexists (_ :: added). rewrite <- app_assoc. split; [reflexivity|]. split.
        -- constructor; [|exact Hadded]. exists segment. cbn. repeat split; auto.
        -- constructor; [congruence | exact Hnonempty].
      * destruct (IH _ _ H) as (added & -> & Hadded & Hnonempty).
        exists added. repeat split; auto. constructor; [congruence | exact Hnonempty].
      * destruct (IH _ _ H) as (added & -> & Hadded & Hnonempty).
        exists added. repeat split; auto. constructor; [congruence | exact Hnonempty].
      * destruct (IH _ _ H) as (added & -> & Hadded & Hnonempty).
        exists added. repeat split; auto. constructor; [congruence | exact Hnonempty].
    + assert (Hlong : (1 <? Z.of_nat (List.length (segment :: second :: more))) = true)
        by (apply Z.ltb_lt; cbn [List.length]; lia).
      rewrite Hlong in H.
      destruct (IH _ _ H) as (added & -> & Hadded & Hnonempty).
      exists added. repeat split; auto. constructor; [congruence | exact Hnonempty].
Qed.

(** X18: alaska's [standardizeResults] returns one record for each slice
    that is flown in a single segment from the queried origin to the
    queried destination, in the order of the slices, with that segment's
    stations, flight number, duration and aircraft; connecting slices and
    slices of other airports leave no record. *)
Theorem alaska_records_of_nonstop_slices (JSON_stringify : Alaska.Fare -> string)
    (raw : Alaska.AlaskaResponse) (query : AwardWizQuery) (results : list FlightWithFares) :
  Alaska.standardizeResults JSON_stringify raw query = Return results ->
  exists slices,
    Alaska.slices raw = Some slices
    /\ Forall2 (Invariants.alaskaRecordOf JSON_stringify)
         (filter (Alaska.sliceKept query) slices) results
    /\ Forall (fun record => origin record = q_origin query
                             /\ destination record = q_destination query) results.
Proof.
  unfold Alaska.standardizeResults. intro H.
  destruct (Alaska.slices raw) as [slices|]; [|discriminate].
  exists slices. split; [reflexivity|].
  destruct (alaska_slice_loop _ _ _ _ _ H) as (added & -> & Hadded & _).
  cbn [app]. split; [exact Hadded|].
  remember (filter (Alaska.sliceKept query) slices) as kept eqn:Hkept.
  assert (Hall : Forall (fun s => Alaska.sliceKept query s = true) kept).
  { subst kept. apply Forall_forall. intros s Hs. now apply filter_In in Hs. }
  clear Hkept H.
  induction Hadded as [|slice record kept added Hrecord _ IH]; [constructor|].
  inversion Hall as [|? ? Hslice Hrest]; subst.
  constructor; [|now apply IH].
  destruct Hrecord as (segment & Hsegments & -> & -> & _).
  unfold Alaska.sliceKept in Hslice. rewrite Hsegments in Hslice.
  apply andb_true_iff in Hslice as [Ho Hd].
  apply String.eqb_eq in Ho, Hd. auto.
Qed.

Lemma alaska_records_of_nonstop_slices_witness :
  exists record,
    Alaska.standardizeResults (fun _ => "") Samples.alaskaNonstopAndConnecting Samples.query
    = Return [record]
    /\ origin record = "LAX" /\ destination record = "DXB".
Proof.
  eexists. split; [vm_compute; reflexivity|].
  destruct (alaska_records_of_nonstop_slices (fun _ => "")
              Samples.alaskaNonstopAndConnecting Samples.query _ eq_refl)
    as (slices & _ & _ & Hall).
  apply Forall_inv in Hall. exact Hall.
Defined.

(** X19: a fare that lists several booking codes or several cabins (or
    none) in a slice that alaska keeps makes [standardizeResults] throw:
    the whole search fails, not just that fare. *)
Theorem alaska_malformed_fare_throws (JSON_stringify : Alaska.Fare -> string)
    (raw : Alaska.AlaskaResponse) (query : AwardWizQuery)
    (slices : list Alaska.Slice) (slice : Alaska.Slice) (fare : Alaska.Fare) :
  Alaska.slices raw = Some slices ->
  In slice slices ->
  Alaska.sliceKept query slice = true ->
  In fare (Alaska.Object_values (Alaska.slice_fares slice)) ->
  List.length (Alaska.bookingCodes fare) <> 1%nat
  \/ List.length (Alaska.cabins fare) <> 1%nat ->
  exists e, Alaska.standardizeResults JSON_stringify raw query = Throw e.
Proof.
  intros Hraw Hslice Hkept Hfare Hmalformed.
  unfold Alaska.standardizeResults. rewrite Hraw.
  apply foldM_throws with (x := slice); [assumption|].
  intro results. unfold Alaska.sliceKept in Hkept. unfold Alaska.sliceStep.
  destruct (Alaska.segments slice) as [|segment [|? ?]]; try discriminate.
  apply andb_true_iff in Hkept as [Ho Hd].
  simpl. rewrite Ho, Hd. simpl.
  assert (Hthrows : forall fares,
                      exists e, Alaska.fareStep JSON_stringify fares fare = Throw e).
  { intro fares. unfold Alaska.fareStep.
    destruct (Nat.eqb (List.length (Alaska.bookingCodes fare)) 1) eqn:Hcodes;
      cbn [negb]; [|eexists; reflexivity].
    destruct (Nat.eqb (List.length (Alaska.cabins fare)) 1) eqn:Hcabins;
      cbn [negb]; [|eexists; reflexivity].
    apply Nat.eqb_eq in Hcodes, Hcabins. destruct Hmalformed; contradiction. }
  destruct (foldM_throws (Alaska.fareStep JSON_stringify)
              (Alaska.Object_values (Alaska.slice_fares slice)) fare Hfare Hthrows
              (@nil FlightFare)) as [e ->].
  now exists e.
Qed.

Lemma alaska_malformed_fare_throws_witness :
  exists e,
    Alaska.standardizeResults (fun _ => "") Samples.alaskaTwoBookingCodes Samples.query
    = Throw e.
Proof.
  eapply (alaska_malformed_fare_throws (fun _ => "") Samples.alaskaTwoBookingCodes
            Samples.query).
  - reflexivity.
  - left. reflexivity.
  - reflexivity.
  - right. left. reflexivity.
  - left. discriminate.
Defined.

(* ===================================================================== *)
(** ** gateway-scanner, roame-scraper: command line and polling          *)
(* ===================================================================== *)

Lemma indexOf_absent (args : list string) (flag : string) :
  ~ In flag args -> GatewayScanner.indexOf args flag = None.
Proof.
  induction args as [|a rest IH]; simpl; intro H; [reflexivity|].
  destruct (String.eqb a flag) eqn:Heq.
  - apply String.eqb_eq in Heq. exfalso. apply H. now left.
  - rewrite IH; [reflexivity|]. intro Hin. apply H. now right.
Qed.

Lemma indexOf_first (before rest : list string) (flag : string) :
  ~ In flag before ->
  GatewayScanner.indexOf (before ++ flag :: rest) flag = Some (List.length before).
Proof.
  induction before as [|a before IH]; simpl; intro H.
  - now rewrite String.eqb_refl.
  - destruct (String.eqb a flag) eqn:Heq.
    + apply String.eqb_eq in Heq. exfalso. apply H. now left.
    + rewrite IH; [reflexivity|]. intro Hin. apply H. now right.
Qed.

(** X20: [getArg] answers the argument that follows the first occurrence
    of the flag, whatever it is; it answers the default when the flag does
    not occur or when its first occurrence is the last argument. *)
Theorem getArg_first_occurrence (flag def : string) :
  (forall args, ~ In flag args -> GatewayScanner.getArg args flag def = def)
  /\ (forall before value after,
        ~ In flag before ->
        GatewayScanner.getArg (before ++ flag :: value :: after) flag def = value)
  /\ (forall before,
        ~ In flag before ->
        GatewayScanner.getArg (before ++ [flag]) flag def = def).
Proof.
  unfold GatewayScanner.getArg. split; [|split].
  - intros args H. now rewrite indexOf_absent.
  - intros before value after H. rewrite indexOf_first by assumption.
    rewrite length_app. cbn [List.length].
    replace (Nat.ltb (List.length before + 1) (List.length before + S (S (List.length after))))
      with true by (symmetry; apply Nat.ltb_lt; lia).
    rewrite nth_error_app2 by lia.
    replace (List.length before + 1 - List.length before)%nat with 1%nat by lia.
    reflexivity.
  - intros before H. rewrite indexOf_first by assumption.
    rewrite length_app. cbn [List.length].
    replace (Nat.ltb (List.length before + 1) (List.length before + 1))
      with false by (symmetry; apply Nat.ltb_ge; lia).
    reflexivity.
Qed.

Lemma getArg_first_occurrence_witness :
  GatewayScanner.getArg ["--home"; "SFO"; "--dest"; "NRT"; "--dest"; "HND"] "--dest" "DXB"
  = "NRT"
  /\ GatewayScanner.getArg ["--home"; "SFO"; "--date"] "--date" "2026-04-28" = "2026-04-28".
Proof.
  destruct (getArg_first_occurrence "--dest" "DXB") as (_ & Hvalue & _).
  destruct (getArg_first_occurrence "--date" "2026-04-28") as (_ & _ & Hlast).
  split.
  - apply (Hvalue ["--home"; "SFO"] "NRT" ["--dest"; "HND"]).
    simpl. intuition discriminate.
  - apply (Hlast ["--home"; "SFO"]). simpl. intuition discriminate.
Defined.

(** With rounds at least 3000 ms apart, the loop ends before its fuel. *)
Lemma pollLoop_returns (w : Roame.World) (start maxWaitMs : Z) (fuel : nat) :
  (forall j, 3000 * Z.of_nat j <= Roame.now w (S j) - start) ->
  forall i st,
    (1 <= fuel)%nat ->
    maxWaitMs <= 3000 * (Z.of_nat i + Z.of_nat fuel - 1) ->
    Roame.pollLoop w start maxWaitMs fuel i st <> None.
Proof.
  intro Hclock. induction fuel as [|fuel IH]; intros i st Hpositive Hfuel; [lia|].
  cbn [Roame.pollLoop].
  destruct (Roame.now w (S i) - start <? maxWaitMs) eqn:Htime; [|discriminate].
  apply Z.ltb_lt in Htime. specialize (Hclock i).
  assert (Hmore : (1 <= fuel)%nat) by lia.
  assert (Hnext : maxWaitMs <= 3000 * (Z.of_nat (S i) + Z.of_nat fuel - 1)) by lia.
  destruct (Roame.graphql w i) as [e|[text|percentCompleted fares]]; try discriminate.
  destruct (100 <=? percentCompleted); [discriminate|].
  destruct (_ && _).
  - destruct (Nat.leb 3 _); [discriminate|]. now apply IH.
  - now apply IH.
Qed.

(** X21: [pollResults] comes to an end: when each round of the loop reads
    the clock at least 3000 ms after the round before (the loop sleeps
    that long), it returns or throws within maxWaitMs / 3000 + 1 rounds. *)
Theorem pollResults_terminates (w : Roame.World) (maxWaitMs : Z) (fuel : nat) :
  Roame.now w 0%nat <= Roame.now w 1%nat ->
  (forall j, Roame.now w (S j) + 3000 <= Roame.now w (S (S j))) ->
  maxWaitMs + 3000 <= 3000 * Z.of_nat fuel ->
  0 <= maxWaitMs ->
  exists outcome, Roame.pollResults w maxWaitMs fuel = Some outcome.
Proof.
  intros Hfirst Hsleep Hfuel Hwait.
  destruct (Roame.pollResults w maxWaitMs fuel) as [outcome|] eqn:Hrun;
    [now exists outcome|].
  exfalso. revert Hrun. unfold Roame.pollResults.
  apply pollLoop_returns; [|lia|lia].
  induction j as [|j IH]; [lia|].
  specialize (Hsleep j). lia.
Qed.

Lemma pollResults_terminates_witness :
  let w := {| Roame.now := fun k => 1000 + 3000 * Z.of_nat k;
              Roame.graphql := fun i => Return (Roame.PollData (Z.of_nat i) []) |} in
  exists outcome, Roame.pollResults w 60000 21 = Some outcome.
Proof.
  intro w. apply (pollResults_terminates w 60000 21); unfold w; cbn [Roame.now];
    intros; lia.
Defined.

Lemma pollLoop_result (w : Roame.World) (start maxWaitMs : Z) (fuel : nat) :
  forall i st r,
    (Roame.staleCount st <= i)%nat ->
    (forall k, (k < Roame.staleCount st)%nat ->
               exists fares,
                 Roame.graphql w (i - 1 - k)
                 = Return (Roame.PollData (Roame.lastPct st) fares)
                 /\ List.length fares = Roame.lastFareCount st) ->
    Roame.pollLoop w start maxWaitMs fuel i st = Some (Return r) ->
    Roame.r_fares r = []
    \/ exists j,
         Roame.graphql w j
         = Return (Roame.PollData (Roame.r_percentCompleted r) (Roame.r_fares r))
         /\ (100 <= Roame.r_percentCompleted r
             \/ (2 <= j)%nat
                /\ exists before1 before2,
                     Roame.graphql w (j - 1)
                     = Return (Roame.PollData (Roame.r_percentCompleted r) before1)
                     /\ Roame.graphql w (j - 2)
                        = Return (Roame.PollData (Roame.r_percentCompleted r) before2)
                     /\ List.length before1 = List.length (Roame.r_fares r)
                     /\ List.length before2 = List.length (Roame.r_fares r)).
Proof.
  induction fuel as [|fuel IH]; intros i st r Hcount Hstale H; [discriminate|].
  cbn [Roame.pollLoop] in H.
  destruct (Roame.now w (S i) - start <? maxWaitMs).
  2:{ injection H as <-. now left. }
  destruct (Roame.graphql w i) as [e|[text|percentCompleted fares]] eqn:Hpoll;
    try discriminate.
  destruct (100 <=? percentCompleted) eqn:Hdone.
  { injection H as <-. right. exists i. split; [exact Hpoll|].
    left. now apply Z.leb_le in Hdone. }
  destruct (Nat.eqb (List.length fares) (Roame.lastFareCount st)
            && (percentCompleted =? Roame.lastPct st)) eqn:Hsame.
  - apply andb_true_iff in Hsame as [Hlen Hpct].
    apply Nat.eqb_eq in Hlen. apply Z.eqb_eq in Hpct.
    destruct (Nat.leb 3 (Roame.staleCount st + 1)) eqn:Hthree.
    + injection H as <-. apply Nat.leb_le in Hthree.
      right. exists i. split; [exact Hpoll|]. right.
      split; [lia|].
      destruct (Hstale 0%nat) as (before1 & Hb1 & Hl1); [lia|].
      destruct (Hstale 1%nat) as (before2 & Hb2 & Hl2); [lia|].
      exists before1, before2. cbn [Roame.r_percentCompleted Roame.r_fares].
      replace (i - 1 - 0)%nat with (i - 1)%nat in Hb1 by lia.
      replace (i - 1 - 1)%nat with (i - 2)%nat in Hb2 by lia.
      rewrite Hpct. repeat split; congruence.
    + refine (IH _ _ _ _ _ H); [cbn [Roame.staleCount]; lia|].
      cbn [Roame.staleCount Roame.lastPct Roame.lastFareCount].
      intros [|k] Hk.
      * exists fares. replace (S i - 1 - 0)%nat with i by lia. split; [exact Hpoll|reflexivity].
      * destruct (Hstale k) as (before & Hb & Hl); [lia|].
        exists before. replace (S i - 1 - S k)%nat with (i - 1 - k)%nat by lia.
        rewrite Hpct. split; [exact Hb | congruence].
  - refine (IH _ _ _ _ _ H); [cbn [Roame.staleCount]; lia|].
    cbn [Roame.staleCount]. intros k Hk. lia.
Qed.

(** X22: what [pollResults] returns is either the empty list (the wait
    ran out) or the fares and percentage of one of the polls; that poll
    reported 100 percent or more, or else it was at least the third poll
    and had the same percentage and number of fares as the two polls
    before it (the search stalled). Fares of a search that is still making
    progress are never returned. *)
Theorem pollResults_returns_complete_or_stalled (w : Roame.World) (maxWaitMs : Z)
    (fuel : nat) (r : Roame.PollReturn) :
  Roame.pollResults w maxWaitMs fuel = Some (Return r) ->
  Roame.r_fares r = []
  \/ exists j,
       Roame.graphql w j
       = Return (Roame.PollData (Roame.r_percentCompleted r) (Roame.r_fares r))
       /\ (100 <= Roame.r_percentCompleted r
           \/ (2 <= j)%nat
              /\ exists before1 before2,
                   Roame.graphql w (j - 1)
                   = Return (Roame.PollData (Roame.r_percentCompleted r) before1)
                   /\ Roame.graphql w (j - 2)
                      = Return (Roame.PollData (Roame.r_percentCompleted r) before2)
                   /\ List.length before1 = List.length (Roame.r_fares r)
                   /\ List.length before2 = List.length (Roame.r_fares r)).
Proof.
  unfold Roame.pollResults. apply pollLoop_result.
  - cbn. lia.
  - cbn. intros k Hk. lia.
Qed.

Lemma pollResults_returns_complete_or_stalled_witness :
  Roame.pollResults Samples.stalledSearch 60000 10
  = Some (Return {| Roame.r_fares := [ Samples.roameFare "EMIRATES" 90000;
                                       Samples.roameFare "QANTAS" 120000 ];
                    Roame.r_percentCompleted := 50 |})
  /\ exists j,
       (2 <= j)%nat
       /\ Roame.graphql Samples.stalledSearch j
          = Return (Roame.PollData 50 [ Samples.roameFare "EMIRATES" 90000;
                                        Samples.roameFare "QANTAS" 120000 ]).
Proof.
  split; [reflexivity|].
  destruct (pollResults_returns_complete_or_stalled Samples.stalledSearch 60000 10
              _ eq_refl) as [Hempty|(j & Hpoll & [Hdone|(Hj & _)])].
  - discriminate.
  - cbn in Hdone. lia.
  - exists j. split; [exact Hj | reflexivity].
Defined.

(* ===================================================================== *)
(** ** roame-scraper: fares by program                                   *)
(* ===================================================================== *)

Lemma Map_push_keys (m : list (string * list Roame.RoameFare)) (fare : Roame.RoameFare) :
  (In (Roame.mileageProgram fare) (map fst m) -> map fst (Roame.Map_push m fare) = map fst m)
  /\ (~ In (Roame.mileageProgram fare) (map fst m) ->
      map fst (Roame.Map_push m fare) = (map fst m ++ [Roame.mileageProgram fare])%list).
Proof.
  induction m as [|[program existing] rest [IHin IHout]]; simpl.
  - split; [intros [] | reflexivity].
  - destruct (String.eqb program (Roame.mileageProgram fare)) eqn:Heq; simpl.
    + split; [reflexivity|]. apply String.eqb_eq in Heq. intro H. exfalso. apply H. now left.
    + apply String.eqb_neq in Heq. split.
      * intros [H|H]; [contradiction|]. now rewrite IHin.
      * intro H. rewrite IHout; [reflexivity|]. intro Hin. apply H. now right.
Qed.

Lemma Map_push_groups (m : list (string * list Roame.RoameFare)) (fare : Roame.RoameFare)
    (program : string) (group : list Roame.RoameFare) :
  NoDup (map fst m) ->
  In (program, group) (Roame.Map_push m fare) ->
  (In (program, group) m /\ program <> Roame.mileageProgram fare)
  \/ (program = Roame.mileageProgram fare
      /\ exists old, group = (old ++ [fare])%list
                     /\ (In (program, old) m
                         \/ (old = [] /\ ~ In program (map fst m)))).
Proof.
  induction m as [|[p existing] rest IH]; simpl; intro Hnodup.
  - intros [H|[]]. injection H as <- <-. right. split; [reflexivity|].
    exists []. split; [reflexivity|]. right. split; [reflexivity | intros []].
  - inversion Hnodup as [|? ? Hnotin Hrest]; subst.
    destruct (String.eqb p (Roame.mileageProgram fare)) eqn:Heq; simpl.
    + apply String.eqb_eq in Heq. intros [H|H].
      * injection H as <- <-. right. split; [assumption|].
        exists existing. split; [reflexivity|]. left. now left.
      * left. split; [now right|]. intro Hp. apply Hnotin.
        rewrite Heq, <- Hp. apply in_map_iff. now exists (program, group).
    + apply String.eqb_neq in Heq. intros [H|H].
      * injection H as <- <-. left. split; [now left | assumption].
      * destruct (IH Hrest H) as [[Hin Hne]|(Hp & old & Hgroup & Hold)].
        -- left. split; [now right | assumption].
        -- right. split; [assumption|]. exists old. split; [assumption|].
           destruct Hold as [Hold|[Hold Hfresh]]; [left; now right|].
           right. split; [assumption|]. intros [Hhead|Htail]; [congruence | contradiction].
Qed.

Lemma filter_program_snoc (seen : list Roame.RoameFare) (fare : Roame.RoameFare)
    (program : string) :
  filter (fun f => String.eqb (Roame.mileageProgram f) program) (seen ++ [fare])
  = (filter (fun f => String.eqb (Roame.mileageProgram f) program) seen
     ++ if String.eqb (Roame.mileageProgram fare) program then [fare] else [])%list.
Proof. rewrite filter_app. reflexivity. Qed.

Lemma byProgram_loop (rest : list Roame.RoameFare) :
  forall m seen,
    NoDup (map fst m) ->
    (forall program group, In (program, group) m ->
       group <> []
       /\ group = filter (fun f => String.eqb (Roame.mileageProgram f) program) seen) ->
    (forall f, In f seen -> In (Roame.mileageProgram f) (map fst m)) ->
    let out := fold_left Roame.Map_push rest m in
    NoDup (map fst out)
    /\ (forall program group, In (program, group) out ->
          group <> []
          /\ group = filter (fun f => String.eqb (Roame.mileageProgram f) program)
                       (seen ++ rest))
    /\ (forall f, In f (seen ++ rest) -> In (Roame.mileageProgram f) (map fst out)).
Proof.
  induction rest as [|fare rest IH]; intros m seen Hnodup Hgroups Hcover; cbv zeta.
  - cbn [fold_left]. rewrite app_nil_r. auto.
  - cbn [fold_left].
    replace (seen ++ fare :: rest)%list with ((seen ++ [fare]) ++ rest)%list
      by (now rewrite <- app_assoc).
    destruct (Map_push_keys m fare) as [Hkeysin Hkeysout].
    apply IH.
    + destruct (in_dec string_dec (Roame.mileageProgram fare) (map fst m)) as [Hin|Hout].
      * now rewrite Hkeysin.
      * rewrite Hkeysout by assumption.
        apply NoDup_app; [assumption | repeat constructor; intros [] |].
        intros k Hk [<-|[]]. contradiction.
    + intros program group Hin.
      rewrite filter_program_snoc.
      destruct (Map_push_groups m fare program group Hnodup Hin)
        as [[Hold Hne]|(-> & old & -> & Hold)].
      * destruct (Hgroups _ _ Hold) as [Hnonempty ->]. split; [assumption|].
        assert (String.eqb (Roame.mileageProgram fare) program = false) as ->
          by (apply String.eqb_neq; congruence).
        now rewrite app_nil_r.
      * rewrite String.eqb_refl. split; [destruct old; discriminate|].
        f_equal. destruct Hold as [Hold|[-> Hfresh]].
        -- now destruct (Hgroups _ _ Hold).
        -- symmetry. clear -Hfresh Hcover.
           induction seen as [|f seen IHs]; [reflexivity|]. cbn [filter].
           destruct (String.eqb (Roame.mileageProgram f) (Roame.mileageProgram fare)) eqn:Heq.
           ++ apply String.eqb_eq in Heq. exfalso. apply Hfresh.
              rewrite <- Heq. apply Hcover. now left.
           ++ apply IHs. intros f' Hf'. apply Hcover. now right.
    + intros f Hf. apply in_app_iff in Hf as [Hf|[<-|[]]].
      * specialize (Hcover f Hf).
        destruct (in_dec string_dec (Roame.mileageProgram fare) (map fst m)) as [Hin|Hout].
        -- now rewrite Hkeysin.
        -- rewrite Hkeysout by assumption. apply in_app_iff. now left.
      * destruct (in_dec string_dec (Roame.mileageProgram fare) (map fst m)) as [Hin|Hout].
        -- now rewrite Hkeysin.
        -- rewrite Hkeysout by assumption. apply in_app_iff. right. now left.
Qed.

(** X23: [byProgram] groups the fares by mileage program: each program
    occurs once, its group is not empty and holds exactly the fares of
    that program, in the order in which they were found, and every fare is
    in the group of its program. *)
Theorem byProgram_groups (fares : list Roame.RoameFare) :
  NoDup (map fst (Roame.byProgram fares))
  /\ (forall program group, In (program, group) (Roame.byProgram fares) ->
        group <> []
        /\ group = filter (fun f => String.eqb (Roame.mileageProgram f) program) fares)
  /\ (forall f, In f fares ->
        exists group, In (Roame.mileageProgram f, group) (Roame.byProgram fares)
                      /\ In f group).
Proof.
  unfold Roame.byProgram.
  destruct (byProgram_loop fares [] []) as (Hnodup & Hgroups & Hcover);
    [constructor | intros ? ? [] | intros ? [] |].
  cbn [app] in Hgroups, Hcover.
  split; [exact Hnodup|]. split; [exact Hgroups|].
  intros f Hf. specialize (Hcover f Hf).
  apply in_map_iff in Hcover as ([program group] & Hkey & Hin). cbn [fst] in Hkey. subst.
  exists group. split; [exact Hin|].
  destruct (Hgroups _ _ Hin) as [_ ->]. apply filter_In. split; [exact Hf|].
  apply String.eqb_refl.
Qed.

Lemma fold_min_spec (rest : list Z) :
  forall x,
    fold_left Z.min rest x <= x
    /\ (forall y, In y rest -> fold_left Z.min rest x <= y)
    /\ (fold_left Z.min rest x = x \/ In (fold_left Z.min rest x) rest).
Proof.
  induction rest as [|z rest IH]; intro x; simpl.
  - split; [lia|]. split; [intros y []|now left].
  - destruct (IH (Z.min x z)) as (Hle & Hall & Hin). split; [lia|]. split.
    + intros y [<-|Hy]; [lia | now apply Hall].
    + destruct Hin as [Heq|Hin]; [|right; now right].
      rewrite Heq. destruct (Z.min_spec x z) as [[_ ->]|[_ ->]]; [now left | right; now left].
Qed.

(** The best fare of a group that is not empty: a lower bound of its
    fares that one of them attains. *)
Lemma Math_min_group (group : list Roame.RoameFare) :
  group <> [] ->
  exists best cheapest,
    Roame.Math_min (map Roame.awardPoints group) = Some best
    /\ In cheapest group
    /\ Roame.awardPoints cheapest = best
    /\ forall f, In f group -> best <= Roame.awardPoints f.
Proof.
  destruct group as [|first rest]; [congruence|]. intros _.
  cbn [map Roame.Math_min].
  destruct (fold_min_spec (map Roame.awardPoints rest) (Roame.awardPoints first))
    as (Hle & Hall & Hin).
  exists (fold_left Z.min (map Roame.awardPoints rest) (Roame.awardPoints first)).
  destruct Hin as [Heq|Hin].
  - exists first. split; [reflexivity|]. split; [now left|]. split; [now symmetry|].
    intros f [<-|Hf]; [exact Hle|]. apply Hall. now apply in_map.
  - apply in_map_iff in Hin as (c & Hc & Hin).
    exists c. split; [reflexivity|]. split; [now right|]. split; [exact Hc|].
    intros f [<-|Hf]; [exact Hle|]. apply Hall. now apply in_map.
Qed.

(** X24: [sortedPrograms] lists the groups of [byProgram], rearranged so
    that a program's best fare (its fewest award points) never exceeds
    that of a program listed after it; so the program listed first holds a
    fare with the fewest points of all fares. *)
Theorem sortedPrograms_cheapest_first (fares : list Roame.RoameFare) :
  Permutation (Roame.byProgram fares) (Roame.sortedPrograms fares)
  /\ StronglySorted
       (fun a b =>
          forall bestA bestB,
            Roame.Math_min (map Roame.awardPoints (snd a)) = Some bestA ->
            Roame.Math_min (map Roame.awardPoints (snd b)) = Some bestB ->
            bestA <= bestB)
       (Roame.sortedPrograms fares)
  /\ (forall first rest,
        Roame.sortedPrograms fares = first :: rest ->
        exists cheapest,
          In cheapest (snd first)
          /\ forall f, In f fares -> Roame.awardPoints cheapest <= Roame.awardPoints f).
Proof.
  assert (Hgroups : forall program group,
                      In (program, group) (Roame.byProgram fares) -> group <> []).
  { unfold Roame.byProgram.
    destruct (byProgram_loop fares [] []) as (_ & H & _);
      [constructor | intros ? ? [] | intros ? [] |].
    intros program group Hin. now destruct (H program group Hin). }
  assert (Hcover : forall f, In f fares ->
                     exists group,
                       In (Roame.mileageProgram f, group) (Roame.byProgram fares)
                       /\ In f group).
  { unfold Roame.byProgram.
    destruct (byProgram_loop fares [] []) as (_ & H & Hkeys);
      [constructor | intros ? ? [] | intros ? [] |].
    cbn [app] in H, Hkeys. intros f Hf. specialize (Hkeys f Hf).
    apply in_map_iff in Hkeys as ([program group] & Hkey & Hin). cbn [fst] in Hkey. subst.
    exists group. split; [exact Hin|].
    destruct (H _ _ Hin) as [_ ->]. apply filter_In. split; [exact Hf|].
    apply String.eqb_refl. }
  unfold Roame.sortedPrograms.
  set (key := fun g : string * list Roame.RoameFare =>
                match Roame.Math_min (map Roame.awardPoints (snd g)) with
                | Some best => best
                | None => 0
                end).
  assert (Hbest : forall g, In g (Roame.byProgram fares) ->
                            Roame.Math_min (map Roame.awardPoints (snd g)) = Some (key g)).
  { intros [program group] Hg. pose proof (Hgroups _ _ Hg) as Hnonempty.
    destruct (Math_min_group group Hnonempty) as (best & _ & Hmin & _).
    unfold key. cbn [snd]. now rewrite Hmin. }
  assert (Hsort : JS.sort Roame.byBestFare (Roame.byProgram fares)
                  = JS.sort (fun a b => (fun g => - key g) b - (fun g => - key g) a)
                      (Roame.byProgram fares)).
  { apply sort_ext. intros a b Ha Hb. unfold Roame.byBestFare.
    rewrite (Hbest a Ha), (Hbest b Hb). lia. }
  assert (Hsorted : StronglySorted (fun a b => key a <= key b)
                      (JS.sort Roame.byBestFare (Roame.byProgram fares))).
  { rewrite Hsort.
    pose proof (sort_descending (fun g => - key g) (Roame.byProgram fares)) as H.
    cbv beta in H.
    clear -H. induction H as [|g rest Hrest IH Hall]; constructor; [exact IH|].
    eapply Forall_impl; [|exact Hall]. cbv beta. intros b Hab. lia. }
  split; [apply sort_perm|]. split.
  - clear -Hsorted Hbest.
    assert (Hin : forall g, In g (JS.sort Roame.byBestFare (Roame.byProgram fares)) ->
                            In g (Roame.byProgram fares))
      by (intros g Hg; exact (Permutation_in _ (Permutation_sym (sort_perm _ _)) Hg)).
    induction Hsorted as [|g rest Hrest IH Hall]; constructor.
    + apply IH. intros g' Hg'. apply Hin. now right.
    + apply Forall_forall. intros g' Hg' bestA bestB HA HB.
      rewrite (Hbest g) in HA by (apply Hin; now left).
      rewrite (Hbest g') in HB by (apply Hin; now right).
      injection HA as <-. injection HB as <-.
      rewrite Forall_forall in Hall. now apply Hall.
  - intros first rest Heq. rewrite Heq in Hsorted.
    inversion Hsorted as [|? ? _ Hall]; subst.
    assert (Hin : forall g, In g (Roame.byProgram fares) -> In g (first :: rest))
      by (intros g Hg; rewrite <- Heq; exact (Permutation_in _ (sort_perm _ _) Hg)).
    assert (Hfirst : In first (Roame.byProgram fares)).
    { apply (Permutation_in _ (Permutation_sym
                                 (sort_perm Roame.byBestFare (Roame.byProgram fares)))).
      rewrite Heq. now left. }
    destruct first as [program group]. pose proof (Hgroups _ _ Hfirst) as Hnonempty.
    destruct (Math_min_group group Hnonempty) as (best & cheapest & Hmin & Hc & Hpoints & _).
    exists cheapest. split; [exact Hc|].
    intros f Hf. destruct (Hcover f Hf) as (g & Hg & Hfg).
    pose proof (Hgroups _ _ Hg) as Hgne.
    destruct (Math_min_group g Hgne) as (bestg & _ & Hming & _ & _ & Hlow).
    specialize (Hlow f Hfg).
    assert (Hkeys : key (program, group) <= key (Roame.mileageProgram f, g)).
    { destruct (Hin _ Hg) as [<-|Hrest]; [lia|].
      rewrite Forall_forall in Hall. now apply Hall. }
    unfold key in Hkeys. cbn [snd] in Hkeys. rewrite Hmin, Hming in Hkeys. lia.
Qed.

(* ===================================================================== *)
(** ** what a caller of [runScraper] gets                                *)
(* ===================================================================== *)

Lemma united_kept_on_date (query : AwardWizQuery) (unitedTrip : United.Trip)
    (results : list FlightWithFares) :
  United.standardizeResults query unitedTrip = Return results ->
  Forall (fun record =>
            slice0 10 (departureDateTime record) = slice0 10 (q_departureDate query))
    results.
Proof.
  unfold United.standardizeResults. intro H.
  destruct (united_flight_loop _ _ _ _ _ H) as (added & -> & Hadded).
  cbn [app]. clear H.
  assert (Hall : Forall (fun f => United.flightKept query unitedTrip f = true)
                   (filter (United.flightKept query unitedTrip) (United.Flights unitedTrip))).
  { apply Forall_forall. intros f Hf. now apply filter_In in Hf. }
  induction Hadded as [|flight record kept added Hrecord _ IH]; [constructor|].
  inversion Hall as [|? ? Hflight Hrest]; subst.
  constructor; [|now apply IH].
  destruct Hrecord as (_ & _ & -> & _).
  unfold United.flightKept in Hflight.
  apply andb_true_iff in Hflight as [_ Hdate].
  now apply String.eqb_eq in Hdate.
Qed.

(** X25: when united's [runScraper] returns records, the page load was
    not the anti-botting page, the token and the response text were not
    empty, and the records are those of the first trip of the response
    only (or none, when the response has no trips); every one of them
    departs on the queried date. Later trips are never read. *)
Theorem united_run_reads_first_trip
    (JSON_parse : string -> Exc United.UnitedResponse)
    (arkalis : Arkalis) (query : AwardWizQuery) (results : list FlightWithFares) :
  United.runScraper JSON_parse arkalis query = Return results ->
  (exists pageResult tokenResp responseText fetchFlights,
     waitFor arkalis United.waitConditions = Return pageResult
     /\ mr_name pageResult <> "anti-botting"
     /\ evaluate arkalis (FetchTokenHash "/api/auth/anonymous-token")
        = Return tokenResp
     /\ tokenResp <> ""
     /\ evaluate arkalis (United.fetchFlightsCall query tokenResp) = Return responseText
     /\ responseText <> ""
     /\ JSON_parse responseText = Return fetchFlights
     /\ match United.data fetchFlights with
        | Some (Some (trip0 :: _)) => United.standardizeResults query trip0 = Return results
        | _ => results = []
        end)
  /\ Forall (fun record =>
               slice0 10 (departureDateTime record) = slice0 10 (q_departureDate query))
       results.
Proof.
  unfold United.runScraper. intro H.
  destruct (waitFor arkalis United.waitConditions) as [|pageResult] eqn:Hwait;
    [discriminate|].
  cbn [JS.bind] in H.
  destruct (String.eqb (mr_name pageResult) "anti-botting") eqn:Hname; [discriminate|].
  destruct (evaluate arkalis (FetchTokenHash "/api/auth/anonymous-token"))
    as [|tokenResp] eqn:Htoken; [discriminate|].
  cbn [JS.bind] in H.
  destruct (String.eqb tokenResp "") eqn:Hempty; [discriminate|].
  destruct (evaluate arkalis (United.fetchFlightsCall query tokenResp))
    as [|responseText] eqn:Hfetch; [discriminate|].
  cbn [JS.bind] in H.
  destruct (String.eqb responseText "") eqn:Hnone; [discriminate|].
  destruct (JSON_parse responseText) as [|fetchFlights] eqn:Hparse; [discriminate|].
  cbn [JS.bind] in H.
  apply String.eqb_neq in Hname, Hempty, Hnone.
  assert (Hshape : match United.data fetchFlights with
                   | Some (Some (trip0 :: _)) =>
                       United.standardizeResults query trip0 = Return results
                   | _ => results = []
                   end).
  { destruct (United.data fetchFlights) as [[[|trip0 more]|]|];
      try (injection H as <-; reflexivity).
    destruct (United.standardizeResults query trip0) as [|flights]; [discriminate|].
    cbn [JS.bind] in H. now injection H as <-. }
  split.
  - exists pageResult, tokenResp, responseText, fetchFlights. repeat split; assumption.
  - destruct (United.data fetchFlights) as [[[|trip0 more]|]|];
      try (subst results; constructor).
    exact (united_kept_on_date _ _ _ Hshape).
Qed.

Lemma united_run_reads_first_trip_witness :
  let parse (_ : string) : Exc United.UnitedResponse :=
    Return {| United.data :=
                Some (Some [ Samples.unitedTrip (Samples.unitedProduct "Economy" 40000);
                             Samples.unitedTrip Samples.pricedMystery ]) |} in
  exists record,
    United.runScraper parse Samples.emptyAnswerEngine Samples.query = Return [record]
    /\ slice0 10 (departureDateTime record) = "2026-04-28".
Proof.
  intro parse. eexists. split; [vm_compute; reflexivity|].
  destruct (united_run_reads_first_trip parse Samples.emptyAnswerEngine Samples.query
              _ eq_refl) as [_ Hall].
  apply Forall_inv in Hall. exact Hall.
Defined.

(** X26: every record that aa's [runScraper] returns runs from the queried
    origin to the queried destination, and comes from the slices of a
    response that was read after a successful page load and was not
    empty; with no [slices] in the response there are no records. *)
Theorem aa_run_records_match_query
    (JSON_stringify : AA.Segment -> string) (JSON_parse : string -> Exc AA.AAResponse)
    (arkalis : Arkalis) (query : AwardWizQuery) (results : list FlightWithFares) :
  AA.runScraper JSON_stringify JSON_parse arkalis query = Return results ->
  (exists loaded responseText json,
     waitFor arkalis AA.waitConditions = Return loaded
     /\ evaluate arkalis (AA.searchCall query) = Return responseText
     /\ responseText <> ""
     /\ JSON_parse responseText = Return json
     /\ AA.standardizeResults JSON_stringify
          match AA.slices json with Some s => s | None => [] end query
        = Return results
     /\ (AA.slices json = None -> results = []))
  /\ Forall (fun record => origin record = q_origin query
                           /\ destination record = q_destination query)
       results.
Proof.
  unfold AA.runScraper. intro H.
  destruct (waitFor arkalis AA.waitConditions) as [|loaded] eqn:Hwait; [discriminate|].
  cbn [JS.bind] in H.
  destruct (evaluate arkalis (AA.searchCall query)) as [|responseText] eqn:Hfetch;
    [discriminate|].
  cbn [JS.bind] in H.
  destruct (String.eqb responseText "") eqn:Hnone; [discriminate|].
  destruct (JSON_parse responseText) as [|json] eqn:Hparse; [discriminate|].
  cbn [JS.bind] in H. cbv zeta in H.
  apply String.eqb_neq in Hnone.
  assert (Hstd : AA.standardizeResults JSON_stringify
                   match AA.slices json with Some s => s | None => [] end query
                 = Return results).
  { destruct (0 <? match AA.errorNumber json with Some n => n | None => 0 end);
      [|exact H].
    destruct (AA.error json) as [e|], (AA.message json) as [m|];
      repeat match type of H with
             | (if ?c then _ else _) = _ => destruct c; try discriminate
             end; exact H. }
  split.
  - exists loaded, responseText, json. repeat split; try assumption.
    intro Hslices. rewrite Hslices in Hstd. now injection Hstd as <-.
  - clear H. unfold AA.standardizeResults in Hstd.
    destruct (mapM (AA.standardizeSlice JSON_stringify query)
                match AA.slices json with Some s => s | None => [] end)
      as [|mapped] eqn:Hmap; [discriminate|].
    cbn [JS.bind] in Hstd. injection Hstd as <-.
    apply Forall_forall. intros record Hrecord.
    apply dropUndefined_In in Hrecord.
    destruct (mapM_preimage _ _ _ Hmap _ Hrecord) as (slice & _ & Hslice).
    destruct (standardizeSlice_route _ _ _ _ Hslice)
      as (_ & _ & _ & _ & _ & _ & Ho & Hd & _).
    split; assumption.
Qed.

Lemma aa_run_records_match_query_witness :
  let parse (_ : string) : Exc AA.AAResponse :=
    Return {| AA.errorNumber := None; AA.error := None; AA.message := None;
              AA.slices := Some [ Samples.aaSlice
                                    [ Samples.aaProduct true (Some "T") "COACH" 30000 ] ] |} in
  exists record,
    AA.runScraper (fun _ => "") parse Samples.emptyAnswerEngine Samples.query
    = Return [record]
    /\ origin record = "LAX" /\ destination record = "DXB".
Proof.
  intro parse. eexists. split; [vm_compute; reflexivity|].
  destruct (aa_run_records_match_query (fun _ => "") parse Samples.emptyAnswerEngine
              Samples.query _ eq_refl) as [_ Hall].
  apply Forall_inv in Hall. exact Hall.
Defined.
